(** * mdjournal: the schedule / todo engine of the daily-report editor

  A shallow embedding of the two hooks that carry the logic of the editor:
  - [useTimelineDrag] (the time-drag engine: snapping, clamping, copy of a
    plan entry into the result list), and
  - [useReport] (the report aggregate: editing operations and the
    line-oriented markdown decoder [parseReportFromMarkdown]).

  JavaScript strings are sequences of UTF-16 code units and are modelled
  as [list N]; the regular expressions of the decoder are transcribed
  into a small backtracking matcher with the priorities of the
  JavaScript one (greedy and lazy stars, ordered alternation, numbered
  groups, leftmost search). *)

From Stdlib Require Import ZArith QArith Qround Lia.
From stdpp Require Import base list strings gmap pretty sorting.

Open Scope Z_scope.

(** ** JavaScript strings *)

Module JS.

(** A string is a list of UTF-16 code units. *)
Abbreviation jsstring := (list N).

(** An ASCII literal as a JavaScript string. *)
Definition js (s : string) : jsstring :=
  Ascii.N_of_ascii <$> String.list_ascii_of_string s.

(** WhiteSpace and LineTerminator code units: the class [\s] of regular
    expressions, and what [String.prototype.trim] strips. *)
Definition isWhiteSpace (c : N) : bool :=
  ((9 <=? c) && (c <=? 13) || (c =? 32) || (c =? 160) || (c =? 5760)
   || (8192 <=? c) && (c <=? 8202) || (c =? 8232) || (c =? 8233)
   || (c =? 8239) || (c =? 8287) || (c =? 12288) || (c =? 65279))%N.

(** LineTerminator code units: what [.] does not match. *)
Definition isLineTerminator (c : N) : bool :=
  ((c =? 10) || (c =? 13) || (c =? 8232) || (c =? 8233))%N.

Definition isDigit (c : N) : bool := ((48 <=? c) && (c <=? 57))%N.

Fixpoint dropWhile (p : N → bool) (s : jsstring) : jsstring :=
  match s with
  | [] => []
  | c :: s' => if p c then dropWhile p s' else s
  end.

Definition trimStart (s : jsstring) : jsstring := dropWhile isWhiteSpace s.
Definition trimEnd (s : jsstring) : jsstring :=
  reverse (dropWhile isWhiteSpace (reverse s)).
Definition trim (s : jsstring) : jsstring := trimEnd (trimStart s).

(** [s.split('\n')]: always at least one piece. *)
Fixpoint split_lines (s : jsstring) : list jsstring :=
  match s with
  | [] => [[]]
  | c :: s' =>
      if (c =? 10)%N then [] :: split_lines s'
      else match split_lines s' with
           | l :: ls => (c :: l) :: ls
           | [] => [[c]]
           end
  end.

(** [lines.join('\n')]. *)
Fixpoint join_lines (ls : list jsstring) : jsstring :=
  match ls with
  | [] => []
  | [l] => l
  | l :: ls' => l ++ 10%N :: join_lines ls'
  end.

(** [s.startsWith(p)]. *)
Fixpoint startsWith (p s : jsstring) : bool :=
  match p, s with
  | [], _ => true
  | _ :: _, [] => false
  | a :: p', b :: s' => (a =? b)%N && startsWith p' s'
  end.

(** [s.padStart(n, "0")]. *)
Definition padStart0 (n : nat) (s : jsstring) : jsstring :=
  replicate (n - length s) 48%N ++ s.

(** [String(z)] for an integer. *)
Definition String_of_Z (z : Z) : jsstring := js (pretty z).
Definition String_of_nat (n : nat) : jsstring := js (pretty n).

(** Code-unit lexicographic comparison. *)
Fixpoint lex_compare (a b : jsstring) : comparison :=
  match a, b with
  | [], [] => Eq
  | [], _ :: _ => Lt
  | _ :: _, [] => Gt
  | x :: a', y :: b' =>
      match (x ?= y)%N with
      | Eq => lex_compare a' b'
      | o => o
      end
  end.

(** [Math.round]: the nearest integer, ties towards plus infinity. *)
Definition Math_round (x : Q) : Z := Qfloor (x + (1 # 2)).

End JS.
Import JS.

(** ** Regular expressions *)

Module Regex.

Inductive regex : Type :=
| Rchar (p : N → bool)            (* one code unit of a class *)
| Reps                            (* the empty pattern *)
| Rseq (r1 r2 : regex)
| Ralt (r1 r2 : regex)            (* r1|r2, r1 tried first *)
| Rstar (greedy : bool) (r : regex)
| Rgroup (n : nat) (r : regex)    (* the n-th capturing group *)
| Rbol                            (* ^ *)
| Reol.                           (* $ *)

Abbreviation captures := (gmap nat jsstring).

(** The matcher, in continuation-passing style: [i] is the index of the
    remaining input [s] in the whole string, [k] is what is left to
    match.  An iteration of a star that consumes nothing is refused, as
    in the JavaScript semantics. *)
Fixpoint rmatch {R} (r : regex) (i : nat) (s : jsstring) (c : captures)
    (k : nat → jsstring → captures → option R) : option R :=
  match r with
  | Rchar p =>
      match s with
      | x :: s' => if p x then k (S i) s' c else None
      | [] => None
      end
  | Reps => k i s c
  | Rseq r1 r2 => rmatch r1 i s c (λ j s' c', rmatch r2 j s' c' k)
  | Ralt r1 r2 =>
      match rmatch r1 i s c k with
      | Some x => Some x
      | None => rmatch r2 i s c k
      end
  | Rstar greedy r' =>
      (fix loop (fuel : nat) (i : nat) (s : jsstring) (c : captures) : option R :=
         match fuel with
         | O => k i s c
         | S fuel' =>
             let more :=
               rmatch r' i s c (λ j s' c',
                 if decide (length s' < length s)%nat
                 then loop fuel' j s' c' else None) in
             if greedy then
               match more with
               | Some x => Some x
               | None => k i s c
               end
             else
               match k i s c with
               | Some x => Some x
               | None => more
               end
         end) (length s) i s c
  | Rgroup n r' =>
      rmatch r' i s c (λ j s' c', k j s' (<[n := take (j - i) s]> c'))
  | Rbol => if decide (i = 0%nat) then k i s c else None
  | Reol => match s with [] => k i s c | _ :: _ => None end
  end.

(** The result of [String.prototype.match] without the [g] flag. *)
Record match_result := MatchResult {
  m_index : nat;
  m_whole : jsstring;           (* match[0] *)
  m_groups : captures           (* match[1], match[2], ... *)
}.

Definition match_at (r : regex) (i : nat) (s : jsstring) : option match_result :=
  rmatch r i s ∅ (λ j _ c, Some (MatchResult i (take (j - i) s) c)).

(** Leftmost match: the start positions are tried from left to right. *)
Fixpoint search_from (r : regex) (i : nat) (s : jsstring) : option match_result :=
  match match_at r i s with
  | Some m => Some m
  | None =>
      match s with
      | [] => None
      | _ :: s' => search_from r (S i) s'
      end
  end.

(** [s.match(r)]. *)
Definition exec (r : regex) (s : jsstring) : option match_result :=
  search_from r 0 s.

(** [match[n]], a group that took part in the match. *)
Definition group (n : nat) (m : match_result) : jsstring :=
  default [] (m_groups m !! n).

(** Pattern combinators. *)
Definition chr (c : N) : regex := Rchar (λ x, (x =? c)%N).

(** A literal run of ASCII characters. *)
Definition lit (s : string) : regex :=
  foldr (λ c r, Rseq (chr c) r) Reps (js s).

(** The same under the [i] flag: letters match in both cases. *)
Definition toUpper (c : N) : N :=
  if ((97 <=? c) && (c <=? 122))%N then (c - 32)%N else c.
Definition chr_i (c : N) : regex := Rchar (λ x, (toUpper x =? toUpper c)%N).
Definition lit_i (s : string) : regex :=
  foldr (λ c r, Rseq (chr_i c) r) Reps (js s).

Definition plus (r : regex) : regex := Rseq r (Rstar true r).
Definition star (r : regex) : regex := Rstar true r.
Definition plus_lazy (r : regex) : regex := Rseq r (Rstar false r).

Fixpoint times (n : nat) (r : regex) : regex :=
  match n with
  | O => Reps
  | S n' => Rseq r (times n' r)
  end.

Definition at_least (n : nat) (r : regex) : regex := Rseq (times n r) (star r).

Definition ws : regex := Rchar isWhiteSpace.                      (* \s *)
Definition digit : regex := Rchar isDigit.                        (* \d *)
Definition dot : regex := Rchar (λ x, negb (isLineTerminator x)). (* . *)
Definition not_chr (c : N) : regex := Rchar (λ x, negb (x =? c)%N).

Fixpoint seqs (rs : list regex) : regex :=
  match rs with
  | [] => Reps
  | [r] => r
  | r :: rs' => Rseq r (seqs rs')
  end.

(** The loop of a greedy star over a character class, on its own. *)
Definition star_loop {R} (p : N → bool) (k : nat → jsstring → captures → option R) :=
  fix loop (fuel : nat) (i : nat) (s : jsstring) (c : captures) : option R :=
    match fuel with
    | O => k i s c
    | S fuel' =>
        match
          match s with
          | x :: s' =>
              if p x then
                if decide (length s' < length s)%nat then loop fuel' (S i) s' c else None
              else None
          | [] => None
          end
        with
        | Some x => Some x
        | None => k i s c
        end
    end.

(** What a greedy star over a class does with a run [w] of the class
    followed by [rest]: the continuation is tried after the whole run
    first, then after one code unit less, and so on. *)
Fixpoint backtrack {R} (k : nat → jsstring → captures → option R) (c : captures)
    (i : nat) (w rest : jsstring) : option R :=
  match w with
  | [] => k i rest c
  | x :: w' =>
      match backtrack k c (S i) w' rest with
      | Some r => Some r
      | None => k i (w ++ rest) c
      end
  end.

(** [s] is empty or starts outside the class [p]. *)
Definition head_fails (p : N → bool) (s : jsstring) : Prop :=
  match s with
  | [] => True
  | x :: _ => p x = false
  end.

(** Every code unit of [w] is in the class [p]. *)
Definition all_in (p : N → bool) (w : jsstring) : Prop := Forall (λ x, p x = true) w.

(** A pattern that is a sequence of character classes. *)
Definition char_seq (ps : list (N → bool)) : regex :=
  foldr (λ p r, Rseq (Rchar p) r) Reps ps.

(** [s] starts with code units of the classes [ps], one for one. *)
Fixpoint fits (ps : list (N → bool)) (s : jsstring) : bool :=
  match ps, s with
  | [], _ => true
  | p :: ps', x :: s' => p x && fits ps' s'
  | _ :: _, [] => false
  end.

End Regex.
Import Regex.

(** ** The report aggregate *)

Module Types.

(** Modelled from the spec: the declaration of [ScheduleItem] (the module
    [types] is not part of the sources); the four fields of the data
    model, [{ id, time: "HH:MM", project, task }]. *)
Record ScheduleItem := mkScheduleItem {
  item_id : jsstring;
  item_time : jsstring;
  item_project : jsstring;
  item_task : jsstring
}.

(** [Omit<ScheduleItem, 'id'>]. *)
Record NewScheduleItem := mkNewScheduleItem {
  new_time : jsstring;
  new_project : jsstring;
  new_task : jsstring
}.

(** [Partial<ScheduleItem>]: a field that is present overrides. *)
Record ScheduleUpdates := mkScheduleUpdates {
  upd_id : option jsstring;
  upd_time : option jsstring;
  upd_project : option jsstring;
  upd_task : option jsstring
}.

Inductive Priority := high | medium | low.

(** The value held by a [status] field.  In a well-typed report it is one
    of the four string literals of [TodoItem['status']]; the table lookup
    of [toggleTodoStatus] is written for any string, and for a string
    that names a property which every object literal inherits from
    [Object.prototype] the lookup yields that inherited member (a
    function or an object, which is truthy) instead of a status. *)
Inductive StatusValue :=
| StatusStr (s : jsstring)
| StatusInherited (name : jsstring).

(** Modelled from the spec: the declaration of [TodoItem] (module
    [types]): [{ id, status, project, task, description?, deadline?,
    priority? }]. *)
Record TodoItem := mkTodoItem {
  todo_id : jsstring;
  todo_status : StatusValue;
  todo_project : jsstring;
  todo_task : jsstring;
  todo_description : option jsstring;
  todo_deadline : option jsstring;
  todo_priority : option Priority
}.

(** Modelled from the spec: the declaration of [DailyReport] (module
    [types]). *)
Record DailyReport := mkDailyReport {
  date : jsstring;
  author : jsstring;
  plan : list ScheduleItem;
  result : list ScheduleItem;
  todos : list TodoItem;
  notes : jsstring
}.

(** ['plan' | 'result']. *)
Inductive ListType := PlanList | ResultList.

(** [type[0]], also [currentSection[0]] in the decoder. *)
Definition type_initial (t : ListType) : jsstring :=
  match t with PlanList => js "p" | ResultList => js "r" end.

(** [prev[type]] and [{ ...prev, [type]: items }]. *)
Definition get_list (t : ListType) (r : DailyReport) : list ScheduleItem :=
  match t with PlanList => plan r | ResultList => result r end.

Definition with_plan (r : DailyReport) (p : list ScheduleItem) : DailyReport :=
  mkDailyReport (date r) (author r) p (result r) (todos r) (notes r).
Definition with_result (r : DailyReport) (l : list ScheduleItem) : DailyReport :=
  mkDailyReport (date r) (author r) (plan r) l (todos r) (notes r).
Definition with_todos (r : DailyReport) (t : list TodoItem) : DailyReport :=
  mkDailyReport (date r) (author r) (plan r) (result r) t (notes r).
Definition with_notes (r : DailyReport) (n : jsstring) : DailyReport :=
  mkDailyReport (date r) (author r) (plan r) (result r) (todos r) n.
Definition with_author (r : DailyReport) (a : jsstring) : DailyReport :=
  mkDailyReport (date r) a (plan r) (result r) (todos r) (notes r).
Definition with_list (t : ListType) (r : DailyReport) (l : list ScheduleItem) : DailyReport :=
  match t with PlanList => with_plan r l | ResultList => with_result r l end.

Definition with_time (x : ScheduleItem) (t : jsstring) : ScheduleItem :=
  mkScheduleItem (item_id x) t (item_project x) (item_task x).
Definition with_item_id (x : ScheduleItem) (i : jsstring) : ScheduleItem :=
  mkScheduleItem i (item_time x) (item_project x) (item_task x).
Definition with_status (t : TodoItem) (s : StatusValue) : TodoItem :=
  mkTodoItem (todo_id t) s (todo_project t) (todo_task t)
    (todo_description t) (todo_deadline t) (todo_priority t).
Definition with_description (t : TodoItem) (d : option jsstring) : TodoItem :=
  mkTodoItem (todo_id t) (todo_status t) (todo_project t) (todo_task t)
    d (todo_deadline t) (todo_priority t).

(** [a === b] on strings. *)
Definition str_eqb (a b : jsstring) : bool := bool_decide (a = b).

End Types.
Import Types.

(** ** Sorting by time *)

Module SortByTime.
Section WithLocale.

(** [String.prototype.localeCompare]: the collation of the host. *)
Variable localeCompare : jsstring → jsstring → comparison.

(** [items.sort((a, b) => a.time.localeCompare(b.time))].
    [Array.prototype.sort] is stable, and so is this insertion sort: an
    element is placed before the first one that the comparator puts
    strictly after it. *)
Fixpoint insert_by_time (x : ScheduleItem) (l : list ScheduleItem) : list ScheduleItem :=
  match l with
  | [] => [x]
  | y :: l' =>
      match localeCompare (item_time x) (item_time y) with
      | Gt => y :: insert_by_time x l'
      | _ => x :: l
      end
  end.

Definition sort_by_time (l : list ScheduleItem) : list ScheduleItem :=
  foldr insert_by_time [] l.

End WithLocale.
End SortByTime.
Import SortByTime.

(** ** The editing operations of [useReport] *)

Module Report.

(** [setReport(prev => { if (!prev) return null; return f(prev) })]. *)
Definition setReport (f : DailyReport → DailyReport)
    (prev : option DailyReport) : option DailyReport :=
  match prev with
  | None => None
  | Some r => Some (f r)
  end.

Definition updatePlan (p : list ScheduleItem) : option DailyReport → option DailyReport :=
  setReport (λ prev, with_plan prev p).

Definition updateResult (l : list ScheduleItem) : option DailyReport → option DailyReport :=
  setReport (λ prev, with_result prev l).

Definition updateTodos (t : list TodoItem) : option DailyReport → option DailyReport :=
  setReport (λ prev, with_todos prev t).

Definition updateNotes (n : jsstring) : option DailyReport → option DailyReport :=
  setReport (λ prev, with_notes prev n).

(** The own properties of the object literal [nextStatus]. *)
Definition nextStatus : gmap jsstring jsstring :=
  {[ js "pending" := js "in_progress";
     js "in_progress" := js "completed";
     js "completed" := js "on_hold";
     js "on_hold" := js "pending" ]}.

(** The names that an object literal inherits from [Object.prototype]. *)
Definition Object_prototype_names : list jsstring :=
  [ js "constructor"; js "hasOwnProperty"; js "isPrototypeOf";
    js "propertyIsEnumerable"; js "toLocaleString"; js "toString";
    js "valueOf"; js "__proto__"; js "__defineGetter__";
    js "__defineSetter__"; js "__lookupGetter__"; js "__lookupSetter__" ].

(** [nextStatus[t.status] || 'pending'].  An own property gives the next
    status; an inherited name gives the inherited member, which is
    truthy; anything else is [undefined] and falls back to ['pending'].
    A status that is not a string is first turned into a property key,
    the source text of a function or ["[object Object]"], which names no
    property of the table. *)
Definition next_status (s : StatusValue) : StatusValue :=
  match s with
  | StatusStr k =>
      match nextStatus !! k with
      | Some v => StatusStr v
      | None =>
          if bool_decide (k ∈ Object_prototype_names)
          then StatusInherited k
          else StatusStr (js "pending")
      end
  | StatusInherited _ => StatusStr (js "pending")
  end.

(** The callback of [prev.todos.map]. *)
Definition toggle_todo (id : jsstring) (t : TodoItem) : TodoItem :=
  if negb (str_eqb (todo_id t) id) then t
  else with_status t (next_status (todo_status t)).

Definition toggleTodoStatus (id : jsstring) : option DailyReport → option DailyReport :=
  setReport (λ prev, with_todos prev (toggle_todo id <$> todos prev)).

Section WithLocale.

Variable localeCompare : jsstring → jsstring → comparison.

(** [now] is the value of [Date.now()]. *)
Definition addScheduleItem (now : N) (type : ListType) (item : NewScheduleItem)
    : option DailyReport → option DailyReport :=
  setReport (λ prev,
    let newItem :=
      mkScheduleItem (type_initial type ++ String_of_Z (Z.of_N now))
        (new_time item) (new_project item) (new_task item) in
    let items := sort_by_time localeCompare (get_list type prev ++ [newItem]) in
    with_list type prev items).

(** [{ ...item, ...updates }]. *)
Definition apply_updates (item : ScheduleItem) (u : ScheduleUpdates) : ScheduleItem :=
  mkScheduleItem
    (default (item_id item) (upd_id u))
    (default (item_time item) (upd_time u))
    (default (item_project item) (upd_project u))
    (default (item_task item) (upd_task u)).

Definition updateScheduleItem (type : ListType) (id : jsstring) (updates : ScheduleUpdates)
    : option DailyReport → option DailyReport :=
  setReport (λ prev,
    let items :=
      (λ item, if str_eqb (item_id item) id then apply_updates item updates else item)
        <$> get_list type prev in
    with_list type prev (sort_by_time localeCompare items)).

Definition deleteScheduleItem (type : ListType) (id : jsstring)
    : option DailyReport → option DailyReport :=
  setReport (λ prev,
    with_list type prev
      (filter (λ item, item_id item ≠ id) (get_list type prev))).

(** [`${c}${now}-${index}`]. *)
Definition indexed_id (c : string) (now : N) (index : nat) : jsstring :=
  js c ++ String_of_Z (Z.of_N now) ++ js "-" ++ String_of_nat index.

Definition applyRoutine (now : N) (routineItems : list ScheduleItem)
    : option DailyReport → option DailyReport :=
  setReport (λ prev,
    let newItems := imap (λ index item, with_item_id item (indexed_id "p" now index))
                         routineItems in
    let merged := sort_by_time localeCompare (plan prev ++ newItems) in
    with_plan prev merged).

End WithLocale.


Definition createEmptyReport (date : jsstring) : DailyReport :=
  mkDailyReport date [] [] [] [] [].

End Report.

(** ** The markdown decoder of [useReport] *)

Module Markdown.

(** The outcome of a JavaScript computation: a value, or a [TypeError]
    raised by a property access on [undefined]. *)
Inductive outcome (A : Type) : Type :=
| Returns (a : A)
| Throws.
Arguments Returns {A} a.
Arguments Throws {A}.

Definition bind {A B} (m : outcome A) (f : A → outcome B) : outcome B :=
  match m with
  | Returns a => f a
  | Throws => Throws
  end.

(** [currentSection]: [''], ['plan'], ['result'], ['todo'] or ['note']. *)
Inductive SectionName := NoSection | SecPlan | SecResult | SecTodo | SecNote.

(** [`${currentSection[0]}`]. *)
Definition section_initial (s : SectionName) : jsstring :=
  match s with
  | NoSection => js "undefined"
  | SecPlan => js "p"
  | SecResult => js "r"
  | SecTodo => js "t"
  | SecNote => js "n"
  end.

(** [/^#\s+\[日報\]\s+(.+?)\s+(\d{4}-\d{2}-\d{2})/] *)
Definition re_header : regex :=
  seqs [Rbol; lit "#"; plus ws; lit "["; chr 26085; chr 22577; lit "]"; plus ws;
        Rgroup 1 (plus_lazy dot); plus ws;
        Rgroup 2 (seqs [times 4 digit; lit "-"; times 2 digit; lit "-"; times 2 digit])].

(** [/^##\s+\[PLAN\]/i] and its three siblings. *)
Definition re_section (name : string) : regex :=
  seqs [Rbol; lit_i "##"; plus ws; lit_i "["; lit_i name; lit_i "]"].

(** [/^###\s+(.+)$/] *)
Definition re_project_header : regex :=
  seqs [Rbol; lit "###"; plus ws; Rgroup 1 (plus dot); Reol].

(** [/^\*\s+(\d{2}:\d{2})\s+\[([^\]]+)\]\s+(.+)$/] *)
Definition re_schedule : regex :=
  seqs [Rbol; lit "*"; plus ws;
        Rgroup 1 (seqs [times 2 digit; lit ":"; times 2 digit]); plus ws;
        lit "["; Rgroup 2 (plus (not_chr 93)); lit "]"; plus ws;
        Rgroup 3 (plus dot); Reol].

(** [/^\*\s+(\d{2}:\d{2})\s*$/] *)
Definition re_end_time : regex :=
  seqs [Rbol; lit "*"; plus ws;
        Rgroup 1 (seqs [times 2 digit; lit ":"; times 2 digit]); star ws; Reol].

(** The class [[xX\s*\->]]. *)
Definition isStatusMark (c : N) : bool :=
  ((c =? 120) || (c =? 88) || isWhiteSpace c || (c =? 42) || (c =? 45) || (c =? 62))%N.

(** [/^-\s+\[([xX\s*\->])\]\s+(.+)$/] *)
Definition re_todo : regex :=
  seqs [Rbol; lit "-"; plus ws; lit "["; Rgroup 1 (Rchar isStatusMark); lit "]";
        plus ws; Rgroup 2 (plus dot); Reol].

(** [/^\[([^\]]+)\]\s*/] *)
Definition re_todo_project : regex :=
  seqs [Rbol; lit "["; Rgroup 1 (plus (not_chr 93)); lit "]"; star ws].

(** [/^(!!!|!!|!)\s*/] *)
Definition re_priority : regex :=
  seqs [Rbol; Rgroup 1 (Ralt (lit "!!!") (Ralt (lit "!!") (lit "!"))); star ws].

(** [(\d{4}-\d{2}-\d{2}|\d{2}-\d{2})] *)
Definition re_date : regex :=
  Rgroup 1 (Ralt (seqs [times 4 digit; lit "-"; times 2 digit; lit "-"; times 2 digit])
                 (seqs [times 2 digit; lit "-"; times 2 digit])).

(** [/\s*@(\d{4}-\d{2}-\d{2}|\d{2}-\d{2})$/] *)
Definition re_deadline_end : regex :=
  seqs [star ws; lit "@"; re_date; Reol].

(** [/^@(\d{4}-\d{2}-\d{2}|\d{2}-\d{2})\s*/] *)
Definition re_deadline_start : regex :=
  seqs [Rbol; lit "@"; re_date; star ws].

(** [/^\s{2,}/] *)
Definition re_indent : regex := seqs [Rbol; at_least 2 ws].

(** [line.match(r)] used as a condition. *)
Definition matches (r : regex) (line : jsstring) : bool :=
  bool_decide (is_Some (exec r line)).

(** [mark.toLowerCase()] on the letters A-Z.  No other code unit
    lower-cases to one of the four characters that [parseStatusMark]
    compares with. *)
Definition toLowerCase (s : jsstring) : jsstring :=
  (λ c, if ((65 <=? c) && (c <=? 90))%N then (c + 32)%N else c) <$> s.

Definition parseStatusMark (mark : jsstring) : StatusValue :=
  let m := toLowerCase mark in
  if str_eqb m (js "x") then StatusStr (js "completed")
  else if str_eqb m (js "*") then StatusStr (js "in_progress")
  else if str_eqb m (js "-") then StatusStr (js "on_hold")
  else if str_eqb m (js ">") then StatusStr (js "on_hold")
  else StatusStr (js "pending").

(** [mark === '!!!' ? 'high' : mark === '!!' ? 'medium' : 'low'] *)
Definition priority_of_mark (mark : jsstring) : Priority :=
  if str_eqb mark (js "!!!") then high
  else if str_eqb mark (js "!!") then medium
  else low.

(** The four steps of the body of [if (todoMatch) { ... }], each on the
    text left by the one before. *)

(** The project code at the front, [[PXX]]. *)
Definition extract_project (todoProject taskText : jsstring) : jsstring * jsstring :=
  match exec re_todo_project taskText with
  | Some projectMatch =>
      (group 1 projectMatch, drop (length (m_whole projectMatch)) taskText)
  | None => (todoProject, taskText)
  end.

(** The priority at the front. *)
Definition extract_priority (taskText : jsstring) : option Priority * jsstring :=
  match exec re_priority taskText with
  | Some priorityMatch =>
      (Some (priority_of_mark (group 1 priorityMatch)),
       drop (length (m_whole priorityMatch)) taskText)
  | None => (None, taskText)
  end.

(** The deadline at the end, or else at the front. *)
Definition extract_deadline (taskText : jsstring) : option jsstring * jsstring :=
  match exec re_deadline_end taskText with
  | Some deadlineEndMatch =>
      (Some (group 1 deadlineEndMatch),
       take (length taskText - length (m_whole deadlineEndMatch)) taskText)
  | None =>
      match exec re_deadline_start taskText with
      | Some deadlineStartMatch =>
          (Some (group 1 deadlineStartMatch),
           drop (length (m_whole deadlineStartMatch)) taskText)
      | None => (None, taskText)
      end
  end.

(** The year is completed when it is missing; [year] is
    [new Date().getFullYear()]. *)
Definition complete_year (year : N) (deadline : option jsstring) : option jsstring :=
  match deadline with
  | Some d =>
      if bool_decide (d ≠ []) && bool_decide (length d = 5%nat)
      then Some (String_of_Z (Z.of_N year) ++ js "-" ++ d)
      else Some d
  | None => None
  end.

(** The body of [if (todoMatch) { ... }]; [i] is the index of the line. *)
Definition decode_todo (year : N) (i : nat) (currentTodoProject : jsstring)
    (todoMatch : match_result) : TodoItem :=
  let statusMark := group 1 todoMatch in
  let taskText := group 2 todoMatch in
  let '(todoProject, taskText) := extract_project currentTodoProject taskText in
  let '(priority, taskText) := extract_priority taskText in
  let '(deadline, taskText) := extract_deadline taskText in
  let deadline := complete_year year deadline in
  mkTodoItem (js "t" ++ String_of_nat i) (parseStatusMark statusMark)
    todoProject (trim taskText) None deadline priority.

(** The mutable variables of the loop. *)
Record ParseState := mkParseState {
  ps_report : DailyReport;
  ps_section : SectionName;         (* currentSection *)
  ps_todoProject : jsstring;        (* currentTodoProject *)
  ps_noteLines : list jsstring      (* noteLines *)
}.

Definition set_report (st : ParseState) (r : DailyReport) : ParseState :=
  mkParseState r (ps_section st) (ps_todoProject st) (ps_noteLines st).
Definition set_section (st : ParseState) (s : SectionName) : ParseState :=
  mkParseState (ps_report st) s (ps_todoProject st) (ps_noteLines st).
Definition set_todoProject (st : ParseState) (p : jsstring) : ParseState :=
  mkParseState (ps_report st) (ps_section st) p (ps_noteLines st).
Definition push_noteLine (st : ParseState) (l : jsstring) : ParseState :=
  mkParseState (ps_report st) (ps_section st) (ps_todoProject st) (ps_noteLines st ++ [l]).

Definition is_schedule_section (s : SectionName) : bool :=
  match s with SecPlan | SecResult => true | _ => false end.
Definition is_todo_section (s : SectionName) : bool :=
  match s with SecTodo => true | _ => false end.
Definition is_note_section (s : SectionName) : bool :=
  match s with SecNote => true | _ => false end.

(** [if (currentSection === 'plan') report.plan.push(item) else
    report.result.push(item)]. *)
Definition push_schedule (s : SectionName) (item : ScheduleItem)
    (r : DailyReport) : DailyReport :=
  match s with
  | SecPlan => with_plan r (plan r ++ [item])
  | _ => with_result r (result r ++ [item])
  end.

(** What a block of the loop body does: [continue], or go on with the
    next block. *)
Inductive flow := Continue (st : ParseState) | Next (st : ParseState).

(** The block [// PLAN/RESULT]. *)
Definition schedule_block (i : nat) (line : jsstring) (st : ParseState) : flow :=
  if is_schedule_section (ps_section st) && startsWith (js "*") line then
    match exec re_schedule line with
    | Some m =>
        let item :=
          mkScheduleItem (section_initial (ps_section st) ++ String_of_nat i)
            (group 1 m) (group 2 m) (group 3 m) in
        Continue (set_report st (push_schedule (ps_section st) item (ps_report st)))
    | None =>
        match exec re_end_time line with
        | Some endTimeMatch =>
            let breakItem :=
              mkScheduleItem
                (js "break" ++ section_initial (ps_section st) ++ String_of_nat i)
                (group 1 endTimeMatch) [] [] in
            Next (set_report st (push_schedule (ps_section st) breakItem (ps_report st)))
        | None => Next st
        end
    end
  else Next st.

(** The block [// TODO]. *)
Definition todo_block (year : N) (i : nat) (line : jsstring) (st : ParseState) : flow :=
  if is_todo_section (ps_section st) && startsWith (js "-") line then
    match exec re_todo line with
    | Some todoMatch =>
        let todo := decode_todo year i (ps_todoProject st) todoMatch in
        let r := ps_report st in
        Continue (set_report st (with_todos r (todos r ++ [todo])))
    | None => Next st
    end
  else Next st.

(** [if (lastTodo.description) { lastTodo.description += '\n' + descLine }
    else { lastTodo.description = descLine }]: the description after the
    line [descLine]. *)
Definition join_description (description : option jsstring) (descLine : jsstring)
    : jsstring :=
  match description with
  | Some d => if bool_decide (d ≠ []) then d ++ 10%N :: descLine else descLine
  | None => descLine
  end.

(** The block of the indented description lines.  [lastTodo] is
    [report.todos[report.todos.length - 1]]; reading [description] from
    it throws when it is [undefined]. *)
Definition description_block (line : jsstring) (st : ParseState) : outcome flow :=
  let r := ps_report st in
  if is_todo_section (ps_section st) && matches re_indent line
     && bool_decide (0 < length (todos r))%nat then
    match todos r !! (length (todos r) - 1)%nat with
    | None => Throws
    | Some lastTodo =>
        let descLine := trim line in
        Returns (Continue (set_report st (with_todos r
          (<[(length (todos r) - 1)%nat :=
               with_description lastTodo
                 (Some (join_description (todo_description lastTodo) descLine))]>
             (todos r)))))
    end
  else Returns (Next st).

(** The block [// NOTE]. *)
Definition note_block (line : jsstring) (st : ParseState) : ParseState :=
  if is_note_section (ps_section st) && negb (startsWith (js "##") line)
  then push_noteLine st line
  else st.

(** One turn of the loop [for (let i = 0; i < lines.length; i++)]. *)
Definition parse_line (year : N) (i : nat) (line : jsstring) (st : ParseState)
    : outcome ParseState :=
  (* section headers *)
  if matches (re_section "PLAN") line then Returns (set_section st SecPlan)
  else if matches (re_section "RESULT") line then Returns (set_section st SecResult)
  else if matches (re_section "TODO") line then Returns (set_section st SecTodo)
  else if matches (re_section "NOTE") line then Returns (set_section st SecNote)
  (* project heading inside the todo section *)
  else if is_todo_section (ps_section st) && matches re_project_header line then
    match exec re_project_header line with
    | Some projectMatch => Returns (set_todoProject st (trim (group 1 projectMatch)))
    | None => Returns st
    end
  else
    match schedule_block i line st with
    | Continue st' => Returns st'
    | Next st1 =>
        match todo_block year i line st1 with
        | Continue st' => Returns st'
        | Next st2 =>
            bind (description_block line st2) (λ f,
              match f with
              | Continue st' => Returns st'
              | Next st3 => Returns (note_block line st3)
              end)
        end
    end.

(** The loop over the lines, from index [i]. *)
Fixpoint parse_lines (year : N) (i : nat) (lines : list jsstring) (st : ParseState)
    : outcome ParseState :=
  match lines with
  | [] => Returns st
  | line :: rest => bind (parse_line year i line st) (parse_lines year (S i) rest)
  end.

(** The variables before the loop: the empty report, with the author of
    the header line when there is one. *)
Definition initial_state (date : jsstring) (lines : list jsstring) : ParseState :=
  let report := Report.createEmptyReport date in
  let report :=
    match head lines with
    | Some line0 =>
        match exec re_header line0 with
        | Some headerMatch => with_author report (group 1 headerMatch)
        | None => report
        end
    | None => report
    end in
  mkParseState report NoSection (js "P99") [].

Definition parseReportFromMarkdown (year : N) (date : jsstring) (content : jsstring)
    : outcome DailyReport :=
  let lines := split_lines content in
  bind (parse_lines year 0 lines (initial_state date lines))
    (λ st, Returns (with_notes (ps_report st) (trim (join_lines (ps_noteLines st))))).

End Markdown.
Import Markdown.

(** ** The time-drag engine of [useTimelineDrag] *)

Module Timeline.

(** Numbers: minutes, hours and the snap unit are integers; pixel
    coordinates and the height of an hour are rationals, and the
    arithmetic on them is exact. *)

Definition formatMinutesToTime (minutes : Z) : jsstring :=
  let hour := minutes / 60 in          (* Math.floor(minutes / 60) *)
  let min := Z.rem minutes 60 in       (* minutes % 60 *)
  padStart0 2 (String_of_Z hour) ++ js ":" ++ padStart0 2 (String_of_Z min).

(** The value of [newMinutes] in [calculateNewTime] after the range
    limit. *)
Definition calculateNewMinutes (startMinutes : Z) (offsetPx hourHeight : Q)
    (maxHours startHour snapMinutes : Z) : Z :=
  let offsetMinutes := ((offsetPx / hourHeight) * 60)%Q in
  let newMinutes := Math_round (inject_Z startMinutes + offsetMinutes) in
  let newMinutes :=
    Math_round (inject_Z newMinutes / inject_Z snapMinutes) * snapMinutes in
  let minMinutes := 0 in
  let maxMinutes := (startHour + maxHours) * 60 in
  Z.max minMinutes (Z.min (maxMinutes - 60) newMinutes).

Definition calculateNewTime (startMinutes : Z) (offsetPx hourHeight : Q)
    (maxHours startHour snapMinutes : Z) : jsstring :=
  let newMinutes :=
    calculateNewMinutes startMinutes offsetPx hourHeight maxHours startHour snapMinutes in
  let hour := newMinutes / 60 in
  let min := Z.rem newMinutes 60 in
  padStart0 2 (String_of_Z hour) ++ js ":" ++ padStart0 2 (String_of_Z min).

Record DragState := mkDragState {
  itemId : jsstring;
  type : ListType;
  startY : Q;
  startMinutes : Z;
  isBreak : option bool;
  breakDuration : option Z
}.

(** The properties the hook is called with.  [resultArea] is the
    horizontal extent ([left], [right]) of the bounding rectangle of
    [resultAreaRef.current], when the reference is set. *)
Record Props := mkProps {
  resultArea : option (Q * Q);
  currentReport : option DailyReport;
  startHour : Z;
  totalHours : Z;
  hourHeight : Q;
  snapMinutes : Z
}.

(** The three state variables of the hook. *)
Record HookState := mkHookState {
  dragState : option DragState;
  dragOffset : Q;
  isDraggingToResult : bool
}.

(** The texts shown by [message.success]. *)
Inductive toast :=
| BreakCopied (newTime endTime : jsstring)   (* 休憩（newTime〜endTime）を実績にコピーしました *)
| ItemCopied (task : jsstring)               (* 「task」を実績にコピーしました *)
| Moved (newTime : jsstring).                (* 予定を newTime に移動しました *)

(** What a handler asks of its environment. *)
Inductive effect :=
| UpdatePlan (items : list ScheduleItem)
| UpdateResult (items : list ScheduleItem)
| MessageSuccess (m : toast).

Definition handleDragStart (clientY : Q) (itemId : jsstring) (type : ListType)
    (startMinutes : Z) (isBreak : option bool) (breakDuration : option Z)
    (h : HookState) : HookState :=
  mkHookState (Some (mkDragState itemId type clientY startMinutes isBreak breakDuration))
    0 (isDraggingToResult h).

Definition handleMouseMove (p : Props) (clientX clientY : Q) (h : HookState) : HookState :=
  match dragState h with
  | None => h
  | Some ds =>
      let deltaY := (clientY - startY ds)%Q in
      let snapPx := (hourHeight p / 4)%Q in
      let snappedDelta := (inject_Z (Math_round (deltaY / snapPx)) * snapPx)%Q in
      let over :=
        match type ds, resultArea p with
        | PlanList, Some (rect_left, rect_right) =>
            Qle_bool rect_left clientX && Qle_bool clientX rect_right
        | _, _ => isDraggingToResult h
        end in
      mkHookState (Some ds) snappedDelta over
  end.

(** [dragState.isBreak] as a condition. *)
Definition truthy (b : option bool) : bool := default false b.

(** [dragState.breakDuration || 60]. *)
Definition breakDuration_or_60 (d : option Z) : Z :=
  match d with
  | Some x => if (x =? 0) then 60 else x
  | None => 60
  end.

(** [`r${Date.now()}-${Math.random().toString(36).substring(2, 9)}`],
    from the clock [now] and the random suffix [rnd]. *)
Definition random_id (now : N) (rnd : jsstring) : jsstring :=
  js "r" ++ String_of_Z (Z.of_N now) ++ js "-" ++ rnd.

(** The two code units of 休憩. *)
Definition break_task : jsstring := [20241%N; 25001%N].

Section WithLocale.

Variable localeCompare : jsstring → jsstring → comparison.

Definition handleMouseUp (p : Props) (now : N) (rnd : jsstring) (h : HookState)
    : HookState * list effect :=
  match dragState h, currentReport p with
  | Some ds, Some report =>
      let moved := negb (Qeq_bool (dragOffset h) 0) in   (* dragOffset !== 0 *)
      let newTimeOf (minutes : Z) :=
        calculateNewTime minutes (dragOffset h) (hourHeight p) (totalHours p)
          (startHour p) (snapMinutes p) in
      let effects :=
        match type ds, isDraggingToResult h with
        | PlanList, true =>
            (* copy from the plan to the result *)
            if truthy (isBreak ds) then
              let newTime :=
                if moved then newTimeOf (startMinutes ds)
                else formatMinutesToTime (startMinutes ds) in
              let breakItem :=
                mkScheduleItem (random_id now rnd) newTime (js "---") break_task in
              let endMinutes := startMinutes ds + breakDuration_or_60 (breakDuration ds) in
              let endTime :=
                if moved then newTimeOf endMinutes
                else formatMinutesToTime endMinutes in
              let updatedResult :=
                sort_by_time localeCompare (result report ++ [breakItem]) in
              [UpdateResult updatedResult; MessageSuccess (BreakCopied newTime endTime)]
            else
              match find (λ item, str_eqb (item_id item) (itemId ds)) (plan report) with
              | Some planItem =>
                  let newTime :=
                    if moved then newTimeOf (startMinutes ds)
                    else item_time planItem in
                  let newItem :=
                    mkScheduleItem (random_id now rnd) newTime
                      (item_project planItem) (item_task planItem) in
                  let updatedResult :=
                    sort_by_time localeCompare (result report ++ [newItem]) in
                  [UpdateResult updatedResult; MessageSuccess (ItemCopied (item_task planItem))]
              | None => []
              end
        | _, _ =>
            if moved then
              (* a move in place *)
              let newTime := newTimeOf (startMinutes ds) in
              let items := get_list (type ds) report in
              let updatedItems :=
                sort_by_time localeCompare
                  ((λ item, if str_eqb (item_id item) (itemId ds)
                            then with_time item newTime else item) <$> items) in
              [match type ds with
               | PlanList => UpdatePlan updatedItems
               | ResultList => UpdateResult updatedItems
               end;
               MessageSuccess (Moved newTime)]
            else []
        end in
      (mkHookState None 0 false, effects)
  | _, _ => (h, [])
  end.

End WithLocale.

(** The callbacks [updatePlan] and [updateResult] of [useReport], which
    the dashboard passes to the hook. *)
Definition run_effect (e : effect) (store : option DailyReport) : option DailyReport :=
  match e with
  | UpdatePlan items => Report.updatePlan items store
  | UpdateResult items => Report.updateResult items store
  | MessageSuccess _ => store
  end.

Definition run_effects (es : list effect) (store : option DailyReport) : option DailyReport :=
  foldl (λ s e, run_effect e s) store es.

End Timeline.
Import Timeline.

(** ** Predicates of the specification *)

Module Spec.

(** A zero-padded time: two digits, a colon, two digits. *)
Definition is_HHMM (t : jsstring) : bool :=
  match t with
  | [a; b; c; d; e] => isDigit a && isDigit b && (c =? 58)%N && isDigit d && isDigit e
  | _ => false
  end.

Definition all_HHMM (l : list ScheduleItem) : Prop :=
  Forall (λ x, is_HHMM (item_time x) = true) l.

(** The lexicographic order of the time strings. *)
Definition time_le (x y : ScheduleItem) : Prop :=
  lex_compare (item_time x) (item_time y) ≠ Gt.

(** Ascending by time: every entry is at or before every later one. *)
Definition time_sorted (l : list ScheduleItem) : Prop := StronglySorted time_le l.

(** The collation of the host orders zero-padded times as their code
    units do: they differ first at a digit, and digits collate in
    numeric order. *)
Definition collates_times (localeCompare : jsstring → jsstring → comparison) : Prop :=
  ∀ a b, is_HHMM a = true → is_HHMM b = true → localeCompare a b = lex_compare a b.

(** The four statuses of a todo. *)
Definition pending : StatusValue := StatusStr (js "pending").
Definition in_progress : StatusValue := StatusStr (js "in_progress").
Definition completed : StatusValue := StatusStr (js "completed").
Definition on_hold : StatusValue := StatusStr (js "on_hold").

Definition recognized (k : jsstring) : Prop :=
  k = js "pending" ∨ k = js "in_progress" ∨ k = js "completed" ∨ k = js "on_hold".


(** Two schedule entries with the same time, project and task. *)
Definition same_content (x y : ScheduleItem) : Prop :=
  item_time y = item_time x ∧ item_project y = item_project x ∧
  item_task y = item_task x.

(** The snapped minutes, by the formula of the specification:
    [round(round(rawDelta / hourHeight * 60 + originalMinutes) / snapUnit)
    * snapUnit]. *)
Definition snappedMinutes (originalMinutes : Z) (rawDelta hourHeight : Q)
    (snapUnit : Z) : Z :=
  Math_round
    (inject_Z (Math_round (rawDelta / hourHeight * 60 + inject_Z originalMinutes)%Q)
     / inject_Z snapUnit) * snapUnit.

(** The clamp boundary [(startHour + maxHours) * 60 - 60]. *)
Definition boundary (startHour maxHours : Z) : Z := (startHour + maxHours) * 60 - 60.

Definition clamp (lo hi x : Z) : Z := Z.max lo (Z.min hi x).

(** The minutes from midnight that a zero-padded time denotes. *)
Definition time_minutes (t : jsstring) : option Z :=
  match t with
  | [a; b; c; d; e] =>
      if is_HHMM t
      then Some (((Z.of_N a - 48) * 10 + (Z.of_N b - 48)) * 60
                 + (Z.of_N d - 48) * 10 + (Z.of_N e - 48))
      else None
  | _ => None
  end.

(** The two-digit rendering of a number below one hundred, as a check
    that can be run over the whole range. *)
Definition two_digits_ok (h : nat) : bool :=
  bool_decide (padStart0 2 (String_of_Z (Z.of_nat h))
               = [N.of_nat (48 + h / 10); N.of_nat (48 + h mod 10)]).

(** The time given to the entry that a release writes: snapped and
    clamped when the pointer moved, or else the time at hand. *)
Definition released_time (p : Props) (h : HookState) (minutes : Z)
    (unmoved : jsstring) : jsstring :=
  if negb (Qeq_bool (dragOffset h) 0)
  then calculateNewTime minutes (dragOffset h) (hourHeight p) (totalHours p)
         (startHour p) (snapMinutes p)
  else unmoved.

(** The entries that an effect list hands to [updatePlan] or
    [updateResult]. *)
Definition updates_list (es : list effect) (items : list ScheduleItem) : Prop :=
  UpdatePlan items ∈ es ∨ UpdateResult items ∈ es.

(** The lines of the schedule sections, by the grammar
    [* HH:MM [PROJECT] task text] and [* HH:MM]; the gaps [w1], [w2], [w3]
    are runs of white space. *)
Definition content_line (w1 t w2 proj w3 task : jsstring) : jsstring :=
  js "*" ++ w1 ++ t ++ w2 ++ js "[" ++ proj ++ js "]" ++ w3 ++ task.

Definition bare_line (w1 t w2 : jsstring) : jsstring := js "*" ++ w1 ++ t ++ w2.

(** A run of white space that is not empty. *)
Definition is_gap (w : jsstring) : Prop := w ≠ [] ∧ all_in isWhiteSpace w.

(** A project code: not empty, without a closing bracket. *)
Definition is_project_code (p : jsstring) : Prop :=
  p ≠ [] ∧ all_in (λ x, negb (x =? 93)%N) p.

(** A task text: not empty, on one line, starting with a code unit that
    is not white space. *)
Definition is_task_text (t : jsstring) : Prop :=
  t ≠ [] ∧ all_in (λ x, negb (isLineTerminator x)) t ∧ head_fails isWhiteSpace t.

(** The list that receives the entries of a schedule section. *)
Definition section_list (s : SectionName) (r : DailyReport) : list ScheduleItem :=
  match s with SecPlan => plan r | _ => result r end.

(** The schedule lists of [st'] continue those of [st]. *)
Definition schedule_grows (st st' : ParseState) : Prop :=
  plan (ps_report st) `prefix_of` plan (ps_report st') ∧
  result (ps_report st) `prefix_of` result (ps_report st').

Definition isDash (x : N) : bool := (x =? 45)%N.

(** The classes of [\d{4}-\d{2}-\d{2}] and of [\d{2}-\d{2}]. *)
Definition date10_classes : list (N → bool) :=
  [isDigit; isDigit; isDigit; isDigit; isDash; isDigit; isDigit; isDash; isDigit; isDigit].
Definition date5_classes : list (N → bool) :=
  [isDigit; isDigit; isDash; isDigit; isDigit].

(** A date token, [YYYY-MM-DD] or [MM-DD]. *)
Definition is_date10 (d : jsstring) : bool :=
  bool_decide (length d = 10%nat) && fits date10_classes d.
Definition is_date5 (d : jsstring) : bool :=
  bool_decide (length d = 5%nat) && fits date5_classes d.
Definition is_date (d : jsstring) : bool := is_date10 d || is_date5 d.

(** A text that does not end with [@] and a date token. *)
Definition no_deadline_at_end (text : jsstring) : Prop :=
  ∀ b d, is_date d = true → text ≠ b ++ 64%N :: d.

End Spec.
Import Spec.

(** ** Sample data *)

Module Examples.

Definition todo1 : TodoItem :=
  mkTodoItem (js "t1") (StatusStr (js "completed")) (js "P34") (js "review")
    None None (Some medium).

Definition todo2 : TodoItem :=
  mkTodoItem (js "t2") (StatusStr (js "pending")) (js "P99") (js "mail")
    (Some (js "weekly")) (Some (js "2025-01-31")) None.

Definition plan1 : list ScheduleItem :=
  [ mkScheduleItem (js "p1") (js "09:00") (js "P1") (js "design");
    mkScheduleItem (js "breakp2") (js "12:00") [] [];
    mkScheduleItem (js "p3") (js "13:00") (js "P2") (js "meeting") ].

Definition result1 : list ScheduleItem :=
  [ mkScheduleItem (js "r1") (js "09:30") (js "P1") (js "design") ].

Definition report1 : DailyReport :=
  mkDailyReport (js "2025-01-15") (js "bob") plan1 result1 [todo1; todo2] (js "memo").

(** A day with an empty result list and a late plan entry. *)
Definition plan2 : list ScheduleItem :=
  [ mkScheduleItem (js "p1") (js "19:30") (js "P1") (js "deploy") ].

Definition report2 : DailyReport :=
  mkDailyReport (js "2025-01-16") (js "bob") plan2 [] [] [].

(** The configuration of the dashboard by default: the window from 8
    o'clock, twelve hours long, sixty pixels an hour, a snap unit of a
    quarter of an hour. *)
Definition props_of (report : DailyReport) : Props :=
  mkProps (Some (400, 800)%Q) (Some report) 8 12 60 15.

(** The break slot from 12:00 to 13:00 of the plan, held over the result
    area without any vertical movement. *)
Definition break_held : HookState :=
  mkHookState
    (Some (mkDragState (js "break-12") PlanList 300 720 (Some true) (Some 60)))
    0 true.

(** The plan entry [p1], held over the result area without any vertical
    movement. *)
Definition item_held : HookState :=
  mkHookState (Some (mkDragState (js "p1") PlanList 300 1170 None None)) 0 true.

(** The result entry [r1] of [report1], dragged down by a quarter of an
    hour. *)
Definition item_moved : HookState :=
  mkHookState (Some (mkDragState (js "r1") ResultList 300 570 None None)) 15 false.

(** A todo section where a line that is neither indented nor an item
    stands between two indented lines. *)
Definition todo_document : jsstring :=
  join_lines [ js "## [TODO]"; js "- [ ] a"; js "  d1"; js "xyz"; js "  d2" ].

Definition clock : N := 1736900000000.
Definition suffix : jsstring := js "k3x9q2a".

End Examples.

(** ** The todo operations of [useReport] and the loading of a report *)

Module TodoOps.

(** [Omit<TodoItem, 'id'>]. *)
Record NewTodoItem := mkNewTodoItem {
  ntodo_status : StatusValue;
  ntodo_project : jsstring;
  ntodo_task : jsstring;
  ntodo_description : option jsstring;
  ntodo_deadline : option jsstring;
  ntodo_priority : option Priority
}.

(** [Partial<TodoItem>].  A key that is absent leaves the field as it
    is; for the three optional fields a key that is present with the
    value [undefined] erases the field, since [{ ...t, ...updates }]
    copies every own property of [updates]. *)
Record TodoUpdates := mkTodoUpdates {
  tupd_id : option jsstring;
  tupd_status : option StatusValue;
  tupd_project : option jsstring;
  tupd_task : option jsstring;
  tupd_description : option (option jsstring);
  tupd_deadline : option (option jsstring);
  tupd_priority : option (option Priority)
}.

#[global] Instance StatusValue_eq_dec : EqDecision StatusValue.
Proof. solve_decision. Defined.

Definition with_todo_id (t : TodoItem) (i : jsstring) : TodoItem :=
  mkTodoItem i (todo_status t) (todo_project t) (todo_task t)
    (todo_description t) (todo_deadline t) (todo_priority t).

(** [now] is the value of [Date.now()]. *)
Definition addTodo (now : N) (todo : NewTodoItem)
    : option DailyReport → option DailyReport :=
  Report.setReport (λ prev,
    let newTodo :=
      mkTodoItem (js "t" ++ String_of_Z (Z.of_N now))
        (ntodo_status todo) (ntodo_project todo) (ntodo_task todo)
        (ntodo_description todo) (ntodo_deadline todo) (ntodo_priority todo) in
    with_todos prev (todos prev ++ [newTodo])).

(** [{ ...t, ...updates }]. *)
Definition apply_todo_updates (t : TodoItem) (u : TodoUpdates) : TodoItem :=
  mkTodoItem
    (default (todo_id t) (tupd_id u))
    (default (todo_status t) (tupd_status u))
    (default (todo_project t) (tupd_project u))
    (default (todo_task t) (tupd_task u))
    (default (todo_description t) (tupd_description u))
    (default (todo_deadline t) (tupd_deadline u))
    (default (todo_priority t) (tupd_priority u)).

Definition updateTodo (id : jsstring) (updates : TodoUpdates)
    : option DailyReport → option DailyReport :=
  Report.setReport (λ prev,
    with_todos prev
      ((λ t, if str_eqb (todo_id t) id then apply_todo_updates t updates else t)
         <$> todos prev)).

Definition deleteTodo (id : jsstring) : option DailyReport → option DailyReport :=
  Report.setReport (λ prev,
    with_todos prev (filter (λ t, todo_id t ≠ id) (todos prev))).

(** [updateMarkdown]: the decoded text replaces the report, also when
    there was none. *)
Definition updateMarkdown (year : N) (currentDate content : jsstring)
    (prev : option DailyReport) : option DailyReport :=
  match parseReportFromMarkdown year currentDate content with
  | Returns parsed => Some parsed
  | Throws => prev
  end.

(** What [await reportApi.get(date)] gives: the promise is fulfilled,
    with the text of the stored report or with [null] when there is
    none, or it is rejected. *)
Inductive settled (A : Type) : Type :=
| Fulfilled (a : A)
| Rejected.
Arguments Fulfilled {A} a.
Arguments Rejected {A}.

(** [`carryover-${Date.now()}-${index}`]. *)
Definition carryover_id (now : N) (index : nat) : jsstring :=
  js "carryover-" ++ String_of_Z (Z.of_N now) ++ js "-" ++ String_of_nat index.

(** The todos carried over from the day before: those that are not
    completed, with new ids.  [Date.now()] is read once for each todo;
    [clock index] is the reading for the todo at [index]. *)
Definition carry_over (clock : nat → N) (previousTodos : list TodoItem) : list TodoItem :=
  let incompleteTodos :=
    filter (λ todo, todo_status todo ≠ StatusStr (js "completed")) previousTodos in
  imap (λ index todo, with_todo_id todo (carryover_id (clock index) index))
    incompleteTodos.

(** The report that [loadReport date] leaves in the state variable
    [report]: [response] is the outcome of [reportApi.get(date)] and
    [previousReport] that of [reportApi.get(previousDate)] (asked for
    only when [response] is [null]).  A rejected first request is caught
    by the outer handler, which sets the error message and leaves the
    report as it was; a failure while the previous day is fetched or
    decoded is caught by the inner handler and ignored. *)
Definition loadReport (year : N) (clock : nat → N) (date previousDate : jsstring)
    (response : settled (option jsstring))
    (previousReport : settled (option jsstring))
    (prev : option DailyReport) : option DailyReport :=
  match response with
  | Fulfilled (Some content) =>
      match parseReportFromMarkdown year date content with
      | Returns report => Some report
      | Throws => prev
      end
  | Fulfilled None =>
      let newReport := Report.createEmptyReport date in
      match previousReport with
      | Fulfilled (Some previousContent) =>
          match parseReportFromMarkdown year previousDate previousContent with
          | Returns previousReportData =>
              Some (with_todos newReport (carry_over clock (todos previousReportData)))
          | Throws => Some newReport
          end
      | _ => Some newReport
      end
  | Rejected => prev
  end.

End TodoOps.
Import TodoOps.

(** ** What a match tells *)

Module Runs.

(** [rx_run r i s c j s' c']: the pattern [r] can take the input [s] at
    index [i] with the groups [c] to the rest [s'] at index [j] with the
    groups [c'].  Every result of the matcher is of this form, which says
    nothing of priorities. *)
Inductive rx_run : regex → nat → jsstring → captures → nat → jsstring → captures → Prop :=
| run_char p x i s c :
    p x = true → rx_run (Rchar p) i (x :: s) c (S i) s c
| run_eps i s c : rx_run Reps i s c i s c
| run_seq r1 r2 i s c j s' c' j' s'' c'' :
    rx_run r1 i s c j s' c' → rx_run r2 j s' c' j' s'' c'' →
    rx_run (Rseq r1 r2) i s c j' s'' c''
| run_alt_l r1 r2 i s c j s' c' :
    rx_run r1 i s c j s' c' → rx_run (Ralt r1 r2) i s c j s' c'
| run_alt_r r1 r2 i s c j s' c' :
    rx_run r2 i s c j s' c' → rx_run (Ralt r1 r2) i s c j s' c'
| run_star_stop g r i s c : rx_run (Rstar g r) i s c i s c
| run_star_more g r i s c j s' c' j' s'' c'' :
    rx_run r i s c j s' c' → rx_run (Rstar g r) j s' c' j' s'' c'' →
    rx_run (Rstar g r) i s c j' s'' c''
| run_group n r i s c j s' c' :
    rx_run r i s c j s' c' →
    rx_run (Rgroup n r) i s c j s' (<[n := take (j - i) s]> c')
| run_bol s c : rx_run Rbol 0 s c 0 s c
| run_eol i c : rx_run Reol i [] c i [] c.

(** The pattern took exactly the code units [w] and left the groups as
    they were. *)
Definition took (w : jsstring) (i : nat) (s : jsstring) (c : captures)
    (j : nat) (s' : jsstring) (c' : captures) : Prop :=
  s = w ++ s' ∧ j = (i + length w)%nat ∧ c' = c.

End Runs.
Import Runs.

(** ** The steps of the decoder *)

Module Steps.

(** The four section headings and the values they give to
    [currentSection]. *)
Definition section_headings : list (string * SectionName) :=
  [("PLAN", SecPlan); ("RESULT", SecResult); ("TODO", SecTodo); ("NOTE", SecNote)]%string.

(** What a line can do to the variables of the loop: every turn of the
    loop is one of these steps. *)
Inductive line_step (year : N) (i : nat) (line : jsstring) (st : ParseState)
    : ParseState → Prop :=
| step_section name s :
    (name, s) ∈ section_headings →
    matches (re_section name) line = true →
    line_step year i line st (set_section st s)
| step_project p :
    ps_section st = SecTodo → line_step year i line st (set_todoProject st p)
| step_entry m :
    is_schedule_section (ps_section st) = true →
    exec re_schedule line = Some m →
    line_step year i line st
      (set_report st
         (push_schedule (ps_section st)
            (mkScheduleItem (section_initial (ps_section st) ++ String_of_nat i)
               (group 1 m) (group 2 m) (group 3 m))
            (ps_report st)))
| step_marker m :
    is_schedule_section (ps_section st) = true →
    exec re_end_time line = Some m →
    line_step year i line st
      (set_report st
         (push_schedule (ps_section st)
            (mkScheduleItem (js "break" ++ section_initial (ps_section st) ++ String_of_nat i)
               (group 1 m) [] [])
            (ps_report st)))
| step_todo m :
    ps_section st = SecTodo →
    exec re_todo line = Some m →
    line_step year i line st
      (set_report st
         (with_todos (ps_report st)
            (todos (ps_report st) ++ [decode_todo year i (ps_todoProject st) m])))
| step_description lastTodo :
    ps_section st = SecTodo →
    todos (ps_report st) !! (length (todos (ps_report st)) - 1)%nat = Some lastTodo →
    line_step year i line st
      (set_report st
         (with_todos (ps_report st)
            (<[(length (todos (ps_report st)) - 1)%nat :=
                 with_description lastTodo
                   (Some (join_description (todo_description lastTodo) (trim line)))]>
               (todos (ps_report st)))))
| step_note :
    ps_section st = SecNote → line_step year i line st (push_noteLine st line)
| step_skip : line_step year i line st st.

End Steps.
Import Steps.

(** ** Further notions *)

Module Notions.

(** Two todos that differ at most in their id. *)
Definition same_but_id (t t' : TodoItem) : Prop :=
  todo_status t' = todo_status t ∧ todo_project t' = todo_project t ∧
  todo_task t' = todo_task t ∧ todo_description t' = todo_description t ∧
  todo_deadline t' = todo_deadline t ∧ todo_priority t' = todo_priority t.

(** The entry [item] after a move of the entries with the id [id] to
    [newTime]. *)
Definition retime (id newTime : jsstring) (item : ScheduleItem) : ScheduleItem :=
  if str_eqb (item_id item) id then with_time item newTime else item.

(** The two kinds of schedule entries: a content entry carries a project
    code and a task on one line; a bare-time marker carries neither. *)
Definition is_content_entry (x : ScheduleItem) : Prop :=
  is_project_code (item_project x) ∧ item_task x ≠ [] ∧
  all_in (λ c, negb (isLineTerminator c)) (item_task x).

Definition is_marker_entry (x : ScheduleItem) : Prop :=
  item_project x = [] ∧ item_task x = [].

Definition well_formed_entry (x : ScheduleItem) : Prop :=
  is_HHMM (item_time x) = true ∧ (is_content_entry x ∨ is_marker_entry x).

(** The ids that the decoder gives in a schedule section of initial [c]
    to the line of index [n]. *)
Definition line_id (c : jsstring) (n : nat) (id : jsstring) : Prop :=
  id = c ++ String_of_nat n ∨ id = js "break" ++ c ++ String_of_nat n.

(** The entries of [l] have distinct ids, given to lines before [i]. *)
Definition ids_below (c : jsstring) (i : nat) (l : list ScheduleItem) : Prop :=
  NoDup (item_id <$> l) ∧
  Forall (λ x, ∃ n, (n < i)%nat ∧ line_id c n (item_id x)) l.

Definition todo_ids_below (i : nat) (l : list TodoItem) : Prop :=
  NoDup (todo_id <$> l) ∧
  Forall (λ t, ∃ n, (n < i)%nat ∧ todo_id t = js "t" ++ String_of_nat n) l.

(** The invariant of the decoding loop on the ids, before the line of
    index [i]. *)
Definition ids_invariant (i : nat) (st : ParseState) : Prop :=
  ids_below (js "p") i (plan (ps_report st)) ∧
  ids_below (js "r") i (result (ps_report st)) ∧
  todo_ids_below i (todos (ps_report st)).

(** One of the four statuses. *)
Definition known_status (s : StatusValue) : Prop :=
  s = pending ∨ s = in_progress ∨ s = completed ∨ s = on_hold.

(** The deadline of a decoded todo, when the year is [year]: none, a
    date [YYYY-MM-DD], or the year and a date [MM-DD]. *)
Definition decoded_deadline (year : N) (deadline : option jsstring) : Prop :=
  match deadline with
  | None => True
  | Some d =>
      is_date10 d = true ∨
      ∃ d5, is_date5 d5 = true ∧ d = String_of_Z (Z.of_N year) ++ js "-" ++ d5
  end.

(** The numeral of a year has four code units: a check that can be run
    over the years from 1000 to 9999. *)
Definition four_digits_ok (y : nat) : bool :=
  bool_decide (length (String_of_Z (Z.of_nat y)) = 4%nat).

End Notions.
Import Notions.

(** ** The markdown encoder of [useReport] *)

Module Generate.

(** The loop of a lazy star over a character class, on its own. *)
Definition lazy_loop {R} (p : N → bool) (k : nat → jsstring → captures → option R) :=
  fix loop (fuel : nat) (i : nat) (s : jsstring) (c : captures) : option R :=
    match fuel with
    | O => k i s c
    | S fuel' =>
        match k i s c with
        | Some x => Some x
        | None =>
            match s with
            | x :: s' =>
                if p x then
                  if decide (length s' < length s)%nat then loop fuel' (S i) s' c else None
                else None
            | [] => None
            end
        end
    end.

(** The two code units of 日報 and of 名前. *)
Definition nippou : jsstring := [26085%N; 22577%N].
Definition namae : jsstring := [21517%N; 21069%N].

(** [s || d] on strings: the empty string is falsy. *)
Definition or_else (s d : jsstring) : jsstring :=
  match s with [] => d | _ :: _ => s end.

Section WithLineGenerators.

(** [generateScheduleLines] and [generateTodoLines] are functions of the
    modules [models/markdown/schedule] and [models/markdown/todo], which
    are not part of the sources: they are parameters here. *)
Variable generateScheduleLines : list ScheduleItem → list jsstring.
Variable generateTodoLines : list TodoItem → list jsstring.

(** The array [lines] of [generateMarkdownFromReport]. *)
Definition generated_lines (report : DailyReport) : list jsstring :=
  [ js "# [" ++ nippou ++ js "] " ++ or_else (author report) namae ++ js " " ++ date report;
    [];
    js "## [PLAN]";
    [] ]
  ++ generateScheduleLines (plan report)
  ++ [ [];
       js "## [RESULT]";
       [] ]
  ++ generateScheduleLines (result report)
  ++ [ [];
       js "## [TODO]";
       [] ]
  ++ generateTodoLines (todos report)
  ++ [ [];
       js "## [NOTE]";
       [];
       or_else (notes report) [] ].

Definition generateMarkdownFromReport (report : DailyReport) : jsstring :=
  join_lines (generated_lines report).

End WithLineGenerators.

End Generate.
Import Generate.

(** ** The callers: [TimelineView], [TodoView] and [Dashboard] *)

Module TimelineView.

(** The texts shown by [message.success]. *)
Inductive notice :=
| ProjectChanged (projectCode : jsstring)   (* プロジェクトを projectCode に変更しました *)
| ItemDeleted (type : ListType).            (* 計画 / 実績 を削除しました *)

Section WithLocale.
Variable localeCompare : jsstring → jsstring → comparison.

(** [report.updateScheduleItem(type, id, { project: projectCode })]. *)
Definition handleChangeProject (id projectCode : jsstring) (type : ListType)
    (store : option DailyReport) : option DailyReport * notice :=
  (Report.updateScheduleItem localeCompare type id
     (mkScheduleUpdates None None (Some projectCode) None) store,
   ProjectChanged projectCode).

End WithLocale.

Definition handleDeleteItem (id : jsstring) (type : ListType)
    (store : option DailyReport) : option DailyReport * notice :=
  (Report.deleteScheduleItem type id store, ItemDeleted type).

End TimelineView.

Module TodoView.

(** [todo.status === s] for a string [s]. *)
Definition status_is (s : jsstring) (todo : TodoItem) : bool :=
  match todo_status todo with
  | StatusStr k => str_eqb k s
  | StatusInherited _ => false
  end.

(** [selectedProjects.length > 0 ? allTodos.filter(...) : allTodos]. *)
Definition projectFilteredTodos (selectedProjects : list jsstring)
    (allTodos : list TodoItem) : list TodoItem :=
  if bool_decide (0 < length selectedProjects)%nat
  then filter (λ todo, todo_project todo ∈ selectedProjects) allTodos
  else allTodos.

(** [filter] is ['all'] or a status. *)
Definition filteredTodos (filter_ : jsstring) (projectFiltered : list TodoItem)
    : list TodoItem :=
  filter (λ todo,
            negb (negb (str_eqb filter_ (js "all")) && negb (status_is filter_ todo))
            = true)
    projectFiltered.

Record Counts := mkCounts {
  count_all : nat;
  count_pending : nat;
  count_in_progress : nat;
  count_completed : nat;
  count_on_hold : nat
}.

Definition counts (projectFiltered : list TodoItem) : Counts :=
  let count s := length (filter (λ t, status_is s t = true) projectFiltered) in
  mkCounts (length projectFiltered)
    (count (js "pending")) (count (js "in_progress"))
    (count (js "completed")) (count (js "on_hold")).

(** One turn of the [reduce] that groups the todos by project.  [acc]
    holds the own properties of the accumulator, which starts as [{}].
    For a key that is not an own property, [acc[key]] is [undefined]
    unless the key names a member inherited from [Object.prototype]:
    that member is truthy, so no array is stored, and it has no [push],
    so that [acc[key].push(todo)] raises a [TypeError]. *)
Definition group_todo (acc : gmap jsstring (list TodoItem)) (todo : TodoItem)
    : outcome (gmap jsstring (list TodoItem)) :=
  let key := todo_project todo in
  match acc !! key with
  | Some l => Returns (<[key := l ++ [todo]]> acc)
  | None =>
      if bool_decide (key ∈ Report.Object_prototype_names) then Throws
      else Returns (<[key := [todo]]> acc)
  end.

Definition groupedTodos (filtered : list TodoItem)
    : outcome (gmap jsstring (list TodoItem)) :=
  foldl (λ acc todo, bind acc (λ a, group_todo a todo)) (Returns ∅) filtered.

(** The state of the inline editor. *)
Record EditState := mkEditState {
  editingTodo : option jsstring;
  editText : jsstring;
  editDeadline : option jsstring;
  editPriority : option Priority
}.

Definition no_edit : EditState := mkEditState None [] None None.

Definition handleStartEdit (todo : TodoItem) : EditState :=
  let text :=
    match todo_description todo with
    | Some (c :: d) => todo_task todo ++ 10%N :: c :: d
    | _ => todo_task todo
    end in
  mkEditState (Some (todo_id todo)) text (todo_deadline todo) (todo_priority todo).

(** [lines.slice(1).join('\n').trim() || undefined]. *)
Definition description_of (lines : list jsstring) : option jsstring :=
  match trim (join_lines (tail lines)) with
  | [] => None
  | d => Some d
  end.

(** The id of the todo under edit is a condition: an empty id is falsy. *)
Definition handleSaveEdit (e : EditState) (store : option DailyReport)
    : EditState * option DailyReport :=
  match editingTodo e with
  | Some (c :: id) =>
      let lines := split_lines (editText e) in
      let task := trim (default [] (head lines)) in
      let description := description_of lines in
      (no_edit,
       updateTodo (c :: id)
         (mkTodoUpdates None None None (Some task) (Some description)
            (Some (editDeadline e)) (Some (editPriority e)))
         store)
  | _ => (e, store)
  end.

End TodoView.

Module Dashboard.

(** [prev.includes(projectCode) ? prev.filter(c => c !== projectCode)
    : [...prev, projectCode]]. *)
Definition handleToggleProject (projectCode : jsstring) (prev : list jsstring)
    : list jsstring :=
  if bool_decide (projectCode ∈ prev)
  then filter (λ c, c ≠ projectCode) prev
  else prev ++ [projectCode].

(** The routine items of [handleApplyRoutine].  The declaration of
    [RoutineItem] is not part of the sources, so the type is a parameter,
    with the two fields that the filters read: [category] and [time],
    each a string or [undefined]. *)
Section Routine.
Context {RoutineItem : Type}.
Variable routine_category : RoutineItem → option jsstring.
Variable routine_time : RoutineItem → option jsstring.

(** A string used as a condition: [undefined] and the empty string are
    falsy. *)
Definition truthy_string (s : option jsstring) : bool :=
  match s with
  | Some (_ :: _) => true
  | _ => false
  end.

(** [r.category === 'plan' || (!r.category && r.time && r.time !== '')]. *)
Definition for_plan (r : RoutineItem) : bool :=
  bool_decide (routine_category r = Some (js "plan"))
  || (negb (truthy_string (routine_category r)) && truthy_string (routine_time r)
      && negb (bool_decide (routine_time r = Some []))).

(** [r.category === 'todo' || (!r.category && (!r.time || r.time === ''))]. *)
Definition for_todo (r : RoutineItem) : bool :=
  bool_decide (routine_category r = Some (js "todo"))
  || (negb (truthy_string (routine_category r))
      && (negb (truthy_string (routine_time r))
          || bool_decide (routine_time r = Some []))).

Definition planItems (items : list RoutineItem) : list RoutineItem :=
  filter (λ r, for_plan r = true) items.
Definition todoItems (items : list RoutineItem) : list RoutineItem :=
  filter (λ r, for_todo r = true) items.

End Routine.

End Dashboard.

(** ** The registry of unsaved reports, [useUnsavedReports] *)

Module Unsaved.

Record UnsavedReport := mkUnsavedReport {
  unsaved_date : jsstring;
  unsaved_report : DailyReport;
  originalMarkdown : jsstring;
  currentMarkdown : jsstring
}.

(** A [Map<string, UnsavedReport>], in the order of insertion. *)
Abbreviation ReportMap := (list (jsstring * UnsavedReport)).

(** [next.set(key, value)]: a key that is present keeps its place. *)
Fixpoint map_set (key : jsstring) (value : UnsavedReport) (m : ReportMap) : ReportMap :=
  match m with
  | [] => [(key, value)]
  | (k, v) :: m' =>
      if str_eqb k key then (key, value) :: m' else (k, v) :: map_set key value m'
  end.

(** [next.delete(key)]. *)
Definition map_delete (key : jsstring) (m : ReportMap) : ReportMap :=
  filter (λ kv, kv.1 ≠ key) m.

(** [m.get(key)]. *)
Fixpoint map_get (key : jsstring) (m : ReportMap) : option UnsavedReport :=
  match m with
  | [] => None
  | (k, v) :: m' => if str_eqb k key then Some v else map_get key m'
  end.

Definition hasUnsavedChanges (unsavedReports : ReportMap) : bool :=
  bool_decide (0 < length unsavedReports)%nat.

Definition unsavedDates (unsavedReports : ReportMap) : list jsstring :=
  unsavedReports.*1.

Definition hasUnsavedChangesForDate (date : jsstring) (unsavedReports : ReportMap) : bool :=
  bool_decide (is_Some (map_get date unsavedReports)).

Definition setUnsavedReport (date : jsstring) (report : DailyReport)
    (original current : jsstring) (prev : ReportMap) : ReportMap :=
  if str_eqb original current then map_delete date prev
  else map_set date (mkUnsavedReport date report original current) prev.

Definition clearUnsavedReport (date : jsstring) (prev : ReportMap) : ReportMap :=
  map_delete date prev.

Definition clearAllUnsavedReports : ReportMap := [].

Definition getUnsavedReport (date : jsstring) (unsavedReports : ReportMap)
    : option UnsavedReport :=
  map_get date unsavedReports.

(** The registries that the hook can reach from the empty one. *)
Inductive reachable : ReportMap → Prop :=
| reach_empty : reachable []
| reach_set date report original current m :
    reachable m → reachable (setUnsavedReport date report original current m)
| reach_clear date m : reachable m → reachable (clearUnsavedReport date m).

Section Registration.
Variable generateScheduleLines : list ScheduleItem → list jsstring.
Variable generateTodoLines : list TodoItem → list jsstring.

(** The effect of the dashboard that records the report under edit:
    skipped right after a change of date, and otherwise run when the
    report is dirty.  The original text is passed as the empty string;
    the current one is [report.markdownContent], which [useReport]
    computes as [generateMarkdownFromReport(report)]. *)
Definition register_dirty (isDateChanging isDirty : bool) (currentDate : jsstring)
    (report : option DailyReport) (unsavedReports : ReportMap) : ReportMap :=
  if isDateChanging then unsavedReports
  else
    match isDirty, report with
    | true, Some r =>
        setUnsavedReport currentDate r []
          (generateMarkdownFromReport generateScheduleLines generateTodoLines r)
          unsavedReports
    | _, _ => unsavedReports
    end.

End Registration.

End Unsaved.
Import Unsaved.

(** ** Texts by sections *)

Module Documents.

(** A line without a line break in it. *)
Definition one_line (line : jsstring) : Prop := Forall (λ x, x ≠ 10%N) line.

(** One of the four tests [line.match(/^##\s+\[NAME\]/i)] of the loop
    succeeds. *)
Definition is_section_heading (line : jsstring) : bool :=
  matches (re_section "PLAN") line || matches (re_section "RESULT") line
  || matches (re_section "TODO") line || matches (re_section "NOTE") line.

(** The heading line of a schedule section. *)
Definition schedule_heading (ty : ListType) : jsstring :=
  match ty with
  | PlanList => js "## [PLAN]"
  | ResultList => js "## [RESULT]"
  end.

(** The reading of the lines of a schedule section by the grammar of the
    two line forms, to be compared with what the decoder returns:
    [schedule_lines c i lines items] when the lines, the first of which
    has the index [i], stand for the entries [items] in a section of
    initial [c].  A line [* HH:MM [PROJECT] task text] stands for a
    content entry, a line [* HH:MM] for a bare-time marker, and a line
    that matches neither pattern (and is no section heading, which would
    end the section) for no entry. *)
Inductive schedule_lines (c : jsstring) : nat → list jsstring → list ScheduleItem → Prop :=
| lines_done i : schedule_lines c i [] []
| lines_content i w1 t w2 proj w3 task rest items :
    is_gap w1 → is_HHMM t = true → is_gap w2 → is_project_code proj →
    is_gap w3 → is_task_text task →
    schedule_lines c (S i) rest items →
    schedule_lines c i (content_line w1 t w2 proj w3 task :: rest)
      (mkScheduleItem (c ++ String_of_nat i) t proj task :: items)
| lines_bare i w1 t w2 rest items :
    is_gap w1 → is_HHMM t = true → all_in isWhiteSpace w2 →
    schedule_lines c (S i) rest items →
    schedule_lines c i (bare_line w1 t w2 :: rest)
      (mkScheduleItem (js "break" ++ c ++ String_of_nat i) t [] [] :: items)
| lines_other i line rest items :
    exec re_schedule line = None → exec re_end_time line = None →
    is_section_heading line = false →
    schedule_lines c (S i) rest items →
    schedule_lines c i (line :: rest) items.





End Documents.
Import Documents.

(** * Properties *)

(** ** Strings *)

Lemma js_inj (a b : string) : js a = js b → a = b.
Proof.
  unfold js. revert b.
  induction a as [|x a IH]; intros [|y b]; simpl; try discriminate; auto.
  intros H. injection H as Hxy Hab.
  f_equal; [| by apply IH].
  rewrite <- (Ascii.ascii_N_embedding x), <- (Ascii.ascii_N_embedding y).
  by rewrite Hxy.
Qed.

Lemma String_of_nat_inj (n m : nat) : String_of_nat n = String_of_nat m → n = m.
Proof.
  unfold String_of_nat. intros H.
  by apply (inj pretty), js_inj.
Qed.

Lemma lex_compare_refl (a : jsstring) : lex_compare a a = Eq.
Proof.
  induction a as [|x a IH]; simpl; [done|].
  by rewrite N.compare_refl.
Qed.

Lemma lex_compare_antisym (a b : jsstring) :
  lex_compare b a = CompOpp (lex_compare a b).
Proof.
  revert b. induction a as [|x a IH]; intros [|y b]; simpl; try done.
  rewrite (N.compare_antisym x y).
  destruct (x ?= y)%N; simpl; auto.
Qed.

Lemma lex_compare_Eq (a b : jsstring) : lex_compare a b = Eq → a = b.
Proof.
  revert b. induction a as [|x a IH]; intros [|y b]; simpl; try done.
  destruct (x ?= y)%N eqn:E; try done.
  apply N.compare_eq in E. intros H. f_equal; auto.
Qed.

Lemma lex_compare_Lt_trans (a b c : jsstring) :
  lex_compare a b = Lt → lex_compare b c = Lt → lex_compare a c = Lt.
Proof.
  revert b c. induction a as [|x a IH]; intros [|y b] [|z c]; simpl; try done.
  destruct (x ?= y)%N eqn:Exy; try done.
  - apply N.compare_eq in Exy. subst y.
    destruct (x ?= z)%N; try done. apply IH.
  - destruct (y ?= z)%N eqn:Eyz; try done.
    + apply N.compare_eq in Eyz. subst z. by rewrite Exy.
    + intros _ _.
      assert ((x ?= z)%N = Lt) as ->; [|done].
      rewrite N.compare_lt_iff in *. lia.
Qed.

Lemma lex_le_trans (a b c : jsstring) :
  lex_compare a b ≠ Gt → lex_compare b c ≠ Gt → lex_compare a c ≠ Gt.
Proof.
  intros Hab Hbc.
  destruct (lex_compare a b) eqn:Eab; [| |done].
  - apply lex_compare_Eq in Eab. by subst.
  - destruct (lex_compare b c) eqn:Ebc; [| |done].
    + apply lex_compare_Eq in Ebc. subst. by rewrite Eab.
    + by rewrite (lex_compare_Lt_trans a b c).
Qed.

Lemma lex_le_total (a b : jsstring) :
  lex_compare a b = Gt → lex_compare b a ≠ Gt.
Proof. intros H. rewrite lex_compare_antisym, H. done. Qed.

(** ** Sorting *)

Section SortFacts.

Variable localeCompare : jsstring → jsstring → comparison.

Lemma insert_by_time_perm (x : ScheduleItem) (l : list ScheduleItem) :
  insert_by_time localeCompare x l ≡ₚ x :: l.
Proof.
  induction l as [|y l IH]; simpl; [done|].
  destruct (localeCompare _ _); try done.
  rewrite IH. apply Permutation_swap.
Qed.

Lemma sort_by_time_perm (l : list ScheduleItem) :
  sort_by_time localeCompare l ≡ₚ l.
Proof.
  induction l as [|x l IH]; simpl; [done|].
  by rewrite insert_by_time_perm, IH.
Qed.

Lemma sort_by_time_length (l : list ScheduleItem) :
  length (sort_by_time localeCompare l) = length l.
Proof. by rewrite sort_by_time_perm. Qed.

Hypothesis localeCompare_times : collates_times localeCompare.

Lemma insert_by_time_sorted (x : ScheduleItem) (l : list ScheduleItem) :
  is_HHMM (item_time x) = true → all_HHMM l →
  time_sorted l → time_sorted (insert_by_time localeCompare x l).
Proof.
  intros Hx Hl Hs.
  induction Hs as [|y l Hs IH Hy]; simpl.
  - repeat constructor.
  - inversion Hl as [|? ? Hyt Hl']; subst.
    rewrite (localeCompare_times _ _ Hx Hyt).
    destruct (lex_compare (item_time x) (item_time y)) eqn:E.
    + constructor; [by constructor|].
      constructor; [unfold time_le; by rewrite E|].
      eapply Forall_impl; [exact Hy|].
      intros z Hz. unfold time_le in *.
      eapply lex_le_trans; [|exact Hz]. by rewrite E.
    + constructor; [by constructor|].
      constructor; [unfold time_le; by rewrite E|].
      eapply Forall_impl; [exact Hy|].
      intros z Hz. unfold time_le in *.
      eapply lex_le_trans; [|exact Hz]. by rewrite E.
    + constructor; [by apply IH|].
      rewrite insert_by_time_perm.
      constructor; [|done].
      by apply lex_le_total.
Qed.

Lemma sort_by_time_sorted (l : list ScheduleItem) :
  all_HHMM l → time_sorted (sort_by_time localeCompare l).
Proof.
  induction 1 as [|x l Hx Hl IH]; simpl; [constructor|].
  apply insert_by_time_sorted; auto.
  unfold all_HHMM. by rewrite sort_by_time_perm.
Qed.

End SortFacts.

(** ** Toggling the status of a todo *)



Lemma toggle_todo_other (id : jsstring) (t : TodoItem) :
  todo_id t ≠ id → Report.toggle_todo id t = t.
Proof.
  intros H. unfold Report.toggle_todo, str_eqb.
  by rewrite bool_decide_eq_false_2.
Qed.

Lemma toggle_todo_same (id : jsstring) (t : TodoItem) :
  todo_id t = id →
  Report.toggle_todo id t = with_status t (Report.next_status (todo_status t)).
Proof.
  intros H. unfold Report.toggle_todo, str_eqb.
  by rewrite bool_decide_eq_true_2.
Qed.

Lemma toggle_todo_four_times (id : jsstring) (t : TodoItem) :
  (todo_id t = id → ∃ k, todo_status t = StatusStr k ∧ recognized k) →
  Nat.iter 4 (Report.toggle_todo id) t = t.
Proof.
  intros Ht. simpl.
  destruct (decide (todo_id t = id)) as [E|E].
  - destruct (Ht E) as (k & Hk & Hr).
    rewrite (toggle_todo_same id t E).
    do 3 (rewrite (toggle_todo_same id (with_status _ _)) by exact E).
    destruct t as [tid st pr ta de dl prio]. simpl in *. subst st.
    destruct Hr as [-> | [-> | [-> | ->]]];
      unfold with_status;
      cbn [todo_id todo_status todo_project todo_task todo_description
           todo_deadline todo_priority];
      f_equal; by vm_compute.
  - by rewrite !(toggle_todo_other id t E).
Qed.

Lemma toggle_four_times (id : jsstring) (l : list TodoItem) :
  Forall (λ t, todo_id t = id → ∃ k, todo_status t = StatusStr k ∧ recognized k) l →
  Nat.iter 4 (fmap (Report.toggle_todo id)) l = l.
Proof.
  intros H. simpl. rewrite <- !list_fmap_compose.
  induction H as [|t l Ht Hl IH]; [done|].
  rewrite fmap_cons, IH. f_equal.
  exact (toggle_todo_four_times id t Ht).
Qed.




(** ** Copying the plan to the result *)

Lemma indexed_id_inj (c : string) (now : N) (i j : nat) :
  Report.indexed_id c now i = Report.indexed_id c now j → i = j.
Proof.
  unfold Report.indexed_id. intros H.
  do 3 apply app_inv_head in H.
  by apply String_of_nat_inj.
Qed.


(** ** The new time of a dragged entry *)

Lemma calculateNewTime_format (s : Z) (off hh : Q) (mh sh snap : Z) :
  calculateNewTime s off hh mh sh snap
  = formatMinutesToTime (calculateNewMinutes s off hh mh sh snap).
Proof. reflexivity. Qed.

(** The code computes what the formula of the specification says:
    minutes, rounded, snapped, then clamped. *)
Lemma calculateNewMinutes_spec (s : Z) (off hh : Q) (mh sh snap : Z) :
  calculateNewMinutes s off hh mh sh snap
  = clamp 0 (boundary sh mh) (snappedMinutes s off hh snap).
Proof.
  unfold calculateNewMinutes, clamp, boundary, snappedMinutes, Math_round.
  do 3 f_equal. apply Qfloor_comp.
  assert (Qfloor (inject_Z s + off / hh * 60 + (1 # 2))
          = Qfloor (off / hh * 60 + inject_Z s + (1 # 2))) as ->; [|reflexivity].
  apply Qfloor_comp. ring.
Qed.

Lemma calculateNewMinutes_bounds (s : Z) (off hh : Q) (mh sh snap : Z) :
  0 ≤ boundary sh mh →
  0 ≤ calculateNewMinutes s off hh mh sh snap ≤ boundary sh mh.
Proof. rewrite calculateNewMinutes_spec. unfold clamp. lia. Qed.

Lemma calculateNewMinutes_pinned (s : Z) (off hh : Q) (mh sh snap : Z) :
  0 ≤ boundary sh mh →
  boundary sh mh ≤ snappedMinutes s off hh snap →
  calculateNewMinutes s off hh mh sh snap = boundary sh mh.
Proof. rewrite calculateNewMinutes_spec. unfold clamp. lia. Qed.

Lemma two_digits_table : forallb two_digits_ok (seq 0 100) = true.
Proof. by vm_compute. Qed.

Lemma padStart0_two_digits (h : Z) :
  0 ≤ h < 100 →
  padStart0 2 (String_of_Z h) = [Z.to_N (48 + h / 10); Z.to_N (48 + h mod 10)].
Proof.
  intros Hh.
  pose proof two_digits_table as T. rewrite forallb_forall in T.
  specialize (T (Z.to_nat h)).
  assert (In (Z.to_nat h) (seq 0 100)) as Hin by (apply in_seq; lia).
  apply T in Hin. unfold two_digits_ok in Hin.
  apply bool_decide_eq_true in Hin.
  rewrite Z2Nat.id in Hin by lia. rewrite Hin.
  f_equal; [|f_equal]; apply N2Z.inj.
  - rewrite nat_N_Z, Z2N.id, Nat2Z.inj_add, Nat2Z.inj_div, Z2Nat.id by (try apply Z.add_nonneg_nonneg; try apply Z.div_pos; lia).
    reflexivity.
  - rewrite nat_N_Z, Z2N.id, Nat2Z.inj_add, Nat2Z.inj_mod, Z2Nat.id.
    + reflexivity.
    + lia.
    + pose proof (Z.mod_pos_bound h 10). lia.
Qed.

Lemma isDigit_to_N (d : Z) : 0 ≤ d ≤ 9 → isDigit (Z.to_N (48 + d)) = true.
Proof.
  intros Hd. unfold isDigit.
  apply andb_true_intro. split; apply N.leb_le; lia.
Qed.

Lemma formatMinutesToTime_HHMM (n : Z) :
  0 ≤ n < 6000 →
  is_HHMM (formatMinutesToTime n) = true ∧
  time_minutes (formatMinutesToTime n) = Some n.
Proof.
  intros Hn. unfold formatMinutesToTime.
  rewrite Z.rem_mod_nonneg by lia.
  assert (0 ≤ n / 60 < 100) as Hh.
  { split; [apply Z.div_pos; lia | apply Z.div_lt_upper_bound; lia]. }
  pose proof (Z.mod_pos_bound n 60 ltac:(lia)) as Hm.
  rewrite !padStart0_two_digits by lia.
  set (h := n / 60) in *. set (m := n mod 60) in *.
  assert (0 ≤ h / 10 ≤ 9) as H1.
  { split; [apply Z.div_pos; lia | apply Z.lt_succ_r, Z.div_lt_upper_bound; lia]. }
  assert (0 ≤ m / 10 ≤ 9) as H2.
  { split; [apply Z.div_pos; lia | apply Z.lt_succ_r, Z.div_lt_upper_bound; lia]. }
  pose proof (Z.mod_pos_bound h 10 ltac:(lia)) as H3.
  pose proof (Z.mod_pos_bound m 10 ltac:(lia)) as H4.
  assert (is_HHMM ([Z.to_N (48 + h / 10); Z.to_N (48 + h mod 10)] ++ js ":" ++
                   [Z.to_N (48 + m / 10); Z.to_N (48 + m mod 10)]) = true) as HH.
  { cbn [app js is_HHMM]. simpl.
    rewrite !isDigit_to_N by lia. reflexivity. }
  split; [exact HH|].
  unfold time_minutes. rewrite HH. cbn [app js]. simpl. f_equal.
  rewrite !Z2N.id by lia.
  pose proof (Z.div_mod n 60 ltac:(lia)).
  pose proof (Z.div_mod h 10 ltac:(lia)).
  pose proof (Z.div_mod m 10 ltac:(lia)).
  subst h m. lia.
Qed.

Lemma calculateNewMinutes_Qeq (s : Z) (off off' hh : Q) (mh sh snap : Z) :
  (off == off')%Q →
  calculateNewMinutes s off hh mh sh snap = calculateNewMinutes s off' hh mh sh snap.
Proof.
  intros E. unfold calculateNewMinutes, Math_round.
  do 7 f_equal. apply Qfloor_comp. by rewrite E.
Qed.

Lemma round_540_plus_37 (hh : Q) :
  ¬ (hh == 0)%Q →
  Math_round (inject_Z 540 + 37 * hh / 60 / hh * 60) = 577.
Proof.
  intros Hh. unfold Math_round.
  assert (inject_Z 540 + 37 * hh / 60 / hh * 60 + (1 # 2) == 1155 # 2)%Q as ->
    by (field; exact Hh).
  reflexivity.
Qed.

(** C2: an entry at 09:00 (540 minutes) dragged by the pixels of 37
    minutes, with a snap unit of 15: the delta is 37 minutes, the rounded
    minute is 577, the nearest multiple of 15 is 570, the clamp leaves
    it, and the new time is 09:30.  The same holds along the gesture,
    where [handleMouseMove] first snaps the pixel delta. *)
Theorem drag_37_minutes_gives_0930 (hh : Q) (mh sh : Z) :
  (0 < hh)%Q → 570 ≤ boundary sh mh →
  let offsetPx := (37 * hh / 60)%Q in
  (offsetPx / hh * 60 == 37)%Q ∧
  Math_round (inject_Z 540 + offsetPx / hh * 60) = 577 ∧
  Math_round (inject_Z 577 / inject_Z 15) * 15 = 570 ∧
  clamp 0 (boundary sh mh) 570 = 570 ∧
  calculateNewMinutes 540 offsetPx hh mh sh 15 = 570 ∧
  calculateNewTime 540 offsetPx hh mh sh 15 = js "09:30" ∧
  ∀ (area : option (Q * Q)) (report : option DailyReport) (h : HookState)
    (id : jsstring) (ty : ListType) (x y0 : Q),
    let p := mkProps area report sh mh hh 15 in
    let h2 := handleMouseMove p x (y0 + offsetPx)
                (handleDragStart y0 id ty 540 None None h) in
    calculateNewTime 540 (dragOffset h2) (hourHeight p) (totalHours p)
      (startHour p) (snapMinutes p) = js "09:30".
Proof.
  intros Hpos HB offsetPx.
  assert (¬ (hh == 0)%Q) as Hh.
  { intros E. rewrite E in Hpos. by apply Qlt_irrefl in Hpos. }
  assert (calculateNewMinutes 540 offsetPx hh mh sh 15 = 570) as Hn.
  { unfold calculateNewMinutes. unfold offsetPx.
    rewrite (round_540_plus_37 hh Hh).
    assert (Math_round (inject_Z 577 / inject_Z 15) * 15 = 570) as -> by reflexivity.
    unfold boundary in HB. lia. }
  split; [unfold offsetPx; field; exact Hh|].
  split; [exact (round_540_plus_37 hh Hh)|].
  split; [reflexivity|].
  split; [unfold clamp; lia|].
  split; [exact Hn|].
  split; [rewrite calculateNewTime_format, Hn; by vm_compute|].
  intros area report h id ty x y0 p h2.
  rewrite calculateNewTime_format.
  assert (calculateNewMinutes 540 (dragOffset h2) (hourHeight p) (totalHours p)
            (startHour p) (snapMinutes p) = 570) as ->; [|by vm_compute].
  subst h2 p. cbn [handleMouseMove handleDragStart dragState dragOffset startY
                   hourHeight totalHours startHour snapMinutes].
  assert (Math_round ((y0 + offsetPx - y0) / (hh / 4)) = 2) as ->.
  { unfold Math_round, offsetPx.
    assert ((y0 + 37 * hh / 60 - y0) / (hh / 4) + (1 # 2) == 89 # 30)%Q as ->
      by (field; exact Hh).
    reflexivity. }
  rewrite (calculateNewMinutes_Qeq 540 _ (30 * hh / 60)) by (field; exact Hh).
  unfold calculateNewMinutes.
  assert (Math_round (inject_Z 540 + 30 * hh / 60 / hh * 60) = 570) as ->.
  { unfold Math_round.
    assert (inject_Z 540 + 30 * hh / 60 / hh * 60 + (1 # 2) == 1141 # 2)%Q as ->
      by (field; exact Hh).
    reflexivity. }
  assert (Math_round (inject_Z 570 / inject_Z 15) * 15 = 570) as -> by reflexivity.
  unfold boundary in HB. lia.
Qed.

Lemma drag_37_minutes_gives_0930_witness :
  calculateNewTime 540 (37 * 60 / 60) 60 12 8 15 = js "09:30".
Proof.
  assert (0 < 60)%Q as Hpos by reflexivity.
  assert (570 ≤ boundary 8 12) as HB by (by vm_compute).
  destruct (drag_37_minutes_gives_0930 60 12 8 Hpos HB) as (_ & _ & _ & _ & _ & H & _).
  exact H.
Defined.

(** ** Releasing a drag *)

Section ReleaseFacts.

Variable localeCompare : jsstring → jsstring → comparison.

(** A break slot of the plan released over the result area. *)
Lemma handleMouseUp_copy_break (p : Props) (now : N) (rnd : jsstring)
    (h : HookState) (ds : DragState) (report : DailyReport) :
  dragState h = Some ds → currentReport p = Some report →
  type ds = PlanList → isDraggingToResult h = true →
  truthy (isBreak ds) = true →
  let newTime := released_time p h (startMinutes ds)
                   (formatMinutesToTime (startMinutes ds)) in
  let endMinutes := startMinutes ds + breakDuration_or_60 (breakDuration ds) in
  let endTime := released_time p h endMinutes (formatMinutesToTime endMinutes) in
  let breakItem := mkScheduleItem (random_id now rnd) newTime (js "---") break_task in
  handleMouseUp localeCompare p now rnd h
  = (mkHookState None 0 false,
     [UpdateResult (sort_by_time localeCompare (result report ++ [breakItem]));
      MessageSuccess (BreakCopied newTime endTime)]).
Proof.
  intros Hds Hr Hty Hover Hbrk. unfold handleMouseUp, released_time.
  rewrite Hds, Hr, Hty, Hover, Hbrk. reflexivity.
Qed.

(** A plan entry that is not a break released over the result area. *)
Lemma handleMouseUp_copy_item (p : Props) (now : N) (rnd : jsstring)
    (h : HookState) (ds : DragState) (report : DailyReport) (planItem : ScheduleItem) :
  dragState h = Some ds → currentReport p = Some report →
  type ds = PlanList → isDraggingToResult h = true →
  truthy (isBreak ds) = false →
  find (λ item, str_eqb (item_id item) (itemId ds)) (plan report) = Some planItem →
  let newTime := released_time p h (startMinutes ds) (item_time planItem) in
  let newItem := mkScheduleItem (random_id now rnd) newTime
                   (item_project planItem) (item_task planItem) in
  handleMouseUp localeCompare p now rnd h
  = (mkHookState None 0 false,
     [UpdateResult (sort_by_time localeCompare (result report ++ [newItem]));
      MessageSuccess (ItemCopied (item_task planItem))]).
Proof.
  intros Hds Hr Hty Hover Hbrk Hfind. unfold handleMouseUp, released_time.
  rewrite Hds, Hr, Hty, Hover, Hbrk, Hfind. reflexivity.
Qed.

(** A release that is not a copy, after the pointer moved. *)
Lemma handleMouseUp_move (p : Props) (now : N) (rnd : jsstring)
    (h : HookState) (ds : DragState) (report : DailyReport) :
  dragState h = Some ds → currentReport p = Some report →
  type ds = ResultList ∨ isDraggingToResult h = false →
  Qeq_bool (dragOffset h) 0 = false →
  let newTime := calculateNewTime (startMinutes ds) (dragOffset h) (hourHeight p)
                   (totalHours p) (startHour p) (snapMinutes p) in
  let updatedItems :=
    sort_by_time localeCompare
      ((λ item, if str_eqb (item_id item) (itemId ds)
                then with_time item newTime else item)
         <$> get_list (type ds) report) in
  handleMouseUp localeCompare p now rnd h
  = (mkHookState None 0 false,
     [match type ds with
      | PlanList => UpdatePlan updatedItems
      | ResultList => UpdateResult updatedItems
      end;
      MessageSuccess (Moved newTime)]).
Proof.
  intros Hds Hr Hty Hmoved. unfold handleMouseUp.
  rewrite Hds, Hr, Hmoved. simpl negb. cbv iota.
  destruct Hty as [Hty|Hover].
  - rewrite Hty. reflexivity.
  - rewrite Hover. by destruct (type ds).
Qed.

(** A release without a drag, without a report, or in place without any
    movement, changes nothing. *)
Lemma handleMouseUp_no_effect (p : Props) (now : N) (rnd : jsstring) (h : HookState) :
  dragState h = None ∨ currentReport p = None ∨
  ((∃ ds, dragState h = Some ds ∧ type ds = ResultList) ∨ isDraggingToResult h = false)
  ∧ Qeq_bool (dragOffset h) 0 = true →
  snd (handleMouseUp localeCompare p now rnd h) = [].
Proof.
  unfold handleMouseUp.
  intros [H | [H | [H Hz]]].
  - by rewrite H.
  - rewrite H. by destruct (dragState h).
  - destruct (dragState h) as [ds|]; [|done].
    destruct (currentReport p); [|done]. simpl. rewrite Hz. simpl.
    destruct H as [(ds' & E & Hty) | Hover].
    + injection E as <-. by rewrite Hty.
    + rewrite Hover. by destruct (type ds).
Qed.

End ReleaseFacts.

(** C1: a break slot of the plan, from 12:00 to 13:00, released over the
    result area.  The result list receives the entry of the start of the
    break and nothing else: the end of the break, 13:00, is computed and
    shown in the message, and no entry carries it. *)
Theorem release_break_adds_start_only :
  snd (handleMouseUp lex_compare (Examples.props_of Examples.report2)
         Examples.clock Examples.suffix Examples.break_held)
  = [ UpdateResult
        [ mkScheduleItem (js "r1736900000000-k3x9q2a") (js "12:00") (js "---")
            break_task ];
      MessageSuccess (BreakCopied (js "12:00") (js "13:00")) ].
Proof. by vm_compute. Qed.

Section ReleaseClaims.

Variable localeCompare : jsstring → jsstring → comparison.

(** Whatever the break and the list, the release of a break over the
    result area adds one entry. *)
Lemma release_break_adds_one (p : Props) (now : N) (rnd : jsstring)
    (h : HookState) (ds : DragState) (report : DailyReport) :
  dragState h = Some ds → currentReport p = Some report →
  type ds = PlanList → isDraggingToResult h = true →
  truthy (isBreak ds) = true →
  ∃ breakItem r',
    run_effects (snd (handleMouseUp localeCompare p now rnd h)) (Some report) = Some r' ∧
    result r' ≡ₚ result report ++ [breakItem] ∧
    item_project breakItem = js "---" ∧ item_task breakItem = break_task.
Proof.
  intros Hds Hr Hty Hover Hbrk.
  rewrite (handleMouseUp_copy_break localeCompare p now rnd h ds report) by done.
  eexists _, _. split; [reflexivity|]. simpl.
  split; [apply sort_by_time_perm|done].
Qed.

End ReleaseClaims.


(** C3, as stated, fails for a release without vertical movement: the
    plan entry at 19:30 (1170 minutes), held over the result area in the
    window from 8 o'clock of twelve hours, is copied at 19:30, after the
    boundary of 19:00 (1140 minutes). *)
Lemma release_without_movement_is_not_clamped :
  boundary 8 12 = 1140 ∧
  ∃ x toast_shown,
    snd (handleMouseUp lex_compare (Examples.props_of Examples.report2)
           Examples.clock Examples.suffix Examples.item_held)
    = [UpdateResult [x]; MessageSuccess toast_shown] ∧
    time_minutes (item_time x) = Some 1170 ∧
    ¬ (1170 ≤ boundary 8 12).
Proof.
  split; [reflexivity|].
  eexists _, _. split; [by vm_compute|].
  split; [by vm_compute|].
  by vm_compute.
Qed.

Section ClampClaim.

Variable localeCompare : jsstring → jsstring → comparison.

(** C3 (amended): a release after the pointer moved (a snapped offset
    that is not zero), with a height of the hour and a snap unit that are
    not zero and a boundary [(startHour + maxHours) * 60 - 60] that is
    not negative.  The minutes [n] of the new time are between 0 and the
    boundary, and are the boundary when the snapped minutes reach or pass
    it; the time written is the rendering of [n] (which reads back as [n]
    below one hundred hours); every entry of a list that the release
    hands to [updatePlan] or [updateResult] is an entry that was there
    before or carries this time, and a move in place gives this time to
    the dragged entry. *)
Theorem release_time_clamped (p : Props) (now : N) (rnd : jsstring)
    (h : HookState) (ds : DragState) (report : DailyReport) :
  dragState h = Some ds → currentReport p = Some report →
  Qeq_bool (dragOffset h) 0 = false →
  ¬ (hourHeight p == 0)%Q → snapMinutes p ≠ 0 →
  0 ≤ boundary (startHour p) (totalHours p) →
  let B := boundary (startHour p) (totalHours p) in
  let n := calculateNewMinutes (startMinutes ds) (dragOffset h) (hourHeight p)
             (totalHours p) (startHour p) (snapMinutes p) in
  let effects := snd (handleMouseUp localeCompare p now rnd h) in
  0 ≤ n ≤ B ∧
  (B ≤ snappedMinutes (startMinutes ds) (dragOffset h) (hourHeight p) (snapMinutes p)
   → n = B) ∧
  (B < 6000 → time_minutes (formatMinutesToTime n) = Some n) ∧
  (∀ items x, updates_list effects items → x ∈ items →
     x ∈ plan report ∨ x ∈ result report ∨ item_time x = formatMinutesToTime n) ∧
  (type ds = ResultList ∨ isDraggingToResult h = false →
   ∀ y, y ∈ get_list (type ds) report → item_id y = itemId ds →
     ∃ items, updates_list effects items ∧
              with_time y (formatMinutesToTime n) ∈ items).
Proof.
  intros Hds Hr Hmoved Hhh Hsnap HB B n effects.
  pose proof (calculateNewMinutes_bounds (startMinutes ds) (dragOffset h)
                (hourHeight p) (totalHours p) (startHour p) (snapMinutes p) HB) as Hn.
  split; [exact Hn|].
  split; [by apply calculateNewMinutes_pinned|].
  split; [intros HB6; apply formatMinutesToTime_HHMM; subst n B; lia|].
  assert (∀ minutes unmoved,
            released_time p h minutes unmoved
            = calculateNewTime minutes (dragOffset h) (hourHeight p) (totalHours p)
                (startHour p) (snapMinutes p)) as Hrel.
  { intros. unfold released_time. by rewrite Hmoved. }
  split.
  - intros items x Hup Hx. subst effects.
    destruct (type ds) eqn:Hty; [destruct (isDraggingToResult h) eqn:Hover|].
    + destruct (truthy (isBreak ds)) eqn:Hbrk.
      * rewrite (handleMouseUp_copy_break localeCompare p now rnd h ds report)
          in Hup by done.
        cbn [snd] in Hup. rewrite !Hrel in Hup.
        destruct Hup as [Hup|Hup];
          repeat (apply elem_of_cons in Hup as [Hup|Hup]; [try discriminate Hup|]);
          try by apply elem_of_nil in Hup.
        injection Hup as ->.
        rewrite sort_by_time_perm in Hx.
        apply elem_of_app in Hx as [Hx|Hx]; [by right; left|].
        apply list_elem_of_singleton in Hx as ->. right; right. reflexivity.
      * destruct (find (λ item, str_eqb (item_id item) (itemId ds)) (plan report))
          as [planItem|] eqn:Hfind.
        -- rewrite (handleMouseUp_copy_item localeCompare p now rnd h ds report planItem)
             in Hup by done.
           cbn [snd] in Hup. rewrite !Hrel in Hup.
           destruct Hup as [Hup|Hup];
             repeat (apply elem_of_cons in Hup as [Hup|Hup]; [try discriminate Hup|]);
             try by apply elem_of_nil in Hup.
           injection Hup as ->.
           rewrite sort_by_time_perm in Hx.
           apply elem_of_app in Hx as [Hx|Hx]; [by right; left|].
           apply list_elem_of_singleton in Hx as ->. right; right. reflexivity.
        -- unfold handleMouseUp in Hup.
           rewrite Hds, Hr, Hty, Hover, Hbrk, Hfind in Hup. cbn [snd] in Hup.
           destruct Hup as [Hup|Hup]; by apply elem_of_nil in Hup.
    + rewrite (handleMouseUp_move localeCompare p now rnd h ds report) in Hup by auto.
      cbn [snd] in Hup. rewrite Hty in Hup.
      destruct Hup as [Hup|Hup];
        repeat (apply elem_of_cons in Hup as [Hup|Hup]; [try discriminate Hup|]);
        try by apply elem_of_nil in Hup.
      injection Hup as ->.
      rewrite sort_by_time_perm in Hx.
      apply list_elem_of_fmap in Hx as (y & -> & Hy).
      destruct (str_eqb (item_id y) (itemId ds)); [right; right; reflexivity|by left].
    + rewrite (handleMouseUp_move localeCompare p now rnd h ds report) in Hup by auto.
      cbn [snd] in Hup. rewrite Hty in Hup.
      destruct Hup as [Hup|Hup];
        repeat (apply elem_of_cons in Hup as [Hup|Hup]; [try discriminate Hup|]);
        try by apply elem_of_nil in Hup.
      injection Hup as ->.
      rewrite sort_by_time_perm in Hx.
      apply list_elem_of_fmap in Hx as (y & -> & Hy).
      destruct (str_eqb (item_id y) (itemId ds)); [right; right; reflexivity|by right; left].
  - intros Hmv y Hy Hid. subst effects.
    rewrite (handleMouseUp_move localeCompare p now rnd h ds report) by auto.
    cbn [snd].
    assert (with_time y (formatMinutesToTime n)
            ∈ sort_by_time localeCompare
                ((λ item, if str_eqb (item_id item) (itemId ds)
                          then with_time item (formatMinutesToTime n) else item)
                   <$> get_list (type ds) report)) as Hin.
    { rewrite sort_by_time_perm. apply list_elem_of_fmap.
      exists y. split; [|exact Hy].
      unfold str_eqb. by rewrite bool_decide_eq_true_2. }
    eexists. split; [|exact Hin].
    destruct (type ds); [left|right]; apply list_elem_of_here.
Qed.

End ClampClaim.

Lemma release_time_clamped_witness :
  0 ≤ calculateNewMinutes 570 15 60 12 8 15 ≤ boundary 8 12.
Proof.
  assert (¬ (60 == 0)%Q) as Hhh by (intros E; discriminate E).
  assert ((15 : Z) ≠ 0) as Hsnap by (intros E; discriminate E).
  assert (0 ≤ boundary 8 12) as HB by (intros E; discriminate E).
  destruct (release_time_clamped lex_compare (Examples.props_of Examples.report1)
              Examples.clock Examples.suffix Examples.item_moved
              (mkDragState (js "r1") ResultList 300 570 None None)
              Examples.report1 eq_refl eq_refl eq_refl Hhh Hsnap HB) as (H & _).
  exact H.
Defined.

(** ** Time order *)

Section OrderClaim.

Variable localeCompare : jsstring → jsstring → comparison.
Hypothesis localeCompare_times : collates_times localeCompare.

Lemma all_HHMM_app (l1 l2 : list ScheduleItem) :
  all_HHMM l1 → all_HHMM l2 → all_HHMM (l1 ++ l2).
Proof. unfold all_HHMM. intros. by apply Forall_app. Qed.

Lemma get_with_list (ty : ListType) (r : DailyReport) (l : list ScheduleItem) :
  get_list ty (with_list ty r l) = l.
Proof. by destruct ty. Qed.

Lemma calculateNewTime_HHMM (s : Z) (off hh : Q) (mh sh snap : Z) :
  boundary sh mh < 6000 →
  is_HHMM (calculateNewTime s off hh mh sh snap) = true.
Proof.
  intros HB. rewrite calculateNewTime_format.
  apply formatMinutesToTime_HHMM.
  rewrite calculateNewMinutes_spec. unfold clamp. lia.
Qed.

(** C8: every operation that inserts or rewrites a schedule entry gives
    back a list in ascending lexicographic order of the time strings,
    when the times are zero-padded [HH:MM] strings: [addScheduleItem],
    [updateScheduleItem], [applyRoutine], and the release of a drag (the
    move in place and the copy into the result list), for which the
    window ends before one hundred hours. *)
Theorem edits_keep_time_order :
  (∀ now ty item r,
     all_HHMM (get_list ty r) → is_HHMM (new_time item) = true →
     ∃ r', Report.addScheduleItem localeCompare now ty item (Some r) = Some r' ∧
           time_sorted (get_list ty r')) ∧
  (∀ ty id updates r,
     all_HHMM (get_list ty r) →
     (∀ t, upd_time updates = Some t → is_HHMM t = true) →
     ∃ r', Report.updateScheduleItem localeCompare ty id updates (Some r) = Some r' ∧
           time_sorted (get_list ty r')) ∧
  (∀ now routineItems r,
     all_HHMM (plan r) → all_HHMM routineItems →
     ∃ r', Report.applyRoutine localeCompare now routineItems (Some r) = Some r' ∧
           time_sorted (plan r')) ∧
  (∀ p now rnd h report,
     currentReport p = Some report →
     all_HHMM (plan report) → all_HHMM (result report) →
     ¬ (hourHeight p == 0)%Q → snapMinutes p ≠ 0 →
     boundary (startHour p) (totalHours p) < 6000 →
     (∀ ds, dragState h = Some ds →
            0 ≤ startMinutes ds < 6000) →
     ∀ items, updates_list (snd (handleMouseUp localeCompare p now rnd h)) items →
              time_sorted items).
Proof.
  split; [|split; [|split]].
  - intros now ty item r Hl Hi. eexists. split; [reflexivity|].
    rewrite get_with_list. apply sort_by_time_sorted; [done|].
    apply all_HHMM_app; [done|]. by repeat constructor.
  - intros ty id updates r Hl Hu. eexists. split; [reflexivity|].
    rewrite get_with_list. apply sort_by_time_sorted; [done|].
    unfold all_HHMM in *. apply Forall_fmap.
    eapply Forall_impl; [exact Hl|]. intros x Hx. simpl.
    destruct (str_eqb (item_id x) id); [|done].
    unfold Report.apply_updates. simpl.
    destruct (upd_time updates) as [t|] eqn:E; simpl; [by apply Hu|done].
  - intros now routineItems r Hp Hrt. eexists. split; [reflexivity|].
    simpl. apply sort_by_time_sorted; [done|].
    apply all_HHMM_app; [done|].
    unfold all_HHMM in *. apply Forall_lookup. intros i x Hi.
    rewrite list_lookup_imap in Hi.
    destruct (routineItems !! i) as [y|] eqn:E; [|done].
    injection Hi as <-. simpl.
    by eapply (Forall_lookup_1 _ _ _ _ Hrt).
  - intros p now rnd h report Hr Hp Hres Hhh Hsnap HB Hstart items Hup.
    destruct (dragState h) as [ds|] eqn:Hds.
    2:{ unfold handleMouseUp in Hup. rewrite Hds in Hup.
        destruct Hup as [Hup|Hup]; by apply elem_of_nil in Hup. }
    specialize (Hstart ds eq_refl).
    assert (∀ minutes unmoved, is_HHMM unmoved = true →
              is_HHMM (released_time p h minutes unmoved) = true) as Hrel.
    { intros minutes unmoved Hu. unfold released_time.
      destruct (negb _); [by apply calculateNewTime_HHMM|done]. }
    destruct (Qeq_bool (dragOffset h) 0) eqn:Hz;
      destruct (type ds) eqn:Hty; destruct (isDraggingToResult h) eqn:Hover;
      try (rewrite (handleMouseUp_no_effect localeCompare p now rnd h) in Hup
             by (right; right; split; [first [by right | by left; exists ds]|done]);
           destruct Hup as [Hup|Hup]; by apply elem_of_nil in Hup);
      try (rewrite (handleMouseUp_move localeCompare p now rnd h ds report) in Hup
             by auto;
           cbn [snd] in Hup; rewrite Hty in Hup;
           destruct Hup as [Hup|Hup];
           repeat (apply elem_of_cons in Hup as [Hup|Hup]; [try discriminate Hup|]);
           try (by apply elem_of_nil in Hup);
           injection Hup as ->;
           apply sort_by_time_sorted; [done|];
           unfold all_HHMM in *; apply Forall_fmap;
           (eapply Forall_impl; [first [exact Hp | exact Hres]|]);
           intros x Hx; simpl;
           destruct (str_eqb (item_id x) (itemId ds)); [|done];
           by apply calculateNewTime_HHMM).
    + destruct (truthy (isBreak ds)) eqn:Hbrk.
      * rewrite (handleMouseUp_copy_break localeCompare p now rnd h ds report)
          in Hup by done.
        cbn [snd] in Hup.
        destruct Hup as [Hup|Hup];
          repeat (apply elem_of_cons in Hup as [Hup|Hup]; [try discriminate Hup|]);
          try by apply elem_of_nil in Hup.
        injection Hup as ->.
        apply sort_by_time_sorted; [done|].
        apply all_HHMM_app; [done|]. repeat constructor. simpl.
        apply Hrel. by apply formatMinutesToTime_HHMM.
      * destruct (find (λ item, str_eqb (item_id item) (itemId ds)) (plan report))
          as [planItem|] eqn:Hfind.
        -- rewrite (handleMouseUp_copy_item localeCompare p now rnd h ds report planItem)
             in Hup by done.
           cbn [snd] in Hup.
           destruct Hup as [Hup|Hup];
             repeat (apply elem_of_cons in Hup as [Hup|Hup]; [try discriminate Hup|]);
             try by apply elem_of_nil in Hup.
           injection Hup as ->.
           apply sort_by_time_sorted; [done|].
           apply all_HHMM_app; [done|]. repeat constructor. simpl.
           apply Hrel.
           apply find_some in Hfind as [Hin _].
           unfold all_HHMM in Hp. rewrite Forall_forall in Hp.
           by apply Hp, list_elem_of_In.
        -- unfold handleMouseUp in Hup.
           rewrite Hds, Hr, Hty, Hover, Hbrk, Hfind in Hup. cbn [snd] in Hup.
           destruct Hup as [Hup|Hup]; by apply elem_of_nil in Hup.
    + destruct (truthy (isBreak ds)) eqn:Hbrk.
      * rewrite (handleMouseUp_copy_break localeCompare p now rnd h ds report)
          in Hup by done.
        cbn [snd] in Hup.
        destruct Hup as [Hup|Hup];
          repeat (apply elem_of_cons in Hup as [Hup|Hup]; [try discriminate Hup|]);
          try by apply elem_of_nil in Hup.
        injection Hup as ->.
        apply sort_by_time_sorted; [done|].
        apply all_HHMM_app; [done|]. repeat constructor. simpl.
        apply Hrel. by apply formatMinutesToTime_HHMM.
      * destruct (find (λ item, str_eqb (item_id item) (itemId ds)) (plan report))
          as [planItem|] eqn:Hfind.
        -- rewrite (handleMouseUp_copy_item localeCompare p now rnd h ds report planItem)
             in Hup by done.
           cbn [snd] in Hup.
           destruct Hup as [Hup|Hup];
             repeat (apply elem_of_cons in Hup as [Hup|Hup]; [try discriminate Hup|]);
             try by apply elem_of_nil in Hup.
           injection Hup as ->.
           apply sort_by_time_sorted; [done|].
           apply all_HHMM_app; [done|]. repeat constructor. simpl.
           apply Hrel.
           apply find_some in Hfind as [Hin _].
           unfold all_HHMM in Hp. rewrite Forall_forall in Hp.
           by apply Hp, list_elem_of_In.
        -- unfold handleMouseUp in Hup.
           rewrite Hds, Hr, Hty, Hover, Hbrk, Hfind in Hup. cbn [snd] in Hup.
           destruct Hup as [Hup|Hup]; by apply elem_of_nil in Hup.
Qed.

End OrderClaim.

Lemma edits_keep_time_order_witness :
  ∃ r', Report.addScheduleItem lex_compare Examples.clock PlanList
          (mkNewScheduleItem (js "10:30") (js "P1") (js "review"))
          (Some Examples.report1) = Some r' ∧
        time_sorted (get_list PlanList r').
Proof.
  assert (collates_times lex_compare) as Hc by (intros a b _ _; reflexivity).
  destruct (edits_keep_time_order lex_compare Hc) as (Hadd & _).
  apply (Hadd Examples.clock PlanList
           (mkNewScheduleItem (js "10:30") (js "P1") (js "review")) Examples.report1).
  - repeat constructor.
  - reflexivity.
Defined.

(** ** The matcher *)

Section RegexFacts.
Context {R : Type}.
Implicit Types (k : nat → jsstring → captures → option R) (c : captures).

Lemma rmatch_seq r1 r2 i s c k :
  rmatch (Rseq r1 r2) i s c k = rmatch r1 i s c (λ j s' c', rmatch r2 j s' c' k).
Proof. reflexivity. Qed.

Lemma rmatch_eps i s c k : rmatch Reps i s c k = k i s c.
Proof. reflexivity. Qed.

Lemma rmatch_group n r i s c k :
  rmatch (Rgroup n r) i s c k
  = rmatch r i s c (λ j s' c', k j s' (<[n := take (j - i) s]> c')).
Proof. reflexivity. Qed.

Lemma rmatch_char_hit p x i s c k :
  p x = true → rmatch (Rchar p) i (x :: s) c k = k (S i) s c.
Proof. intros H. simpl. by rewrite H. Qed.

Lemma rmatch_char_miss p x i s c k :
  p x = false → rmatch (Rchar p) i (x :: s) c k = None.
Proof. intros H. simpl. by rewrite H. Qed.

Lemma rmatch_char_nil p i c k : rmatch (Rchar p) i [] c k = None.
Proof. reflexivity. Qed.

Lemma rmatch_chr x i s c k : rmatch (chr x) i (x :: s) c k = k (S i) s c.
Proof. apply rmatch_char_hit, N.eqb_refl. Qed.

Lemma rmatch_bol_0 s c k : rmatch Rbol 0 s c k = k 0%nat s c.
Proof. reflexivity. Qed.

Lemma rmatch_bol_S i s c k : rmatch Rbol (S i) s c k = None.
Proof. reflexivity. Qed.

Lemma rmatch_eol_nil i c k : rmatch Reol i [] c k = k i [] c.
Proof. reflexivity. Qed.

Lemma rmatch_eol_cons i x s c k : rmatch Reol i (x :: s) c k = None.
Proof. reflexivity. Qed.

Lemma rmatch_alt r1 r2 i s c k :
  rmatch (Ralt r1 r2) i s c k
  = match rmatch r1 i s c k with Some x => Some x | None => rmatch r2 i s c k end.
Proof. reflexivity. Qed.

Lemma rmatch_star_unfold p i s c k :
  rmatch (Rstar true (Rchar p)) i s c k = star_loop p k (length s) i s c.
Proof. reflexivity. Qed.

Lemma star_loop_backtrack p k c (w rest : jsstring) :
  all_in p w → head_fails p rest →
  ∀ fuel i, (length w ≤ fuel)%nat →
    star_loop p k fuel i (w ++ rest) c = backtrack k c i w rest.
Proof.
  intros Hw Hrest. induction Hw as [|x w Hx Hw IH]; intros fuel i Hfuel.
  - simpl. destruct fuel as [|fuel]; [done|]. simpl.
    destruct rest as [|y rest]; [done|]. simpl in Hrest. by rewrite Hrest.
  - destruct fuel as [|fuel]; [simpl in Hfuel; lia|].
    cbn [star_loop app]. rewrite Hx.
    rewrite decide_True by (simpl; lia).
    fold (@star_loop R p k). rewrite IH by (simpl in Hfuel; lia).
    reflexivity.
Qed.

Lemma rmatch_star_class p i (w rest : jsstring) c k :
  all_in p w → head_fails p rest →
  rmatch (Rstar true (Rchar p)) i (w ++ rest) c k = backtrack k c i w rest.
Proof.
  intros Hw Hrest. rewrite rmatch_star_unfold.
  apply star_loop_backtrack; [done..|]. rewrite length_app. lia.
Qed.

Lemma backtrack_commit k c i (w rest : jsstring) x :
  k (i + length w)%nat rest c = Some x → backtrack k c i w rest = Some x.
Proof.
  revert i. induction w as [|y w IH]; intros i H; simpl in *.
  - by rewrite Nat.add_0_r in H.
  - rewrite (IH (S i)); [done|]. by rewrite <- Nat.add_succ_comm in H.
Qed.

Lemma backtrack_exclusive p k c i (w rest : jsstring) :
  (∀ j x s', p x = true → k j (x :: s') c = None) →
  all_in p w →
  backtrack k c i w rest = k (i + length w)%nat rest c.
Proof.
  intros Hk Hw. revert i. induction Hw as [|y w Hy Hw IH]; intros i; simpl.
  - by rewrite Nat.add_0_r.
  - rewrite IH, <- Nat.add_succ_comm.
    destruct (k _ rest c); [done|]. by apply Hk.
Qed.

Lemma rmatch_star_class_commit p i (w rest : jsstring) c k x :
  all_in p w → head_fails p rest →
  k (i + length w)%nat rest c = Some x →
  rmatch (star (Rchar p)) i (w ++ rest) c k = Some x.
Proof.
  intros. unfold star. rewrite rmatch_star_class by done. by apply backtrack_commit.
Qed.

Lemma rmatch_star_class_exclusive p i (w rest : jsstring) c k :
  all_in p w → head_fails p rest →
  (∀ j x s', p x = true → k j (x :: s') c = None) →
  rmatch (star (Rchar p)) i (w ++ rest) c k = k (i + length w)%nat rest c.
Proof.
  intros. unfold star. rewrite rmatch_star_class by done.
  by eapply backtrack_exclusive.
Qed.

Lemma rmatch_plus_class_commit p i (w rest : jsstring) c k x :
  w ≠ [] → all_in p w → head_fails p rest →
  k (i + length w)%nat rest c = Some x →
  rmatch (plus (Rchar p)) i (w ++ rest) c k = Some x.
Proof.
  intros Hne Hw Hrest Hk. destruct w as [|y w]; [done|].
  inversion Hw as [|? ? Hy Hw']; subst.
  unfold plus. rewrite rmatch_seq. cbn [app]. rewrite rmatch_char_hit by done.
  cbv beta. fold (star (Rchar p)).
  apply (rmatch_star_class_commit p (S i) w rest c k x Hw' Hrest).
  simpl in Hk. by rewrite <- Nat.add_succ_comm in Hk.
Qed.

Lemma rmatch_plus_class_exclusive p i (w rest : jsstring) c k :
  w ≠ [] → all_in p w → head_fails p rest →
  (∀ j x s', p x = true → k j (x :: s') c = None) →
  rmatch (plus (Rchar p)) i (w ++ rest) c k = k (i + length w)%nat rest c.
Proof.
  intros Hne Hw Hrest Hk. destruct w as [|y w]; [done|].
  inversion Hw as [|? ? Hy Hw']; subst.
  unfold plus. rewrite rmatch_seq. cbn [app]. rewrite rmatch_char_hit by done.
  cbv beta. fold (star (Rchar p)).
  rewrite (rmatch_star_class_exclusive p (S i) w rest c k Hw' Hrest Hk).
  simpl. by rewrite <- Nat.add_succ_comm.
Qed.

End RegexFacts.

Lemma search_from_bol r i s : search_from (Rseq Rbol r) (S i) s = None.
Proof.
  revert i. induction s as [|x s IH]; intros i; simpl; [done|]. apply IH.
Qed.

Lemma exec_bol r s : exec (Rseq Rbol r) s = match_at (Rseq Rbol r) 0 s.
Proof.
  unfold exec. destruct s as [|x s]; cbn [search_from].
  - by destruct (match_at _ _ _).
  - rewrite search_from_bol. by destruct (match_at _ _ _).
Qed.

(** ** Character classes *)

Lemma isWhiteSpace_spec x :
  isWhiteSpace x = true ↔
  (9 ≤ x ≤ 13 ∨ x = 32 ∨ x = 160 ∨ x = 5760 ∨ 8192 ≤ x ≤ 8202 ∨ x = 8232 ∨
   x = 8233 ∨ x = 8239 ∨ x = 8287 ∨ x = 12288 ∨ x = 65279)%N.
Proof.
  unfold isWhiteSpace.
  rewrite !orb_true_iff, !andb_true_iff, !N.leb_le, !N.eqb_eq. tauto.
Qed.

Lemma isDigit_spec x : isDigit x = true ↔ (48 ≤ x ≤ 57)%N.
Proof. unfold isDigit. by rewrite andb_true_iff, !N.leb_le. Qed.

Lemma ws_not_digit x : isWhiteSpace x = true → isDigit x = false.
Proof.
  intros H. apply isWhiteSpace_spec in H.
  apply not_true_iff_false. rewrite isDigit_spec. lia.
Qed.

Lemma digit_not_ws x : isDigit x = true → isWhiteSpace x = false.
Proof.
  intros H. apply isDigit_spec in H.
  apply not_true_iff_false. rewrite isWhiteSpace_spec. lia.
Qed.

Lemma take_span {A} (i : nat) (a b : list A) : take (i + length a - i) (a ++ b) = a.
Proof. rewrite Nat.add_comm, Nat.add_sub. by rewrite take_app_length. Qed.

Ltac rx_step :=
  lazymatch goal with
  | |- context [rmatch ?r ?i ?s ?c ?k] =>
      lazymatch r with
      | Rseq _ _ => rewrite (rmatch_seq _ _ i s c k)
      | Reps => rewrite (rmatch_eps i s c k)
      | Rgroup _ _ => rewrite (rmatch_group _ _ i s c k)
      | Rbol => rewrite rmatch_bol_0
      | chr _ => rewrite rmatch_chr
      | Reol => rewrite rmatch_eol_nil
      | Rchar _ => rewrite rmatch_char_hit by assumption
      end
  end; cbv beta.


Ltac solve_take :=
  lazymatch goal with
  | |- take ?n ?l = ?r =>
      replace n with (length r) by (cbn [length]; lia);
      first [exact (take_app_length r _) | apply take_ge; lia]
  end.

Ltac solve_group :=
  unfold group; cbn [m_groups];
  rewrite ?lookup_insert_ne by done; rewrite lookup_insert_eq; unfold default, from_option, id;
  solve_take.

Lemma exec_re_schedule (w1 w2 w3 proj task : jsstring) (d1 d2 d3 d4 : N) :
  w1 ≠ [] → all_in isWhiteSpace w1 →
  isDigit d1 = true → isDigit d2 = true → isDigit d3 = true → isDigit d4 = true →
  w2 ≠ [] → all_in isWhiteSpace w2 →
  proj ≠ [] → all_in (λ x, negb (x =? 93)%N) proj →
  w3 ≠ [] → all_in isWhiteSpace w3 →
  task ≠ [] → all_in (λ x, negb (isLineTerminator x)) task →
  head_fails isWhiteSpace task →
  ∃ m, exec re_schedule
         (42%N :: w1 ++ d1 :: d2 :: 58%N :: d3 :: d4 :: w2 ++ 91%N :: proj ++ 93%N :: w3 ++ task)
       = Some m ∧
       group 1 m = [d1; d2; 58%N; d3; d4] ∧ group 2 m = proj ∧ group 3 m = task.
Proof.
  intros Hw1 Aw1 D1 D2 D3 D4 Hw2 Aw2 Hp Ap Hw3 Aw3 Ht At Htw.
  unfold re_schedule. cbn [seqs]. rewrite exec_bol. unfold match_at.
  change (lit "*") with (Rseq (chr 42) Reps).
  change (lit ":") with (Rseq (chr 58) Reps).
  change (lit "[") with (Rseq (chr 91) Reps).
  change (lit "]") with (Rseq (chr 93) Reps).
  cbn [times]. unfold ws, digit, dot, not_chr.
  repeat rx_step.
  rewrite rmatch_plus_class_exclusive; [|done|done|by simpl; apply digit_not_ws|].
  2:{ intros j x s' Hx. repeat rx_step. apply rmatch_char_miss. by apply ws_not_digit. }
  cbv beta. repeat rx_step.
  rewrite rmatch_plus_class_exclusive; [|done|done|done|].
  2:{ intros j x s' Hx. repeat rx_step. apply rmatch_char_miss.
      apply isWhiteSpace_spec in Hx. apply N.eqb_neq. lia. }
  cbv beta. repeat rx_step.
  rewrite rmatch_plus_class_exclusive; [|done|done|done|].
  2:{ intros j x s' Hx. repeat rx_step. apply rmatch_char_miss.
      by apply negb_true_iff in Hx. }
  cbv beta. repeat rx_step.
  eexists. split.
  { apply rmatch_plus_class_commit; [done|done|done|].
    repeat rx_step.
    rewrite <- (app_nil_r task) at 1.
    rewrite rmatch_plus_class_exclusive; [|done|done|done|done].
    repeat rx_step. reflexivity. }
  split; [solve_group|]. split; solve_group.
Qed.

(** ** The patterns of the schedule lines *)

Lemma rmatch_plus_class_end {R} p i (w : jsstring) c
    (k : nat → jsstring → captures → option R) :
  w ≠ [] → all_in p w →
  (∀ j x s', p x = true → k j (x :: s') c = None) →
  rmatch (plus (Rchar p)) i w c k = k (i + length w)%nat [] c.
Proof.
  intros. rewrite <- (app_nil_r w) at 1.
  by apply rmatch_plus_class_exclusive.
Qed.

Lemma rmatch_star_class_end {R} p i (w : jsstring) c
    (k : nat → jsstring → captures → option R) :
  all_in p w →
  (∀ j x s', p x = true → k j (x :: s') c = None) →
  rmatch (star (Rchar p)) i w c k = k (i + length w)%nat [] c.
Proof.
  intros. rewrite <- (app_nil_r w) at 1.
  by apply rmatch_star_class_exclusive.
Qed.

Lemma toUpper_hash x : (toUpper x =? toUpper 35)%N = true → x = 35%N.
Proof.
  unfold toUpper. change ((97 <=? 35) && (35 <=? 122))%N with false. cbv iota.
  destruct ((97 <=? x) && (x <=? 122))%N eqn:E; rewrite N.eqb_eq; [|done].
  apply andb_prop in E as [E1 E2]. rewrite N.leb_le in *. lia.
Qed.

(** A line that does not start with [#] is no section header. *)
Lemma matches_section_false (name : string) (x : N) (s : jsstring) :
  x ≠ 35%N → matches (re_section name) (x :: s) = false.
Proof.
  intros Hx. unfold matches, re_section. cbn [seqs]. rewrite exec_bol.
  unfold match_at. change (lit_i "##") with (Rseq (chr_i 35) (Rseq (chr_i 35) Reps)).
  repeat rx_step. unfold chr_i. rewrite rmatch_char_miss; [done|].
  apply not_true_iff_false. intros H. by apply toUpper_hash in H.
Qed.

Lemma matches_section_nil (name : string) : matches (re_section name) [] = false.
Proof.
  unfold matches, re_section. cbn [seqs]. rewrite exec_bol.
  unfold match_at. change (lit_i "##") with (Rseq (chr_i 35) (Rseq (chr_i 35) Reps)).
  by repeat rx_step.
Qed.

Lemma exec_re_schedule_bare (w1 w2 : jsstring) (d1 d2 d3 d4 : N) :
  w1 ≠ [] → all_in isWhiteSpace w1 →
  isDigit d1 = true → isDigit d2 = true → isDigit d3 = true → isDigit d4 = true →
  all_in isWhiteSpace w2 →
  exec re_schedule (42%N :: w1 ++ d1 :: d2 :: 58%N :: d3 :: d4 :: w2) = None.
Proof.
  intros Hw1 Aw1 D1 D2 D3 D4 Aw2.
  unfold re_schedule. cbn [seqs]. rewrite exec_bol. unfold match_at.
  change (lit "*") with (Rseq (chr 42) Reps).
  change (lit ":") with (Rseq (chr 58) Reps).
  change (lit "[") with (Rseq (chr 91) Reps).
  change (lit "]") with (Rseq (chr 93) Reps).
  cbn [times]. unfold ws, digit, dot, not_chr.
  repeat rx_step.
  rewrite rmatch_plus_class_exclusive; [|done|done|by simpl; apply digit_not_ws|].
  2:{ intros j x s' Hx. repeat rx_step. apply rmatch_char_miss. by apply ws_not_digit. }
  cbv beta. repeat rx_step.
  destruct w2 as [|y w2]; [unfold plus; by rewrite rmatch_seq, rmatch_char_nil|].
  rewrite rmatch_plus_class_end; [|done|done|].
  2:{ intros j x s' Hx. repeat rx_step. apply rmatch_char_miss.
      apply isWhiteSpace_spec in Hx. apply N.eqb_neq. lia. }
  by repeat rx_step.
Qed.

Lemma exec_re_end_time (w1 w2 : jsstring) (d1 d2 d3 d4 : N) :
  w1 ≠ [] → all_in isWhiteSpace w1 →
  isDigit d1 = true → isDigit d2 = true → isDigit d3 = true → isDigit d4 = true →
  all_in isWhiteSpace w2 →
  ∃ m, exec re_end_time (42%N :: w1 ++ d1 :: d2 :: 58%N :: d3 :: d4 :: w2) = Some m ∧
       group 1 m = [d1; d2; 58%N; d3; d4].
Proof.
  intros Hw1 Aw1 D1 D2 D3 D4 Aw2.
  unfold re_end_time. cbn [seqs]. rewrite exec_bol. unfold match_at.
  change (lit "*") with (Rseq (chr 42) Reps).
  change (lit ":") with (Rseq (chr 58) Reps).
  cbn [times]. unfold ws, digit.
  repeat rx_step.
  rewrite rmatch_plus_class_exclusive; [|done|done|by simpl; apply digit_not_ws|].
  2:{ intros j x s' Hx. repeat rx_step. apply rmatch_char_miss. by apply ws_not_digit. }
  cbv beta. repeat rx_step.
  rewrite rmatch_star_class_end; [|done|done].
  repeat rx_step. eexists. split; [reflexivity|]. solve_group.
Qed.

(** ** One turn of the decoding loop *)

Lemma is_HHMM_digits (t : jsstring) :
  is_HHMM t = true →
  ∃ d1 d2 d3 d4, t = [d1; d2; 58%N; d3; d4] ∧
    isDigit d1 = true ∧ isDigit d2 = true ∧ isDigit d3 = true ∧ isDigit d4 = true.
Proof.
  destruct t as [|d1 [|d2 [|c [|d3 [|d4 [|]]]]]]; try discriminate.
  simpl. rewrite !andb_true_iff, N.eqb_eq. intros ((((H1 & H2) & ->) & H3) & H4).
  by exists d1, d2, d3, d4.
Qed.

Lemma ps_section_set_report (st : ParseState) (r : DailyReport) :
  ps_section (set_report st r) = ps_section st.
Proof. reflexivity. Qed.

Lemma startsWith_star (s : jsstring) : startsWith (js "*") (42%N :: s) = true.
Proof. reflexivity. Qed.

Lemma description_block_returns (line : jsstring) (st : ParseState) :
  ∃ f, description_block line st = Returns f.
Proof.
  unfold description_block.
  destruct (is_todo_section _ && matches re_indent line
            && bool_decide (0 < length (todos (ps_report st)))%nat) eqn:E;
    [|by eexists].
  apply andb_prop in E as [_ E]. apply bool_decide_eq_true in E.
  destruct (lookup_lt_is_Some_2 (todos (ps_report st))
              (length (todos (ps_report st)) - 1)%nat ltac:(lia)) as [t ->].
  by eexists.
Qed.

Lemma parse_line_returns (year : N) (i : nat) (line : jsstring) (st : ParseState) :
  ∃ st', parse_line year i line st = Returns st'.
Proof.
  unfold parse_line.
  repeat (destruct (matches (re_section _) line); [by eexists|]).
  destruct (is_todo_section _ && _); [destruct (exec _ _); by eexists|].
  destruct (schedule_block i line st) as [st1|st1]; [by eexists|].
  destruct (todo_block year i line st1) as [st2|st2]; [by eexists|].
  destruct (description_block_returns line st2) as [f ->]. simpl.
  destruct f; by eexists.
Qed.

Lemma parse_lines_returns (year : N) (lines : list jsstring) :
  ∀ i st, ∃ st', parse_lines year i lines st = Returns st'.
Proof.
  induction lines as [|line lines IH]; intros i st; simpl; [by eexists|].
  destruct (parse_line_returns year i line st) as [st1 ->]. simpl. apply IH.
Qed.

Lemma parseReportFromMarkdown_returns (year : N) (date content : jsstring) :
  ∃ r, parseReportFromMarkdown year date content = Returns r.
Proof.
  unfold parseReportFromMarkdown.
  match goal with |- context [parse_lines year 0 ?l ?st] =>
    destruct (parse_lines_returns year l 0%nat st) as [st' ->] end.
  by eexists.
Qed.

Lemma parse_line_content (year : N) (i : nat) (st : ParseState)
    (w1 t w2 proj w3 task : jsstring) :
  is_schedule_section (ps_section st) = true →
  is_gap w1 → is_HHMM t = true → is_gap w2 → is_project_code proj →
  is_gap w3 → is_task_text task →
  parse_line year i (content_line w1 t w2 proj w3 task) st
  = Returns (set_report st
      (push_schedule (ps_section st)
         (mkScheduleItem (section_initial (ps_section st) ++ String_of_nat i) t proj task)
         (ps_report st))).
Proof.
  intros Hsec [Hw1 Aw1] Ht [Hw2 Aw2] [Hp Ap] [Hw3 Aw3] (Hk & Ak & Hkw).
  destruct (is_HHMM_digits t Ht) as (d1 & d2 & d3 & d4 & -> & D1 & D2 & D3 & D4).
  unfold content_line.
  change (js "*" ++ w1 ++ [d1; d2; 58%N; d3; d4] ++ w2 ++ js "[" ++ proj ++ js "]" ++ w3 ++ task)
    with (42%N :: w1 ++ d1 :: d2 :: 58%N :: d3 :: d4 :: w2 ++ 91%N :: proj ++ 93%N :: w3 ++ task).
  destruct (exec_re_schedule w1 w2 w3 proj task d1 d2 d3 d4) as (m & Hm & G1 & G2 & G3);
    try done.
  unfold parse_line. rewrite !matches_section_false by done.
  assert (is_todo_section (ps_section st) = false) as ->
    by (by destruct (ps_section st)).
  cbn [andb]. unfold schedule_block. rewrite Hsec, Hm.
  rewrite startsWith_star. cbn [andb]. cbv iota. by rewrite G1, G2, G3.
Qed.

Lemma parse_line_bare (year : N) (i : nat) (st : ParseState) (w1 t w2 : jsstring) :
  is_schedule_section (ps_section st) = true →
  is_gap w1 → is_HHMM t = true → all_in isWhiteSpace w2 →
  parse_line year i (bare_line w1 t w2) st
  = Returns (set_report st
      (push_schedule (ps_section st)
         (mkScheduleItem (js "break" ++ section_initial (ps_section st) ++ String_of_nat i)
            t [] [])
         (ps_report st))).
Proof.
  intros Hsec [Hw1 Aw1] Ht Aw2.
  destruct (is_HHMM_digits t Ht) as (d1 & d2 & d3 & d4 & -> & D1 & D2 & D3 & D4).
  unfold bare_line.
  change (js "*" ++ w1 ++ [d1; d2; 58%N; d3; d4] ++ w2)
    with (42%N :: w1 ++ d1 :: d2 :: 58%N :: d3 :: d4 :: w2).
  destruct (exec_re_end_time w1 w2 d1 d2 d3 d4) as (m & Hm & G1); try done.
  unfold parse_line. rewrite !matches_section_false by done.
  assert (is_todo_section (ps_section st) = false) as Htodo
    by (by destruct (ps_section st)).
  assert (is_note_section (ps_section st) = false) as Hnote
    by (by destruct (ps_section st)).
  rewrite Htodo. cbn [andb]. unfold schedule_block.
  rewrite Hsec, exec_re_schedule_bare, Hm by done.
  rewrite startsWith_star. cbn [andb]. cbv iota.
  unfold todo_block, description_block, note_block.
  repeat (progress (rewrite ?ps_section_set_report, ?Htodo, ?Hnote; cbn [andb bind])).
  by rewrite G1.
Qed.


(** ** The whole decoding *)

Lemma schedule_grows_refl (st : ParseState) : schedule_grows st st.
Proof. by split. Qed.

Lemma schedule_grows_trans (st1 st2 st3 : ParseState) :
  schedule_grows st1 st2 → schedule_grows st2 st3 → schedule_grows st1 st3.
Proof. intros [? ?] [? ?]. split; by etrans. Qed.

Lemma push_schedule_grows (st : ParseState) (item : ScheduleItem) :
  schedule_grows st (set_report st (push_schedule (ps_section st) item (ps_report st))).
Proof.
  unfold schedule_grows, push_schedule.
  destruct (ps_section st); simpl; split; try done; by apply prefix_app_r.
Qed.

Lemma schedule_block_grows (i : nat) (line : jsstring) (st : ParseState) :
  match schedule_block i line st with
  | Continue st' | Next st' => schedule_grows st st'
  end.
Proof.
  unfold schedule_block.
  destruct (_ && _); [|apply schedule_grows_refl].
  destruct (exec re_schedule line); [apply push_schedule_grows|].
  destruct (exec re_end_time line); [apply push_schedule_grows|apply schedule_grows_refl].
Qed.

Lemma todo_block_grows (year : N) (i : nat) (line : jsstring) (st : ParseState) :
  match todo_block year i line st with
  | Continue st' | Next st' => schedule_grows st st'
  end.
Proof.
  unfold todo_block.
  destruct (_ && _); [|apply schedule_grows_refl].
  destruct (exec re_todo line); [|apply schedule_grows_refl]. by split.
Qed.

Lemma description_block_grows (line : jsstring) (st : ParseState) :
  match description_block line st with
  | Returns (Continue st') | Returns (Next st') => schedule_grows st st'
  | Throws => True
  end.
Proof.
  unfold description_block.
  destruct (_ && _); [|apply schedule_grows_refl].
  destruct (_ !! _); [|done]. by split.
Qed.

Lemma note_block_grows (line : jsstring) (st : ParseState) :
  schedule_grows st (note_block line st).
Proof. unfold note_block. destruct (_ && _); by split. Qed.

Lemma parse_line_grows (year : N) (i : nat) (line : jsstring) (st st' : ParseState) :
  parse_line year i line st = Returns st' → schedule_grows st st'.
Proof.
  unfold parse_line.
  repeat (destruct (matches (re_section _) line); [by intros [= <-]|]).
  destruct (is_todo_section _ && _).
  { destruct (exec _ _); by intros [= <-]. }
  pose proof (schedule_block_grows i line st) as H1.
  destruct (schedule_block i line st) as [st1|st1]; [by intros [= <-]|].
  pose proof (todo_block_grows year i line st1) as H2.
  destruct (todo_block year i line st1) as [st2|st2].
  { intros [= <-]. by eapply schedule_grows_trans. }
  pose proof (description_block_grows line st2) as H3.
  destruct (description_block line st2) as [[st3|st3]|]; simpl; [| |done].
  - intros [= <-]. eapply schedule_grows_trans; [|exact H3].
    by eapply schedule_grows_trans.
  - intros [= <-]. eapply schedule_grows_trans; [|apply note_block_grows].
    eapply schedule_grows_trans; [|exact H3]. by eapply schedule_grows_trans.
Qed.

Lemma parse_lines_grows (year : N) (lines : list jsstring) :
  ∀ i st st', parse_lines year i lines st = Returns st' → schedule_grows st st'.
Proof.
  induction lines as [|line lines IH]; intros i st st'; simpl.
  - intros [= <-]. apply schedule_grows_refl.
  - destruct (parse_line year i line st) as [st1|] eqn:E; simpl; [|done].
    intros H. eapply schedule_grows_trans; [by eapply parse_line_grows|by eapply IH].
Qed.

Lemma parse_lines_app (year : N) (l1 l2 : list jsstring) :
  ∀ i st, parse_lines year i (l1 ++ l2) st
          = bind (parse_lines year i l1 st) (parse_lines year (i + length l1) l2).
Proof.
  induction l1 as [|line l1 IH]; intros i st; simpl.
  - by rewrite Nat.add_0_r.
  - destruct (parse_line year i line st) as [st1|]; simpl; [|done].
    by rewrite IH, Nat.add_succ_comm.
Qed.


(** ** The description lines of a todo *)

Lemma span_class (p : N → bool) (s : jsstring) :
  ∃ w rest, s = w ++ rest ∧ all_in p w ∧ head_fails p rest.
Proof.
  induction s as [|x s (w & rest & -> & Hw & Hr)].
  - exists [], []. split; [done|]. split; [constructor|exact I].
  - destruct (p x) eqn:E.
    + exists (x :: w), rest. split; [done|]. split; [by constructor|done].
    + exists [], (x :: w ++ rest). split; [done|]. split; [constructor|exact E].
Qed.

Lemma dropWhile_span (p : N → bool) (w rest : jsstring) :
  all_in p w → head_fails p rest → dropWhile p (w ++ rest) = rest.
Proof.
  intros Hw Hr. induction Hw as [|x w Hx Hw IH].
  - destruct rest as [|y rest]; [done|]. simpl in Hr.
    cbn [app dropWhile]. by rewrite Hr.
  - cbn [app dropWhile]. by rewrite Hx.
Qed.

Lemma matches_re_indent (x1 x2 : N) (s : jsstring) :
  isWhiteSpace x1 = true → isWhiteSpace x2 = true →
  matches re_indent (x1 :: x2 :: s) = true.
Proof.
  intros H1 H2. unfold matches, re_indent, at_least. cbn [seqs times].
  rewrite exec_bol. unfold match_at, ws.
  repeat rx_step.
  destruct (span_class isWhiteSpace s) as (w & rest & -> & Hw & Hr).
  erewrite rmatch_star_class_commit; [|done|done|reflexivity].
  by apply bool_decide_eq_true_2.
Qed.

Lemma matches_re_indent_nil : matches re_indent [] = false.
Proof. by vm_compute. Qed.

Lemma matches_re_indent_false1 (x : N) (s : jsstring) :
  isWhiteSpace x = false → matches re_indent (x :: s) = false.
Proof.
  intros H. unfold matches, re_indent, at_least. cbn [seqs times].
  rewrite exec_bol. unfold match_at, ws.
  repeat rx_step. rewrite rmatch_char_miss by done. done.
Qed.

Lemma matches_re_indent_false2 (x : N) (s : jsstring) :
  head_fails isWhiteSpace s → matches re_indent (x :: s) = false.
Proof.
  intros H. unfold matches, re_indent, at_least. cbn [seqs times].
  rewrite exec_bol. unfold match_at, ws.
  repeat rx_step.
  destruct (isWhiteSpace x) eqn:E; [|rewrite rmatch_char_miss by done; done].
  repeat rx_step.
  destruct s as [|y s]; [done|]. simpl in H. rewrite rmatch_char_miss by done. done.
Qed.

Lemma matches_project_header_false (x : N) (s : jsstring) :
  x ≠ 35%N → matches re_project_header (x :: s) = false.
Proof.
  intros Hx. unfold matches, re_project_header. cbn [seqs]. rewrite exec_bol.
  unfold match_at. change (lit "###") with (Rseq (chr 35) (Rseq (chr 35) (Rseq (chr 35) Reps))).
  repeat rx_step. unfold chr.
  rewrite rmatch_char_miss by (by apply N.eqb_neq). done.
Qed.


Lemma startsWith_dash (x : N) (s : jsstring) :
  x ≠ 45%N → startsWith (js "-") (x :: s) = false.
Proof.
  intros H. change (js "-") with [45%N]. cbn [startsWith].
  apply andb_false_iff. left. apply N.eqb_neq. congruence.
Qed.




(** ** The text of a todo line *)

Lemma complete_year_short (year : N) (d : jsstring) :
  length d = 5%nat →
  complete_year year (Some d) = Some (String_of_Z (Z.of_N year) ++ js "-" ++ d).
Proof.
  intros H. unfold complete_year.
  rewrite (bool_decide_eq_true_2 (d ≠ [])) by (by destruct d).
  by rewrite (bool_decide_eq_true_2 (length d = 5%nat)).
Qed.

Lemma complete_year_long (year : N) (d : jsstring) :
  length d ≠ 5%nat → complete_year year (Some d) = Some d.
Proof.
  intros H. unfold complete_year.
  rewrite (bool_decide_eq_false_2 (length d = 5%nat)) by done.
  by rewrite andb_false_r.
Qed.

(** The sample line [- [ ] [P34] !! review @12-25]. *)
Lemma exec_re_todo_sample :
  match exec re_todo (js "- [ ] [P34] !! review @12-25") with
  | Some m => group 1 m = js " " ∧ group 2 m = js "[P34] !! review @12-25"
  | None => False
  end.
Proof. by vm_compute. Qed.

Lemma decode_todo_sample (year : N) (i : nat) (cur : jsstring) (m : match_result) :
  group 1 m = js " " → group 2 m = js "[P34] !! review @12-25" →
  decode_todo year i cur m
  = mkTodoItem (js "t" ++ String_of_nat i) pending (js "P34") (js "review") None
      (Some (String_of_Z (Z.of_N year) ++ js "-12-25")) (Some medium).
Proof.
  intros G1 G2. unfold decode_todo. rewrite G1, G2.
  assert (extract_project cur (js "[P34] !! review @12-25")
          = (js "P34", js "!! review @12-25")) as -> by (by vm_compute).
  assert (extract_priority (js "!! review @12-25")
          = (Some medium, js "review @12-25")) as -> by (by vm_compute).
  assert (extract_deadline (js "review @12-25")
          = (Some (js "12-25"), js "review")) as -> by (by vm_compute).
  rewrite complete_year_short by reflexivity.
  assert (trim (js "review") = js "review") as -> by (by vm_compute).
  assert (parseStatusMark (js " ") = pending) as -> by (by vm_compute).
  reflexivity.
Qed.

Lemma parse_line_sample (year : N) (i : nat) (st : ParseState) :
  ps_section st = SecTodo →
  parse_line year i (js "- [ ] [P34] !! review @12-25") st
  = Returns (set_report st (with_todos (ps_report st)
      (todos (ps_report st) ++
       [mkTodoItem (js "t" ++ String_of_nat i) pending (js "P34") (js "review") None
          (Some (String_of_Z (Z.of_N year) ++ js "-12-25")) (Some medium)]))).
Proof.
  intros Hsec.
  pose proof exec_re_todo_sample as Hm.
  destruct (exec re_todo (js "- [ ] [P34] !! review @12-25")) as [m|] eqn:E; [|done].
  destruct Hm as [G1 G2].
  unfold parse_line.
  change (js "- [ ] [P34] !! review @12-25")
    with (45%N :: js " [ ] [P34] !! review @12-25") in *.
  rewrite !matches_section_false by done.
  rewrite matches_project_header_false by done. rewrite andb_false_r.
  unfold schedule_block. rewrite Hsec. cbn [is_schedule_section andb].
  unfold todo_block. rewrite Hsec, E.
  assert (startsWith (js "-") (45%N :: js " [ ] [P34] !! review @12-25") = true) as ->
    by reflexivity.
  cbn [is_todo_section andb].
  by rewrite (decode_todo_sample year i _ m G1 G2).
Qed.

(** The result of a match that starts at the front and covers [whole]. *)
Lemma drop_whole (whole rest : jsstring) (n : nat) :
  (n = length whole)%nat →
  drop (length (take (n - 0) (whole ++ rest))) (whole ++ rest) = rest.
Proof.
  intros ->. rewrite Nat.sub_0_r, take_app_length. by rewrite drop_app_length.
Qed.

Lemma extract_project_some (cur p rest : jsstring) :
  is_project_code p →
  extract_project cur (js "[" ++ p ++ js "]" ++ rest) = (p, dropWhile isWhiteSpace rest).
Proof.
  intros [Hp Ap]. unfold extract_project.
  destruct (span_class isWhiteSpace rest) as (w & r & -> & Hw & Hr).
  rewrite (dropWhile_span isWhiteSpace w r Hw Hr).
  change (js "[" ++ p ++ js "]" ++ w ++ r) with (91%N :: p ++ 93%N :: w ++ r).
  assert (∃ m, exec re_todo_project (91%N :: p ++ 93%N :: w ++ r) = Some m ∧
               group 1 m = p ∧
               drop (length (m_whole m)) (91%N :: p ++ 93%N :: w ++ r) = r)
    as (m & -> & -> & ->); [|done].
  unfold re_todo_project. cbn [seqs]. rewrite exec_bol. unfold match_at.
  change (lit "[") with (Rseq (chr 91) Reps).
  change (lit "]") with (Rseq (chr 93) Reps).
  unfold ws, not_chr.
  repeat rx_step.
  rewrite rmatch_plus_class_exclusive; [|done|done|done|].
  2:{ intros j x s' Hx. repeat rx_step. unfold chr. apply rmatch_char_miss.
      by apply negb_true_iff in Hx. }
  repeat rx_step.
  erewrite rmatch_star_class_commit; [|done|done|reflexivity].
  eexists. split; [reflexivity|]. split; [solve_group|].
  cbn [m_whole].
  replace (91%N :: p ++ 93%N :: w ++ r) with ((91%N :: p ++ 93%N :: w) ++ r)
    by (cbn [app]; by rewrite <- app_assoc).
  apply drop_whole. cbn [length]. rewrite !length_app. cbn [length]. lia.
Qed.

Lemma extract_project_none (cur text : jsstring) :
  head_fails (λ x, x =? 91)%N text →
  extract_project cur text = (cur, text).
Proof.
  intros H. unfold extract_project.
  assert (exec re_todo_project text = None) as ->; [|done].
  unfold re_todo_project. cbn [seqs]. rewrite exec_bol. unfold match_at.
  change (lit "[") with (Rseq (chr 91) Reps).
  repeat rx_step. destruct text as [|x s]; [done|].
  simpl in H. unfold chr. by rewrite rmatch_char_miss.
Qed.

Lemma rmatch_lit_hit {R} (l s : jsstring) i c (k : nat → jsstring → captures → option R) :
  rmatch (foldr (λ x r, Rseq (chr x) r) Reps l) i (l ++ s) c k = k (i + length l)%nat s c.
Proof.
  revert i. induction l as [|x l IH]; intros i; cbn [foldr app length].
  - by rewrite rmatch_eps, Nat.add_0_r.
  - rewrite rmatch_seq, rmatch_chr. cbv beta. by rewrite IH, Nat.add_succ_comm.
Qed.

Lemma rmatch_lit_miss {R} (l s : jsstring) i c (k : nat → jsstring → captures → option R) :
  startsWith l s = false →
  rmatch (foldr (λ x r, Rseq (chr x) r) Reps l) i s c k = None.
Proof.
  revert i s. induction l as [|x l IH]; intros i s H; cbn [foldr]; [done|].
  rewrite rmatch_seq. destruct s as [|y s]; [done|].
  cbn [startsWith] in H. unfold chr at 1.
  destruct (x =? y)%N eqn:E.
  - apply N.eqb_eq in E as ->. rewrite rmatch_char_hit by apply N.eqb_refl.
    cbv beta. by apply IH.
  - apply rmatch_char_miss. by rewrite N.eqb_sym.
Qed.

Lemma startsWith_bang_false (l rest : jsstring) :
  head_fails (λ x, x =? 33)%N rest → startsWith (33%N :: l) rest = false.
Proof.
  intros H. destruct rest as [|y rest]; [done|]. simpl in H.
  cbn [startsWith]. by rewrite N.eqb_sym, H.
Qed.

(** The priority mark at the front of [text], with the text after it. *)
Lemma exec_re_priority_hit (mark rest : jsstring) :
  mark = js "!!!" ∨
  (mark = js "!!" ∨ mark = js "!") ∧ head_fails (λ x, x =? 33)%N rest →
  ∃ m, exec re_priority (mark ++ rest) = Some m ∧
       group 1 m = mark ∧
       drop (length (m_whole m)) (mark ++ rest) = dropWhile isWhiteSpace rest.
Proof.
  intros Hmark.
  assert (mark = js "!!!" ∨
          mark = js "!!" ∧ startsWith (js "!!!") (mark ++ rest) = false ∨
          mark = js "!" ∧ startsWith (js "!!!") (mark ++ rest) = false ∧
                          startsWith (js "!!") (mark ++ rest) = false) as Hcases.
  { destruct Hmark as [-> | [[-> | ->] Hrest]]; [by left|right; left|right; right].
    - split; [done|]. change (js "!!!") with [33%N; 33%N; 33%N].
      change (js "!!" ++ rest) with (33%N :: 33%N :: rest).
      cbn [startsWith]. rewrite !N.eqb_refl. cbn [andb].
      exact (startsWith_bang_false [] rest Hrest).
    - split; [done|]. change (js "!!!") with [33%N; 33%N; 33%N].
      change (js "!!") with [33%N; 33%N].
      change (js "!" ++ rest) with (33%N :: rest).
      cbn [startsWith]. rewrite !N.eqb_refl. cbn [andb].
      split; [exact (startsWith_bang_false [33%N] rest Hrest)|].
      exact (startsWith_bang_false [] rest Hrest). }
  clear Hmark.
  destruct (span_class isWhiteSpace rest) as (w & r & -> & Hw & Hr).
  rewrite (dropWhile_span isWhiteSpace w r Hw Hr).
  unfold re_priority. cbn [seqs]. rewrite exec_bol. unfold match_at, ws, lit.
  rewrite rmatch_seq, rmatch_bol_0. cbv beta.
  rewrite rmatch_seq, rmatch_group, !rmatch_alt.
  assert (∀ l : jsstring,
    rmatch (star (Rchar isWhiteSpace)) (0 + length l) (w ++ r)
      (<[1%nat:=take (0 + length l - 0) (l ++ w ++ r)]> ∅)
      (λ j _ c, Some (MatchResult 0 (take (j - 0) (l ++ w ++ r)) c))
    = Some (MatchResult 0 (take (0 + length l + length w - 0) (l ++ w ++ r))
              (<[1%nat:=take (0 + length l - 0) (l ++ w ++ r)]> ∅))) as Hstar.
  { intros l. by erewrite rmatch_star_class_commit. }
  assert (∀ l : jsstring,
    group 1 (MatchResult 0 (take (0 + length l + length w - 0) (l ++ w ++ r))
               (<[1%nat:=take (0 + length l - 0) (l ++ w ++ r)]> ∅)) = l ∧
    drop (length (m_whole
            (MatchResult 0 (take (0 + length l + length w - 0) (l ++ w ++ r))
               (<[1%nat:=take (0 + length l - 0) (l ++ w ++ r)]> ∅))))
         (l ++ w ++ r) = r) as Hres.
  { intros l. split; [solve_group|]. cbn [m_whole].
    rewrite (app_assoc l w r). apply drop_whole. rewrite length_app. lia. }
  destruct Hcases as [-> | [[-> H3] | (-> & H3 & H2)]].
  - rewrite rmatch_lit_hit. cbv beta. rewrite Hstar.
    eexists. split; [reflexivity|]. apply Hres.
  - rewrite (rmatch_lit_miss (js "!!!")) by done.
    rewrite rmatch_lit_hit. cbv beta. rewrite Hstar.
    eexists. split; [reflexivity|]. apply Hres.
  - rewrite (rmatch_lit_miss (js "!!!")) by done.
    rewrite (rmatch_lit_miss (js "!!")) by done.
    rewrite rmatch_lit_hit. cbv beta. rewrite Hstar.
    eexists. split; [reflexivity|]. apply Hres.
Qed.

Lemma extract_priority_some (mark rest : jsstring) :
  mark = js "!!!" ∨
  (mark = js "!!" ∨ mark = js "!") ∧ head_fails (λ x, x =? 33)%N rest →
  extract_priority (mark ++ rest)
  = (Some (priority_of_mark mark), dropWhile isWhiteSpace rest).
Proof.
  intros H. unfold extract_priority.
  by destruct (exec_re_priority_hit mark rest H) as (m & -> & -> & ->).
Qed.

Lemma extract_priority_none (text : jsstring) :
  head_fails (λ x, x =? 33)%N text → extract_priority text = (None, text).
Proof.
  intros H. unfold extract_priority.
  assert (exec re_priority text = None) as ->; [|done].
  unfold re_priority. cbn [seqs]. rewrite exec_bol. unfold match_at, ws, lit.
  rewrite rmatch_seq, rmatch_bol_0. cbv beta.
  rewrite rmatch_seq, rmatch_group, !rmatch_alt.
  rewrite (rmatch_lit_miss (js "!!!")) by (by apply startsWith_bang_false).
  rewrite (rmatch_lit_miss (js "!!")) by (by apply startsWith_bang_false).
  by rewrite (rmatch_lit_miss (js "!")) by (by apply startsWith_bang_false).
Qed.

(** ** The deadline of a todo *)


Lemma rmatch_char_seq {R} (ps : list (N → bool)) i s c
    (k : nat → jsstring → captures → option R) :
  rmatch (char_seq ps) i s c k
  = if fits ps s then k (i + length ps)%nat (drop (length ps) s) c else None.
Proof.
  revert i s. induction ps as [|p ps IH]; intros i s; cbn [char_seq foldr fits length].
  - by rewrite rmatch_eps, Nat.add_0_r.
  - rewrite rmatch_seq. destruct s as [|x s]; [done|].
    destruct (p x) eqn:E.
    + rewrite rmatch_char_hit by done. cbv beta. fold (char_seq ps).
      rewrite IH. cbn [andb drop]. by rewrite Nat.add_succ_comm.
    + by rewrite rmatch_char_miss.
Qed.

Lemma rmatch_re_date {R} i s c (k : nat → jsstring → captures → option R) :
  rmatch re_date i s c k
  = rmatch (Rgroup 1 (Ralt (char_seq date10_classes) (char_seq date5_classes))) i s c k.
Proof. reflexivity. Qed.

Lemma is_date10_inv (d : jsstring) :
  is_date10 d = true →
  ∃ a1 a2 a3 a4 a5 a6 a7 a8, d = [a1; a2; a3; a4; 45%N; a5; a6; 45%N; a7; a8] ∧
    isDigit a1 = true ∧ isDigit a2 = true ∧ isDigit a3 = true ∧ isDigit a4 = true ∧
    isDigit a5 = true ∧ isDigit a6 = true ∧ isDigit a7 = true ∧ isDigit a8 = true.
Proof.
  unfold is_date10. intros H. apply andb_prop in H as [Hl Hf].
  apply bool_decide_eq_true in Hl.
  do 11 (destruct d as [|? d]; try discriminate Hl).
  cbn [fits date10_classes] in Hf. unfold isDash in Hf.
  rewrite !andb_true_iff, !N.eqb_eq in Hf.
  destruct Hf as (? & ? & ? & ? & -> & ? & ? & -> & ? & ? & _).
  by eexists _, _, _, _, _, _, _, _.
Qed.

Lemma is_date5_inv (d : jsstring) :
  is_date5 d = true →
  ∃ a1 a2 a3 a4, d = [a1; a2; 45%N; a3; a4] ∧
    isDigit a1 = true ∧ isDigit a2 = true ∧ isDigit a3 = true ∧ isDigit a4 = true.
Proof.
  unfold is_date5. intros H. apply andb_prop in H as [Hl Hf].
  apply bool_decide_eq_true in Hl.
  do 6 (destruct d as [|? d]; try discriminate Hl).
  cbn [fits date5_classes] in Hf. unfold isDash in Hf.
  rewrite !andb_true_iff, !N.eqb_eq in Hf.
  destruct Hf as (? & ? & -> & ? & ? & _).
  by eexists _, _, _, _.
Qed.

Lemma is_date_length (d : jsstring) :
  is_date d = true → length d = 10%nat ∨ length d = 5%nat.
Proof.
  unfold is_date, is_date10, is_date5. intros H.
  apply orb_prop in H as [H|H]; apply andb_prop in H as [H _];
    apply bool_decide_eq_true in H; auto.
Qed.

Lemma dash_not_digit : isDigit 45 = false.
Proof. reflexivity. Qed.

(** Every code unit of a date token is a digit or a dash. *)
Lemma is_date_chars (d : jsstring) (x : N) :
  is_date d = true → x ∈ d → isDigit x = true ∨ x = 45%N.
Proof.
  intros H Hx. apply orb_prop in H as [H|H].
  - apply is_date10_inv in H
      as (a1 & a2 & a3 & a4 & a5 & a6 & a7 & a8 & -> & ? & ? & ? & ? & ? & ? & ? & ?).
    repeat (apply elem_of_cons in Hx as [-> | Hx]; [auto|]). by apply elem_of_nil in Hx.
  - apply is_date5_inv in H as (a1 & a2 & a3 & a4 & -> & ? & ? & ? & ?).
    repeat (apply elem_of_cons in Hx as [-> | Hx]; [auto|]). by apply elem_of_nil in Hx.
Qed.

(** The date pattern on a text that starts with a date token. *)
Lemma rmatch_re_date_hit {R} (d s : jsstring) i c
    (k : nat → jsstring → captures → option R) :
  is_date d = true →
  rmatch re_date i (d ++ s) c k = k (i + length d)%nat s (<[1%nat := d]> c).
Proof.
  intros H. rewrite rmatch_re_date, rmatch_group, rmatch_alt, !rmatch_char_seq.
  apply orb_prop in H as [H|H].
  - apply is_date10_inv in H
      as (a1 & a2 & a3 & a4 & a5 & a6 & a7 & a8 & -> & H1 & H2 & H3 & H4 & H5 & H6 & H7 & H8).
    cbn [app fits date10_classes date5_classes length drop].
    rewrite H1, H2, H3, H4, H5, H6, H7, H8. unfold isDash. cbn [andb N.eqb Pos.eqb].
    replace (i + 10 - i)%nat with 10%nat by lia. cbn [take drop].
    rewrite dash_not_digit. cbn [andb]. rewrite andb_false_r.
    rewrite take_0, drop_0. by destruct (k (i + 10)%nat s _).
  - apply is_date5_inv in H as (a1 & a2 & a3 & a4 & -> & H1 & H2 & H3 & H4).
    cbn [app fits date10_classes date5_classes length drop].
    rewrite H1, H2, H3, H4, dash_not_digit. unfold isDash. cbn [andb N.eqb Pos.eqb].
    replace (i + 5 - i)%nat with 5%nat by lia. cbn [take drop].
    by rewrite take_0, drop_0.
Qed.

Lemma fits_length (ps : list (N → bool)) (s : jsstring) :
  fits ps s = true → (length ps ≤ length s)%nat.
Proof.
  revert s. induction ps as [|p ps IH]; intros [|z s]; simpl; try done; try lia.
  intros H. apply andb_prop in H as [_ H]. apply IH in H. lia.
Qed.

(** The date pattern followed by the end of the text. *)
Lemma rmatch_re_date_end_sound {R} (s : jsstring) i c
    (k : nat → jsstring → captures → option R) x :
  rmatch re_date i s c (λ j s' c', rmatch Reol j s' c' k) = Some x → is_date s = true.
Proof.
  rewrite rmatch_re_date, rmatch_group, rmatch_alt, !rmatch_char_seq.
  unfold is_date, is_date10, is_date5.
  assert (∀ ps, fits ps s = true → drop (length ps) s = [] → length s = length ps) as Hlen.
  { intros ps F D. apply fits_length in F.
    apply (f_equal length) in D. rewrite length_drop in D. simpl in D. lia. }
  destruct (fits date10_classes s) eqn:F10.
  - destruct (drop (length date10_classes) s) as [|y t] eqn:D.
    + intros _. apply orb_true_iff. left. rewrite andb_true_r.
      apply bool_decide_eq_true. by apply (Hlen date10_classes).
    + rewrite rmatch_eol_cons.
      destruct (fits date5_classes s) eqn:F5; [|done].
      destruct (drop (length date5_classes) s) as [|y' t'] eqn:D5; [|done].
      intros _. apply orb_true_iff. right. rewrite andb_true_r.
      apply bool_decide_eq_true. by apply (Hlen date5_classes).
  - destruct (fits date5_classes s) eqn:F5; [|done].
    destruct (drop (length date5_classes) s) as [|y' t'] eqn:D5; [|done].
    intros _. apply orb_true_iff. right. rewrite andb_true_r.
    apply bool_decide_eq_true. by apply (Hlen date5_classes).
Qed.

Lemma at_not_ws : isWhiteSpace 64 = false.
Proof. reflexivity. Qed.

(** What the pattern of the deadline at the end matches, at a given
    position: white space, [@], a date token, and nothing more. *)
Lemma match_at_deadline_end_sound (i : nat) (s : jsstring) (m : match_result) :
  match_at re_deadline_end i s = Some m →
  ∃ w tail, s = w ++ 64%N :: tail ∧ all_in isWhiteSpace w ∧ is_date tail = true.
Proof.
  destruct (span_class isWhiteSpace s) as (w & r & -> & Hw & Hr).
  unfold match_at, re_deadline_end. cbn [seqs].
  change (lit "@") with (Rseq (chr 64) Reps). unfold ws.
  rewrite rmatch_seq. rewrite rmatch_star_class_exclusive; [|done|done|].
  2:{ intros j x s' Hx. repeat rx_step. unfold chr. apply rmatch_char_miss.
      apply isWhiteSpace_spec in Hx. apply N.eqb_neq. lia. }
  rewrite !rmatch_seq. destruct r as [|y tail]; [done|].
  unfold chr. destruct (y =? 64)%N eqn:E.
  - apply N.eqb_eq in E as ->. rewrite rmatch_char_hit by done. cbv beta.
    rewrite rmatch_eps. intros H. apply rmatch_re_date_end_sound in H.
    by exists w, tail.
  - by rewrite rmatch_char_miss.
Qed.

Lemma match_at_deadline_end_hit (i : nat) (w d : jsstring) :
  all_in isWhiteSpace w → is_date d = true →
  ∃ m, match_at re_deadline_end i (w ++ 64%N :: d) = Some m ∧
       m_whole m = w ++ 64%N :: d ∧ group 1 m = d.
Proof.
  intros Hw Hd.
  assert (match_at re_deadline_end i (w ++ 64%N :: d)
          = Some (MatchResult i
                    (take (S (i + length w) + length d - i) (w ++ 64%N :: d))
                    (<[1%nat := d]> ∅))) as ->.
  { unfold match_at, re_deadline_end. cbn [seqs].
    change (lit "@") with (Rseq (chr 64) Reps). unfold ws.
    rewrite rmatch_seq. rewrite rmatch_star_class_exclusive; [|done|exact at_not_ws|].
    2:{ intros j x s' Hx. repeat rx_step. unfold chr. apply rmatch_char_miss.
        apply isWhiteSpace_spec in Hx. apply N.eqb_neq. lia. }
    repeat rx_step.
    rewrite <- (app_nil_r d) at 1. rewrite rmatch_re_date_hit by done.
    by rewrite rmatch_eol_nil. }
  eexists. split; [reflexivity|]. cbn [m_whole m_groups].
  split.
  - replace (S (i + length w) + length d - i)%nat with (length (w ++ 64%N :: d))
      by (rewrite length_app; simpl; lia).
    by rewrite take_ge.
  - unfold group. cbn [m_groups]. by rewrite lookup_insert_eq.
Qed.

(** The search passes the positions where the pattern does not match. *)
Lemma search_from_skip (r : regex) (pre suf : jsstring) :
  ∀ i,
    (∀ pre1 pre2, pre = pre1 ++ pre2 → pre2 ≠ [] →
                  match_at r (i + length pre1) (pre2 ++ suf) = None) →
    search_from r i (pre ++ suf) = search_from r (i + length pre) suf.
Proof.
  induction pre as [|x pre IH]; intros i H.
  - by rewrite Nat.add_0_r.
  - cbn [app search_from].
    pose proof (H [] (x :: pre) eq_refl ltac:(done)) as H0.
    rewrite Nat.add_0_r in H0. cbn [app] in H0. rewrite H0.
    rewrite IH; [by rewrite Nat.add_succ_comm|].
    intros pre1 pre2 -> Hne.
    specialize (H (x :: pre1) pre2 eq_refl Hne).
    by rewrite Nat.add_succ_comm.
Qed.

Lemma search_from_hit (r : regex) (i : nat) (s : jsstring) (m : match_result) :
  match_at r i s = Some m → search_from r i s = Some m.
Proof. intros H. destruct s; simpl; by rewrite H. Qed.

(** A text that ends with a deadline: the part [b0] before it does not
    end with white space, [w] is the white space before the [@]. *)
Lemma exec_re_deadline_end_hit (b0 w d : jsstring) :
  head_fails isWhiteSpace (reverse b0) → all_in isWhiteSpace w → is_date d = true →
  ∃ m, exec re_deadline_end (b0 ++ w ++ 64%N :: d) = Some m ∧
       m_whole m = w ++ 64%N :: d ∧ group 1 m = d.
Proof.
  intros Hb Hw Hd. unfold exec.
  rewrite search_from_skip.
  { destruct (match_at_deadline_end_hit (0 + length b0) w d Hw Hd) as (m & Hm & ?).
    exists m. split; [by apply search_from_hit|done]. }
  intros pre1 pre2 -> Hne.
  destruct (match_at re_deadline_end (0 + length pre1) (pre2 ++ w ++ 64%N :: d))
    as [m|] eqn:E; [exfalso|done].
  apply match_at_deadline_end_sound in E as (w' & tail & Heq & Hw' & Htail).
  (* the position of the last [@] *)
  set (pos := (length pre2 + length w)%nat).
  assert ((pre2 ++ w ++ 64%N :: d) !! pos = Some 64%N) as Hpos.
  { rewrite app_assoc. subst pos. rewrite <- length_app.
    by rewrite list_lookup_middle. }
  rewrite Heq in Hpos.
  destruct (Nat.lt_trichotomy pos (length w')) as [Hlt | [Heq' | Hgt]].
  - (* the [@] would be white space *)
    rewrite lookup_app_l in Hpos by done.
    apply list_elem_of_lookup_2 in Hpos.
    unfold all_in in Hw'. rewrite Forall_forall in Hw'.
    apply Hw' in Hpos. by rewrite at_not_ws in Hpos.
  - (* the white space would reach into [b0] *)
    assert (w' = pre2 ++ w) as ->.
    { rewrite app_assoc in Heq.
      apply app_inj_1 in Heq as [Heq _]; [done|].
      rewrite length_app. by subst pos. }
    apply Forall_app in Hw' as [Hp2 _].
    rewrite reverse_app in Hb.
    destruct (reverse pre2) as [|y t] eqn:Er.
    { apply (f_equal reverse) in Er. rewrite reverse_involutive in Er. done. }
    simpl in Hb.
    assert (y ∈ pre2) as Hy.
    { apply elem_of_reverse. rewrite Er. apply list_elem_of_here. }
    unfold all_in in Hp2. rewrite Forall_forall in Hp2.
    apply Hp2 in Hy. by rewrite Hb in Hy.
  - (* the date would contain the [@] *)
    rewrite lookup_app_r in Hpos by lia.
    destruct (pos - length w')%nat as [|n] eqn:En; [lia|].
    cbn [lookup list_lookup] in Hpos.
    apply list_elem_of_lookup_2 in Hpos.
    destruct (is_date_chars tail 64%N Htail Hpos) as [H|H]; done.
Qed.

Lemma search_from_none (r : regex) (s : jsstring) :
  ∀ i,
    (∀ pre1 pre2, s = pre1 ++ pre2 → match_at r (i + length pre1) pre2 = None) →
    search_from r i s = None.
Proof.
  induction s as [|x s IH]; intros i H.
  - pose proof (H [] [] eq_refl) as H0. rewrite Nat.add_0_r in H0.
    simpl. by rewrite H0.
  - pose proof (H [] (x :: s) eq_refl) as H0. rewrite Nat.add_0_r in H0.
    cbn [search_from]. rewrite H0. apply IH.
    intros pre1 pre2 ->. specialize (H (x :: pre1) pre2 eq_refl).
    by rewrite Nat.add_succ_comm.
Qed.

Lemma exec_re_deadline_end_none (text : jsstring) :
  no_deadline_at_end text → exec re_deadline_end text = None.
Proof.
  intros H. unfold exec. apply search_from_none. intros pre1 pre2 ->.
  destruct (match_at re_deadline_end (0 + length pre1) pre2) as [m|] eqn:E; [|done].
  apply match_at_deadline_end_sound in E as (w & tail & -> & _ & Htail).
  exfalso. apply (H (pre1 ++ w) tail Htail). by rewrite <- app_assoc.
Qed.

Lemma extract_deadline_at_end (b0 w d : jsstring) :
  head_fails isWhiteSpace (reverse b0) → all_in isWhiteSpace w → is_date d = true →
  extract_deadline (b0 ++ w ++ js "@" ++ d) = (Some d, b0).
Proof.
  intros Hb Hw Hd. unfold extract_deadline.
  change (js "@" ++ d) with (64%N :: d).
  destruct (exec_re_deadline_end_hit b0 w d Hb Hw Hd) as (m & -> & Hwhole & ->).
  rewrite Hwhole. f_equal.
  rewrite (length_app b0), Nat.add_sub. by rewrite take_app_length.
Qed.

Lemma extract_deadline_at_start (d rest : jsstring) :
  is_date d = true → no_deadline_at_end (js "@" ++ d ++ rest) →
  extract_deadline (js "@" ++ d ++ rest) = (Some d, dropWhile isWhiteSpace rest).
Proof.
  intros Hd Hend. unfold extract_deadline.
  rewrite exec_re_deadline_end_none by done.
  change (js "@" ++ d ++ rest) with (64%N :: d ++ rest).
  destruct (span_class isWhiteSpace rest) as (w & r & -> & Hw & Hr).
  rewrite (dropWhile_span isWhiteSpace w r Hw Hr).
  assert (exec re_deadline_start (64%N :: d ++ w ++ r)
          = Some (MatchResult 0
                    (take (1 + length d + length w - 0) (64%N :: d ++ w ++ r))
                    (<[1%nat := d]> ∅))) as ->.
  { unfold re_deadline_start. cbn [seqs]. rewrite exec_bol. unfold match_at.
    change (lit "@") with (Rseq (chr 64) Reps). unfold ws.
    repeat rx_step. rewrite rmatch_re_date_hit by done.
    by erewrite rmatch_star_class_commit. }
  unfold group. cbn [m_groups m_whole]. rewrite lookup_insert_eq. cbn [default].
  f_equal.
  replace (64%N :: d ++ w ++ r) with ((64%N :: d ++ w) ++ r)
    by (cbn [app]; by rewrite <- app_assoc).
  apply drop_whole. cbn [length]. rewrite length_app. lia.
Qed.

Lemma extract_deadline_none (text : jsstring) :
  head_fails (λ x, x =? 64)%N text → no_deadline_at_end text →
  extract_deadline text = (None, text).
Proof.
  intros Hh Hend. unfold extract_deadline.
  rewrite exec_re_deadline_end_none by done.
  assert (exec re_deadline_start text = None) as ->; [|done].
  unfold re_deadline_start. cbn [seqs]. rewrite exec_bol. unfold match_at.
  change (lit "@") with (Rseq (chr 64) Reps).
  repeat rx_step. destruct text as [|x s]; [done|].
  simpl in Hh. unfold chr. by rewrite rmatch_char_miss.
Qed.

(** C6: the text of a todo line is decoded in four steps, in this order:
    the project token at the front, the priority marker at the front
    (the longest one first), the deadline (at the end of the text, or
    else at its front), and the rest, trimmed, is the task; a deadline
    [MM-DD] is completed with the current year.  The line
    [- [ ] [P34] !! review @12-25] gives the status pending, the project
    P34, the priority medium, the task review and the deadline
    [<year>-12-25]. *)
Theorem todo_text_decoding_order :
  (∀ year i st,
     ps_section st = SecTodo →
     parse_line year i (js "- [ ] [P34] !! review @12-25") st
     = Returns (set_report st (with_todos (ps_report st)
         (todos (ps_report st) ++
          [mkTodoItem (js "t" ++ String_of_nat i) pending (js "P34") (js "review") None
             (Some (String_of_Z (Z.of_N year) ++ js "-12-25")) (Some medium)])))) ∧
  (∀ year i cur m,
     decode_todo year i cur m
     = let '(todoProject, t1) := extract_project cur (group 2 m) in
       let '(priority, t2) := extract_priority t1 in
       let '(deadline, t3) := extract_deadline t2 in
       mkTodoItem (js "t" ++ String_of_nat i) (parseStatusMark (group 1 m))
         todoProject (trim t3) None (complete_year year deadline) priority) ∧
  (∀ cur p rest,
     is_project_code p →
     extract_project cur (js "[" ++ p ++ js "]" ++ rest)
     = (p, dropWhile isWhiteSpace rest)) ∧
  (∀ cur text,
     head_fails (λ x, x =? 91)%N text → extract_project cur text = (cur, text)) ∧
  (∀ rest,
     extract_priority (js "!!!" ++ rest) = (Some high, dropWhile isWhiteSpace rest)) ∧
  (∀ rest,
     head_fails (λ x, x =? 33)%N rest →
     extract_priority (js "!!" ++ rest) = (Some medium, dropWhile isWhiteSpace rest) ∧
     extract_priority (js "!" ++ rest) = (Some low, dropWhile isWhiteSpace rest)) ∧
  (∀ text,
     head_fails (λ x, x =? 33)%N text → extract_priority text = (None, text)) ∧
  (∀ b0 w d,
     head_fails isWhiteSpace (reverse b0) → all_in isWhiteSpace w → is_date d = true →
     extract_deadline (b0 ++ w ++ js "@" ++ d) = (Some d, b0)) ∧
  (∀ d rest,
     is_date d = true → no_deadline_at_end (js "@" ++ d ++ rest) →
     extract_deadline (js "@" ++ d ++ rest) = (Some d, dropWhile isWhiteSpace rest)) ∧
  (∀ text,
     head_fails (λ x, x =? 64)%N text → no_deadline_at_end text →
     extract_deadline text = (None, text)) ∧
  (∀ year d,
     is_date5 d = true →
     complete_year year (Some d) = Some (String_of_Z (Z.of_N year) ++ js "-" ++ d)) ∧
  (∀ year d, is_date10 d = true → complete_year year (Some d) = Some d).
Proof.
  split; [exact parse_line_sample|].
  split; [reflexivity|].
  split; [exact extract_project_some|].
  split; [exact extract_project_none|].
  split.
  { intros rest. by rewrite extract_priority_some by (by left). }
  split.
  { intros rest Hrest. split.
    - by rewrite extract_priority_some by (right; split; [by left|done]).
    - by rewrite extract_priority_some by (right; split; [by right|done]). }
  split; [exact extract_priority_none|].
  split; [exact extract_deadline_at_end|].
  split; [exact extract_deadline_at_start|].
  split; [exact extract_deadline_none|].
  split.
  - intros year d H. apply complete_year_short.
    apply andb_prop in H as [H _]. by apply bool_decide_eq_true in H.
  - intros year d H. apply complete_year_long.
    apply andb_prop in H as [H _]. apply bool_decide_eq_true in H. lia.
Qed.

Lemma todo_text_decoding_order_witness :
  extract_deadline (js "@01-02 mail" ++ js " " ++ js "@" ++ js "12-25")
  = (Some (js "12-25"), js "@01-02 mail") ∧
  extract_priority (js "!!" ++ js " review") = (Some medium, dropWhile isWhiteSpace (js " review")).
Proof.
  destruct todo_text_decoding_order
    as (_ & _ & _ & _ & _ & Hprio & _ & Hend & _).
  split.
  - apply (Hend (js "@01-02 mail") (js " ") (js "12-25")).
    + reflexivity.
    + repeat constructor.
    + reflexivity.
  - apply (Hprio (js " review")). reflexivity.
Defined.

(** * Further properties of the editor *)

(** ** Decimal numerals *)

Lemma js_String (c : Ascii.ascii) (s : string) :
  js (String c s) = Ascii.N_of_ascii c :: js s.
Proof. reflexivity. Qed.

Lemma pretty_N_go_digits (x : N) (s : string) :
  all_in isDigit (js s) → all_in isDigit (js (pretty_N_go x s)).
Proof.
  revert s. induction (N.lt_wf_0 x) as [x _ IH]; intros s Hs.
  assert (x = 0 ∨ 0 < x)%N as [->|Hx] by lia.
  - by rewrite pretty_N_go_0.
  - rewrite pretty_N_go_step by done. apply IH; [by apply N.div_lt|].
    rewrite js_String. constructor; [|done].
    unfold pretty_N_char. by repeat case_match.
Qed.

Lemma pretty_N_digits (x : N) : all_in isDigit (js (pretty x)).
Proof.
  unfold pretty, pretty_N. case_decide.
  - by repeat constructor.
  - apply pretty_N_go_digits. constructor.
Qed.

Lemma String_of_N_digits (n : N) : all_in isDigit (String_of_Z (Z.of_N n)).
Proof.
  unfold String_of_Z. destruct n as [|p]; simpl.
  - by repeat constructor.
  - apply (pretty_N_digits (N.pos p)).
Qed.

(** A numeral, a dash and a rest: the numeral ends at the first dash. *)
Lemma numeral_dash_inv (a b x y : jsstring) :
  all_in isDigit a → all_in isDigit b →
  a ++ 45%N :: x = b ++ 45%N :: y → a = b ∧ x = y.
Proof.
  intros Ha. revert b. induction Ha as [|c a Hc Ha IH]; intros b Hb E.
  - destruct Hb as [|d b Hd Hb]; simpl in E.
    + by injection E.
    + injection E as <- _. done.
  - destruct Hb as [|d b Hd Hb]; simpl in E.
    + injection E as -> _. done.
    + injection E as -> E. destruct (IH b Hb E) as [-> ->]. done.
Qed.

Lemma carryover_id_inj (n m : N) (i j : nat) :
  carryover_id n i = carryover_id m j → i = j.
Proof.
  unfold carryover_id. intros E. apply app_inv_head in E.
  change (js "-") with [45%N] in E. cbn [app] in E.
  apply numeral_dash_inv in E as [_ E]; [|apply String_of_N_digits..].
  by apply String_of_nat_inj.
Qed.

Lemma with_todos_same (r : DailyReport) : with_todos r (todos r) = r.
Proof. by destruct r. Qed.

(** X1: when the server has no report for the day and the report of the
    day before can be fetched and decoded, [loadReport] starts the day with an
    empty report whose todos are the todos of the day before that are not
    completed, in their order and unchanged but for their ids; no carried-over
    todo is completed and their ids are pairwise distinct. *)
Theorem carried_over_todos_are_open_and_fresh (year : N) (clock : nat → N)
    (date previousDate previousContent : jsstring) (prev : option DailyReport) :
  ∃ old r,
    parseReportFromMarkdown year previousDate previousContent = Returns old ∧
    loadReport year clock date previousDate
      (Fulfilled None) (Fulfilled (Some previousContent)) prev = Some r ∧
    Types.date r = date ∧ author r = [] ∧ plan r = [] ∧ result r = [] ∧
    notes r = [] ∧
    Forall (λ t, todo_status t ≠ completed) (todos r) ∧
    NoDup (todo_id <$> todos r) ∧
    Forall2 same_but_id
      (filter (λ t, todo_status t ≠ completed) (todos old)) (todos r).
Proof.
  destruct (parseReportFromMarkdown_returns year previousDate previousContent)
    as [old Hold].
  exists old. eexists. split; [done|].
  unfold loadReport. rewrite Hold. split; [reflexivity|].
  cbn [Types.date author plan result notes todos with_todos Report.createEmptyReport].
  repeat (split; [reflexivity|]).
  unfold carry_over. cbv zeta.
  set (l := filter _ (todos old)).
  assert (Forall (λ t, todo_status t ≠ completed) l) as Hl.
  { apply Forall_forall. intros t Ht. by apply list_elem_of_filter in Ht as [Ht _]. }
  split; [|split].
  - apply Forall_lookup. intros i t Hi. rewrite list_lookup_imap in Hi.
    destruct (l !! i) as [t0|] eqn:E; [|done]. injection Hi as <-. simpl.
    by eapply (Forall_lookup_1 _ _ _ _ Hl).
  - apply NoDup_alt. intros i j x Hi Hj.
    rewrite list_lookup_fmap, list_lookup_imap in Hi, Hj.
    destruct (l !! i); destruct (l !! j); cbn -[carryover_id] in Hi, Hj; try done.
    assert (carryover_id (clock i) i = carryover_id (clock j) j) as E by congruence.
    by apply carryover_id_inj in E.
  - apply Forall2_same_length_lookup. split; [by rewrite length_imap|].
    intros i t t' Hi Hi'. rewrite list_lookup_imap, Hi in Hi'.
    injection Hi' as <-. by repeat split.
Qed.

Lemma filter_all {A} (P : A → Prop) `{!∀ x, Decision (P x)} (l : list A) :
  Forall P l → filter P l = l.
Proof.
  induction 1 as [|x l Hx Hl IH]; [done|].
  by rewrite filter_cons_True, IH.
Qed.

(** X2: [deleteTodo] removes exactly the todos with the given id (all of
    them), keeps the others in their order and leaves the plan, the result and
    the notes alone; deleting a second time changes nothing, and deleting the
    todo that [addTodo] has just added, when its id was not in use, gives the
    report back. *)
Theorem deleteTodo_removes_every_todo_of_that_id (id : jsstring) (r : DailyReport) :
  ∃ r', deleteTodo id (Some r) = Some r' ∧
    (∀ t, t ∈ todos r' ↔ t ∈ todos r ∧ todo_id t ≠ id) ∧
    todos r' `sublist_of` todos r ∧
    plan r' = plan r ∧ result r' = result r ∧ notes r' = notes r ∧
    deleteTodo id (Some r') = Some r' ∧
    (∀ now todo,
       Forall (λ t, todo_id t ≠ js "t" ++ String_of_Z (Z.of_N now)) (todos r) →
       deleteTodo (js "t" ++ String_of_Z (Z.of_N now)) (addTodo now todo (Some r))
       = Some r).
Proof.
  eexists. split; [reflexivity|]. cbn [todos plan result notes with_todos].
  split. { intros t. rewrite list_elem_of_filter. tauto. }
  split; [apply sublist_filter|].
  repeat (split; [reflexivity|]).
  split.
  - unfold deleteTodo, Report.setReport. f_equal. unfold with_todos. simpl.
    f_equal. apply filter_all. apply Forall_forall. intros t Ht.
    by apply list_elem_of_filter in Ht as [Ht _].
  - intros now todo Hfresh. unfold deleteTodo, addTodo, Report.setReport.
    f_equal. cbn [todos with_todos]. rewrite filter_app, (filter_all _ _ Hfresh).
    rewrite filter_cons_False, filter_nil, app_nil_r by (simpl; tauto).
    by destruct r.
Qed.

Lemma deleteTodo_removes_every_todo_of_that_id_witness :
  deleteTodo (js "t" ++ String_of_Z (Z.of_N Examples.clock))
    (addTodo Examples.clock
       (mkNewTodoItem pending (js "P1") (js "call") None None None)
       (Some Examples.report1))
  = Some Examples.report1.
Proof.
  destruct (deleteTodo_removes_every_todo_of_that_id [] Examples.report1)
    as (r' & _ & _ & _ & _ & _ & _ & _ & H).
  apply H. repeat constructor; by vm_compute.
Defined.

(** X3: [deleteScheduleItem] removes exactly the entries with the given id
    from the named list, keeps the others in their order (so a list in time
    order stays in time order) and leaves the other list, the todos and the
    notes alone. *)
Theorem deleteScheduleItem_keeps_time_order (ty : ListType) (id : jsstring)
    (r : DailyReport) :
  ∃ r', Report.deleteScheduleItem ty id (Some r) = Some r' ∧
    (∀ x, x ∈ get_list ty r' ↔ x ∈ get_list ty r ∧ item_id x ≠ id) ∧
    get_list ty r' `sublist_of` get_list ty r ∧
    (time_sorted (get_list ty r) → time_sorted (get_list ty r')) ∧
    (∀ ty', ty' ≠ ty → get_list ty' r' = get_list ty' r) ∧
    todos r' = todos r ∧ notes r' = notes r.
Proof.
  eexists. split; [reflexivity|].
  assert (∀ l, get_list ty (with_list ty r l) = l) as Hget by (by destruct ty).
  rewrite Hget.
  split. { intros x. rewrite list_elem_of_filter. tauto. }
  split; [apply sublist_filter|].
  split.
  { unfold time_sorted. generalize (get_list ty r). intros l Hs.
    induction Hs as [|x l Hs IH Hx]; [constructor|].
    rewrite filter_cons. case_decide; [|done].
    constructor; [done|].
    apply Forall_forall. intros y Hy. apply list_elem_of_filter in Hy as [_ Hy].
    rewrite Forall_forall in Hx. by apply Hx. }
  split; [|by destruct ty].
  intros ty' Hne. by destruct ty, ty'.
Qed.

Lemma deleteScheduleItem_keeps_time_order_witness :
  ∃ r', Report.deleteScheduleItem PlanList (js "breakp2") (Some Examples.report1)
        = Some r' ∧ time_sorted (get_list PlanList r').
Proof.
  destruct (deleteScheduleItem_keeps_time_order PlanList (js "breakp2")
              Examples.report1) as (r' & H & _ & _ & Hs & _).
  exists r'. split; [exact H|]. apply Hs.
  repeat constructor; by vm_compute.
Defined.

(** Edits lose no entry. *)
Section Entries.
Variable localeCompare : jsstring → jsstring → comparison.

(** X4: the schedule edits lose no entry: after [addScheduleItem] the list
    holds the old entries and the new one; after [updateScheduleItem] it holds
    the old entries with the updates applied to those of the given id, as many
    as before; after [applyRoutine] the plan holds the old entries and one new
    entry per routine item, with pairwise distinct ids.  Each is up to order,
    and nothing else of the report changes. *)
Theorem schedule_edits_keep_every_entry :
  (∀ now ty item r,
     ∃ r', Report.addScheduleItem localeCompare now ty item (Some r) = Some r' ∧
       get_list ty r' ≡ₚ
         mkScheduleItem (type_initial ty ++ String_of_Z (Z.of_N now))
           (new_time item) (new_project item) (new_task item) :: get_list ty r ∧
       (∀ ty', ty' ≠ ty → get_list ty' r' = get_list ty' r) ∧
       todos r' = todos r ∧ notes r' = notes r) ∧
  (∀ ty id updates r,
     ∃ r', Report.updateScheduleItem localeCompare ty id updates (Some r) = Some r' ∧
       get_list ty r' ≡ₚ
         ((λ item, if str_eqb (item_id item) id
                   then Report.apply_updates item updates else item)
            <$> get_list ty r) ∧
       length (get_list ty r') = length (get_list ty r) ∧
       (∀ ty', ty' ≠ ty → get_list ty' r' = get_list ty' r) ∧
       todos r' = todos r ∧ notes r' = notes r) ∧
  (∀ now routineItems r,
     ∃ r' newItems, Report.applyRoutine localeCompare now routineItems (Some r) = Some r' ∧
       plan r' ≡ₚ plan r ++ newItems ∧
       Forall2 same_content routineItems newItems ∧
       NoDup (item_id <$> newItems) ∧
       result r' = result r ∧ todos r' = todos r ∧ notes r' = notes r).
Proof.
  assert (∀ ty r l, get_list ty (with_list ty r l) = l) as Hget
    by (by intros [] ? ?).
  assert (∀ ty ty' r l, ty' ≠ ty → get_list ty' (with_list ty r l) = get_list ty' r)
    as Hother by (by intros [] [] ? ? ?).
  split; [|split].
  - intros now ty item r. eexists. split; [reflexivity|].
    rewrite Hget, sort_by_time_perm.
    split; [by rewrite Permutation_app_comm|].
    split; [intros; by apply Hother|]. by destruct ty.
  - intros ty id updates r. eexists. split; [reflexivity|].
    rewrite Hget. split; [apply sort_by_time_perm|].
    split; [by rewrite sort_by_time_length, length_fmap|].
    split; [intros; by apply Hother|]. by destruct ty.
  - intros now routineItems r. eexists. eexists. split; [reflexivity|].
    cbn [plan result todos notes with_plan].
    split; [apply sort_by_time_perm|].
    split.
    { apply Forall2_same_length_lookup. split; [by rewrite length_imap|].
      intros i x y Hx Hy. rewrite list_lookup_imap, Hx in Hy.
      injection Hy as <-. by repeat split. }
    split; [|done].
    apply NoDup_alt. intros i j x Hi Hj.
    rewrite list_lookup_fmap, list_lookup_imap in Hi, Hj.
    destruct (routineItems !! i); destruct (routineItems !! j);
      cbn -[Report.indexed_id] in Hi, Hj; try done.
    assert (Report.indexed_id "p" now i = Report.indexed_id "p" now j) as E
      by congruence.
    by apply indexed_id_inj in E.
Qed.

(** A list in time order is left as it is by the sort. *)
Lemma sort_by_time_in_order (l : list ScheduleItem) :
  collates_times localeCompare → all_HHMM l → time_sorted l →
  sort_by_time localeCompare l = l.
Proof.
  intros Hc Hl Hs. induction Hs as [|x l Hs IH Hx]; [done|].
  inversion Hl as [|? ? Hxt Hl']; subst. simpl. rewrite IH by done.
  destruct l as [|y l]; [done|]. simpl.
  inversion Hl' as [|? ? Hyt _]; subst.
  rewrite (Hc _ _ Hxt Hyt).
  inversion Hx as [|? ? Hxy _]; subst. unfold time_le in Hxy.
  by destruct (lex_compare (item_time x) (item_time y)).
Qed.

End Entries.

Lemma schedule_edits_keep_every_entry_witness :
  ∃ r', Report.addScheduleItem lex_compare 1736900000000 PlanList
          (mkNewScheduleItem (js "10:00") (js "P1") (js "review")) (Some Examples.report1)
        = Some r' ∧
        get_list ResultList r' = get_list ResultList Examples.report1.
Proof.
  destruct (schedule_edits_keep_every_entry lex_compare) as (H & _ & _).
  destruct (H 1736900000000%N PlanList
              (mkNewScheduleItem (js "10:00") (js "P1") (js "review")) Examples.report1)
    as (r' & E & _ & Ho & _).
  exists r'. split; [exact E|]. apply Ho. discriminate.
Defined.

(** ** Times as strings and as minutes *)

(** X6: for minutes of the day below a hundred hours, the texts of
    [formatMinutesToTime] compare as strings exactly as the minutes compare as
    numbers: sorting the entries by their time strings sorts them by time. *)
Theorem time_strings_order_as_minutes (a b : Z) :
  0 ≤ a < 6000 → 0 ≤ b < 6000 →
  lex_compare (formatMinutesToTime a) (formatMinutesToTime b) = (a ?= b).
Proof.
  intros Ha Hb. unfold formatMinutesToTime.
  rewrite !Z.rem_mod_nonneg by lia.
  assert (∀ n, 0 ≤ n < 6000 → 0 ≤ n / 60 < 100) as Hh.
  { intros n Hn. split; [apply Z.div_pos; lia | apply Z.div_lt_upper_bound; lia]. }
  pose proof (Z.mod_pos_bound a 60 ltac:(lia)) as Hma.
  pose proof (Z.mod_pos_bound b 60 ltac:(lia)) as Hmb.
  pose proof (Hh a Ha) as Hha. pose proof (Hh b Hb) as Hhb.
  rewrite !padStart0_two_digits by lia.
  pose proof (Z.div_mod a 60 ltac:(lia)) as Ea.
  pose proof (Z.div_mod b 60 ltac:(lia)) as Eb.
  set (ha := a / 60) in *. set (ma := a mod 60) in *.
  set (hb := b / 60) in *. set (mb := b mod 60) in *.
  assert (∀ n, 0 ≤ n < 100 → 0 ≤ n / 10 ≤ 9 ∧ 0 ≤ n mod 10 ≤ 9 ∧ n = 10 * (n / 10) + n mod 10)
    as Hd.
  { intros n Hn. pose proof (Z.mod_pos_bound n 10 ltac:(lia)).
    pose proof (Z.div_mod n 10 ltac:(lia)).
    split; [split; [apply Z.div_pos; lia | apply Z.lt_succ_r, Z.div_lt_upper_bound; lia]|lia]. }
  destruct (Hd ha ltac:(lia)) as (? & ? & ?).
  destruct (Hd ma ltac:(lia)) as (? & ? & ?).
  destruct (Hd hb ltac:(lia)) as (? & ? & ?).
  destruct (Hd mb ltac:(lia)) as (? & ? & ?).
  generalize dependent (ha / 10). generalize dependent (ha mod 10).
  generalize dependent (ma / 10). generalize dependent (ma mod 10).
  generalize dependent (hb / 10). generalize dependent (hb mod 10).
  generalize dependent (mb / 10). generalize dependent (mb mod 10).
  intros.
  cbn [app js lex_compare]. simpl.
  symmetry.
  repeat match goal with
  | |- context [(Z.to_N ?x ?= Z.to_N ?y)%N] =>
      destruct (N.compare_spec (Z.to_N x) (Z.to_N y))
  end;
  first [ apply Z.compare_eq_iff; lia
        | apply Z.compare_lt_iff; lia
        | apply Z.compare_gt_iff; lia ].
Qed.

Lemma time_strings_order_as_minutes_witness :
  lex_compare (formatMinutesToTime 540) (formatMinutesToTime 570) = (540 ?= 570).
Proof. apply (time_strings_order_as_minutes 540 570); lia. Defined.

(** ** The pointer on the grid *)

Lemma Math_round_Z (z : Z) : Math_round (inject_Z z) = z.
Proof.
  unfold Math_round, Qfloor, Qplus, inject_Z. simpl.
  rewrite Z.mul_1_r. symmetry. apply (Z.div_unique _ _ _ 1); lia.
Qed.

Lemma Math_round_multiple (j snap : Z) :
  snap ≠ 0 → Math_round (inject_Z (snap * j) / inject_Z snap) = j.
Proof.
  intros Hs. rewrite <- (Math_round_Z j) at 2. unfold Math_round.
  apply Qfloor_comp. rewrite inject_Z_mult. field.
  intros E. apply Hs. by apply (inject_Z_injective snap 0) in E.
Qed.

(** X7: during a drag, for a non-zero hour height, [handleMouseMove] keeps
    the drag state and stores a
    vertical offset worth a whole number [k] of quarter hours; the new start
    computed from it is the start moved by [15 * k] minutes, snapped and
    clamped to the window, and for a start on a quarter hour and a snap unit
    of fifteen minutes it is the start moved by [15 * k] minutes, clamped. *)
Theorem drag_offset_is_whole_quarter_hours (p : Props) (clientX clientY : Q)
    (h : HookState) (ds : DragState) :
  dragState h = Some ds → ¬ (hourHeight p == 0)%Q →
  let h' := handleMouseMove p clientX clientY h in
  let k := Math_round ((clientY - startY ds) / (hourHeight p / 4)) in
  dragState h' = Some ds ∧
  (dragOffset h' / hourHeight p * 60 == inject_Z (15 * k))%Q ∧
  (∀ mh sh snap,
     calculateNewMinutes (startMinutes ds) (dragOffset h') (hourHeight p) mh sh snap
     = clamp 0 (boundary sh mh)
         (Math_round (inject_Z (startMinutes ds + 15 * k) / inject_Z snap) * snap)) ∧
  (∀ mh sh j,
     startMinutes ds = 15 * j →
     calculateNewMinutes (startMinutes ds) (dragOffset h') (hourHeight p) mh sh 15
     = clamp 0 (boundary sh mh) (startMinutes ds + 15 * k)).
Proof.
  intros Hds Hhh h' k.
  assert (dragOffset h' = (inject_Z k * (hourHeight p / 4))%Q) as Hoff.
  { subst h' k. unfold handleMouseMove. by rewrite Hds. }
  assert (dragOffset h' / hourHeight p * 60 == inject_Z (15 * k))%Q as Hmin.
  { rewrite Hoff, inject_Z_mult. field. exact Hhh. }
  assert (∀ mh sh snap,
     calculateNewMinutes (startMinutes ds) (dragOffset h') (hourHeight p) mh sh snap
     = clamp 0 (boundary sh mh)
         (Math_round (inject_Z (startMinutes ds + 15 * k) / inject_Z snap) * snap))
    as Hnew.
  { intros mh sh snap. rewrite calculateNewMinutes_spec. unfold snappedMinutes.
    assert (Math_round (dragOffset h' / hourHeight p * 60 + inject_Z (startMinutes ds))
            = startMinutes ds + 15 * k) as ->; [|done].
    etrans; [|apply (Math_round_Z (startMinutes ds + 15 * k))].
    unfold Math_round. apply Qfloor_comp.
    rewrite Hmin, inject_Z_plus. ring. }
  split; [subst h'; unfold handleMouseMove; by rewrite Hds|].
  split; [exact Hmin|]. split; [exact Hnew|].
  intros mh sh j Hj. rewrite Hnew. f_equal.
  replace (startMinutes ds + 15 * k) with (15 * (j + k)) by lia.
  rewrite Math_round_multiple by lia. lia.
Qed.

Lemma drag_offset_is_whole_quarter_hours_witness :
  (dragOffset (handleMouseMove (Examples.props_of Examples.report1) 500 337
                 Examples.item_moved) / 60 * 60
   == inject_Z (15 * Math_round ((337 - 300) / (60 / 4))))%Q.
Proof.
  destruct (drag_offset_is_whole_quarter_hours (Examples.props_of Examples.report1)
              500 337 Examples.item_moved
              (mkDragState (js "r1") ResultList 300 570 None None)
              eq_refl ltac:(discriminate)) as (_ & H & _).
  exact H.
Defined.

(** ** A move in place *)

Section MoveInPlace.
Variable localeCompare : jsstring → jsstring → comparison.

(** X8: releasing a drag with a non-zero offset that is not a copy into
    the result column reports the move and gives the entries of the dragged
    id the new time; up to order the list is the old one with that change, no
    entry is added or lost, entries of another id are untouched, and so are
    the other list, the todos and the notes. *)
Theorem move_in_place_retimes_the_dragged_entry_only (p : Props) (now : N)
    (rnd : jsstring) (h : HookState) (ds : DragState) (report : DailyReport) :
  dragState h = Some ds → currentReport p = Some report →
  type ds = ResultList ∨ isDraggingToResult h = false →
  Qeq_bool (dragOffset h) 0 = false →
  let effects := snd (handleMouseUp localeCompare p now rnd h) in
  let newTime := calculateNewTime (startMinutes ds) (dragOffset h) (hourHeight p)
                   (totalHours p) (startHour p) (snapMinutes p) in
  let ty := type ds in
  ∃ r', run_effects effects (Some report) = Some r' ∧
    MessageSuccess (Moved newTime) ∈ effects ∧
    get_list ty r' ≡ₚ retime (itemId ds) newTime <$> get_list ty report ∧
    length (get_list ty r') = length (get_list ty report) ∧
    (∀ x, item_id x ≠ itemId ds → (x ∈ get_list ty r' ↔ x ∈ get_list ty report)) ∧
    (∀ x, x ∈ get_list ty r' → item_id x = itemId ds → item_time x = newTime) ∧
    (Forall (λ x, item_id x ≠ itemId ds) (get_list ty report) →
     get_list ty r' ≡ₚ get_list ty report) ∧
    (∀ ty', ty' ≠ ty → get_list ty' r' = get_list ty' report) ∧
    todos r' = todos report ∧ notes r' = notes report.
Proof.
  intros Hds Hr Hty Hmoved effects newTime ty. subst effects.
  rewrite (handleMouseUp_move localeCompare p now rnd h ds report) by done.
  cbn [snd]. fold newTime. fold ty.
  set (items := sort_by_time localeCompare _).
  assert (items ≡ₚ retime (itemId ds) newTime <$> get_list ty report) as Hperm
    by apply sort_by_time_perm.
  exists (with_list ty report items).
  assert (get_list ty (with_list ty report items) = items) as Hget by (by destruct ty).
  split; [by destruct ty|].
  split; [apply elem_of_cons; right; apply list_elem_of_here|].
  rewrite Hget.
  split; [exact Hperm|].
  split; [by rewrite Hperm, length_fmap|].
  split.
  { intros x Hx. rewrite Hperm, list_elem_of_fmap. split.
    - intros (y & -> & Hy). unfold retime in *.
      destruct (str_eqb (item_id y) (itemId ds)) eqn:E; [|done].
      apply bool_decide_eq_true in E. simpl in Hx. done.
    - intros Hin. exists x. split; [|done]. unfold retime.
      destruct (str_eqb (item_id x) (itemId ds)) eqn:E; [|done].
      by apply bool_decide_eq_true in E. }
  split.
  { intros x Hx Hid. rewrite Hperm in Hx. apply list_elem_of_fmap in Hx as (y & -> & Hy).
    unfold retime in *. destruct (str_eqb (item_id y) (itemId ds)) eqn:E; [done|].
    by apply bool_decide_eq_false in E. }
  split.
  { intros Hnone. rewrite Hperm.
    assert (retime (itemId ds) newTime <$> get_list ty report = get_list ty report) as ->;
      [|done].
    revert Hnone. generalize (get_list ty report). intros l Hnone.
    induction Hnone as [|x l Hx Hl IH]; [done|]. rewrite fmap_cons, IH. f_equal.
    unfold retime. destruct (str_eqb (item_id x) (itemId ds)) eqn:E; [|done].
    by apply bool_decide_eq_true in E. }
  split; [intros ty' Hne; by destruct ty, ty'|].
  by destruct ty.
Qed.

End MoveInPlace.

Lemma move_in_place_retimes_the_dragged_entry_only_witness :
  ∃ r', run_effects
          (snd (handleMouseUp lex_compare (Examples.props_of Examples.report1)
                  Examples.clock Examples.suffix Examples.item_moved))
          (Some Examples.report1) = Some r' ∧
        length (get_list ResultList r') = length (get_list ResultList Examples.report1).
Proof.
  destruct (move_in_place_retimes_the_dragged_entry_only lex_compare
              (Examples.props_of Examples.report1) Examples.clock Examples.suffix
              Examples.item_moved
              (mkDragState (js "r1") ResultList 300 570 None None)
              Examples.report1 eq_refl eq_refl (or_introl eq_refl) eq_refl)
    as (r' & H & _ & _ & Hlen & _).
  exists r'. split; [exact H|exact Hlen].
Defined.

(** ** Every match is a run *)

Lemma rmatch_sound {R} (r : regex) :
  ∀ i s c (k : nat → jsstring → captures → option R) x,
    rmatch r i s c k = Some x →
    ∃ j s' c', rx_run r i s c j s' c' ∧ k j s' c' = Some x.
Proof.
  induction r as [p| |r1 IH1 r2 IH2|r1 IH1 r2 IH2|g r IH|n r IH| |];
    intros i s c k x; simpl.
  - destruct s as [|y s]; [done|]. destruct (p y) eqn:E; [|done].
    intros H. eexists _, _, _. split; [by constructor|done].
  - intros H. eexists _, _, _. split; [constructor|done].
  - intros H. apply IH1 in H as (j & s' & c' & H1 & H).
    apply IH2 in H as (j' & s'' & c'' & H2 & H).
    eexists _, _, _. split; [by econstructor|done].
  - destruct (rmatch r1 i s c k) as [y|] eqn:E.
    + intros [= ->]. apply IH1 in E as (j & s' & c' & H1 & H).
      eexists _, _, _. split; [by apply run_alt_l|done].
    + intros H. apply IH2 in H as (j & s' & c' & H2 & H).
      eexists _, _, _. split; [by apply run_alt_r|done].
  - generalize (length s). intros fuel. revert i s c x.
    induction fuel as [|fuel IHf]; intros i s c x.
    + intros H. eexists _, _, _. split; [apply run_star_stop|done].
    + match goal with
      | |- context [rmatch r i s c ?k'] => destruct (rmatch r i s c k') as [y|] eqn:E
      end.
      * assert (∃ j s' c', rx_run (Rstar g r) i s c j s' c' ∧ k j s' c' = Some y)
          as Hmore.
        { apply IH in E as (j & s' & c' & H1 & H).
          destruct (decide (length s' < length s)%nat); [|done].
          apply IHf in H as (j' & s'' & c'' & H2 & H).
          eexists _, _, _. split; [by eapply run_star_more|done]. }
        destruct g.
        -- intros [= <-]. exact Hmore.
        -- destruct (k i s c) as [z|] eqn:Ek.
           ++ intros [= <-]. eexists _, _, _. split; [apply run_star_stop|done].
           ++ intros [= <-]. exact Hmore.
      * destruct g.
        -- intros H. eexists _, _, _. split; [apply run_star_stop|done].
        -- destruct (k i s c) as [z|] eqn:Ek; [|done].
           intros [= <-]. eexists _, _, _. split; [apply run_star_stop|done].
  - intros H. apply IH in H as (j & s' & c' & H1 & H).
    eexists _, _, _. split; [by constructor|done].
  - destruct (decide (i = 0%nat)) as [->|]; [|done].
    intros H. eexists _, _, _. split; [constructor|done].
  - destruct s; [|done].
    intros H. eexists _, _, _. split; [constructor|done].
Qed.

Lemma rx_run_char p i s c j s' c' :
  rx_run (Rchar p) i s c j s' c' → ∃ x, p x = true ∧ took [x] i s c j s' c'.
Proof.
  inversion 1; subst. eexists. split; [done|].
  unfold took. split; [done|]. split; [simpl; lia|done].
Qed.

Lemma rx_run_eps i s c j s' c' : rx_run Reps i s c j s' c' → took [] i s c j s' c'.
Proof. inversion 1; subst. unfold took. rewrite Nat.add_0_r. done. Qed.

Lemma rx_run_seq r1 r2 i s c j s' c' :
  rx_run (Rseq r1 r2) i s c j s' c' →
  ∃ j1 s1 c1, rx_run r1 i s c j1 s1 c1 ∧ rx_run r2 j1 s1 c1 j s' c'.
Proof. inversion 1; subst. by eexists _, _, _. Qed.

Lemma rx_run_alt r1 r2 i s c j s' c' :
  rx_run (Ralt r1 r2) i s c j s' c' →
  rx_run r1 i s c j s' c' ∨ rx_run r2 i s c j s' c'.
Proof. inversion 1; subst; auto. Qed.

Lemma rx_run_group n r i s c j s' c' :
  rx_run (Rgroup n r) i s c j s' c' →
  ∃ c0, rx_run r i s c j s' c0 ∧ c' = <[n := take (j - i) s]> c0.
Proof. inversion 1; subst. by eexists. Qed.

Lemma rx_run_bol i s c j s' c' :
  rx_run Rbol i s c j s' c' → i = 0%nat ∧ took [] i s c j s' c'.
Proof. inversion 1; subst. by repeat split. Qed.

Lemma rx_run_eol i s c j s' c' :
  rx_run Reol i s c j s' c' → s' = [] ∧ took [] i s c j s' c'.
Proof. inversion 1; subst. unfold took. rewrite Nat.add_0_r. done. Qed.

Lemma took_app w1 w2 i s c j1 s1 c1 j s' c' :
  took w1 i s c j1 s1 c1 → took w2 j1 s1 c1 j s' c' → took (w1 ++ w2) i s c j s' c'.
Proof.
  intros (-> & -> & ->) (-> & -> & ->). unfold took.
  rewrite length_app, <- app_assoc. split; [done|]. split; [lia|done].
Qed.

Lemma took_take w i s c j s' c' : took w i s c j s' c' → take (j - i) s = w.
Proof.
  intros (-> & -> & _).
  replace (i + length w - i)%nat with (length w) by lia. by rewrite take_app_length.
Qed.

Lemma rx_run_star_class g p i s c j s' c' :
  rx_run (Rstar g (Rchar p)) i s c j s' c' →
  ∃ w, all_in p w ∧ took w i s c j s' c'.
Proof.
  intros H. remember (Rstar g (Rchar p)) as r eqn:Er.
  induction H; try discriminate Er.
  - exists []. split; [constructor|]. unfold took. rewrite Nat.add_0_r. done.
  - injection Er as -> ->.
    apply rx_run_char in H as (x & Hx & Hx').
    destruct (IHrx_run2 eq_refl) as (w & Hw & Hw').
    exists ([x] ++ w). split; [by constructor|]. by eapply took_app.
Qed.

Lemma rx_run_plus_class p i s c j s' c' :
  rx_run (plus (Rchar p)) i s c j s' c' →
  ∃ w, w ≠ [] ∧ all_in p w ∧ took w i s c j s' c'.
Proof.
  intros H. apply rx_run_seq in H as (j1 & s1 & c1 & H1 & H2).
  apply rx_run_char in H1 as (x & Hx & Hx').
  apply rx_run_star_class in H2 as (w & Hw & Hw').
  exists ([x] ++ w). split; [done|]. split; [by constructor|]. by eapply took_app.
Qed.

Lemma rx_run_times_class n p i s c j s' c' :
  rx_run (times n (Rchar p)) i s c j s' c' →
  ∃ w, length w = n ∧ all_in p w ∧ took w i s c j s' c'.
Proof.
  revert i s c. induction n as [|n IH]; intros i s c H; simpl in H.
  - apply rx_run_eps in H. exists []. split; [done|]. split; [constructor|done].
  - apply rx_run_seq in H as (j1 & s1 & c1 & H1 & H2).
    apply rx_run_char in H1 as (x & Hx & Hx').
    apply IH in H2 as (w & Hlen & Hw & Hw').
    exists ([x] ++ w). split; [simpl; by rewrite Hlen|].
    split; [by constructor|]. by eapply took_app.
Qed.

Lemma rx_run_chars (l : jsstring) i s c j s' c' :
  rx_run (foldr (λ c r, Rseq (chr c) r) Reps l) i s c j s' c' → took l i s c j s' c'.
Proof.
  revert i s c. induction l as [|x l IH]; intros i s c H; simpl in H.
  - by apply rx_run_eps.
  - apply rx_run_seq in H as (j1 & s1 & c1 & H1 & H2).
    apply rx_run_char in H1 as (y & Hy & Hy'). apply N.eqb_eq in Hy as ->.
    apply IH in H2. by apply (took_app [x] l _ _ _ _ _ _ _ _ _ Hy').
Qed.

Lemma rx_run_lit (str : string) i s c j s' c' :
  rx_run (lit str) i s c j s' c' → took (js str) i s c j s' c'.
Proof. apply rx_run_chars. Qed.

Ltac run_inv :=
  repeat match goal with
  | H : rx_run (plus (Rchar _)) _ _ _ _ _ _ |- _ =>
      let w := fresh "w" in
      apply rx_run_plus_class in H as (w & ? & ? & H)
  | H : rx_run (times _ (Rchar _)) _ _ _ _ _ _ |- _ =>
      let w := fresh "d" in
      apply rx_run_times_class in H as (w & ? & ? & H)
  | H : rx_run (Rstar _ (Rchar _)) _ _ _ _ _ _ |- _ =>
      let w := fresh "w" in
      apply rx_run_star_class in H as (w & ? & H)
  | H : rx_run (lit _) _ _ _ _ _ _ |- _ => apply rx_run_lit in H
  | H : rx_run (Rchar _) _ _ _ _ _ _ |- _ =>
      let x := fresh "x" in
      apply rx_run_char in H as (x & ? & H)
  | H : rx_run Rbol _ _ _ _ _ _ |- _ => apply rx_run_bol in H as [? H]
  | H : rx_run Reol _ _ _ _ _ _ |- _ => apply rx_run_eol in H as [? H]
  | H : rx_run Reps _ _ _ _ _ _ |- _ => apply rx_run_eps in H
  | H : rx_run (Rgroup _ _) _ _ _ _ _ _ |- _ =>
      let c0 := fresh "c" in
      apply rx_run_group in H as (c0 & H & ?)
  | H : rx_run (Rseq _ _) _ _ _ _ _ _ |- _ =>
      let H1 := fresh "H" in
      apply rx_run_seq in H as (? & ? & ? & H1 & H)
  end.

Ltac took_subst :=
  repeat match goal with
  | H : took _ _ _ _ _ _ _ |- _ => destruct H as (? & ? & ?)
  end; subst.

Lemma take_prefix {A} (w L : list A) (n : nat) :
  (∃ rest, L = w ++ rest) → n = length w → take n L = w.
Proof. intros [rest ->] ->. apply take_app_length. Qed.

Ltac solve_captured :=
  unfold group; cbn [m_groups];
  rewrite ?lookup_insert_ne by done; rewrite lookup_insert_eq;
  unfold default, from_option, id;
  apply take_prefix;
  [eexists; rewrite <- ?app_assoc; reflexivity
  |rewrite ?length_app; simpl; lia].

Lemma is_HHMM_parts (d d0 : jsstring) :
  length d = 2%nat → all_in isDigit d → length d0 = 2%nat → all_in isDigit d0 →
  is_HHMM (d ++ js ":" ++ d0) = true.
Proof.
  intros L1 A1 L2 A2.
  destruct d as [|a [|b [|]]]; try done. destruct d0 as [|e [|f [|]]]; try done.
  inversion A1 as [|? ? Ha A1']; inversion A1' as [|? ? Hb _]; subst.
  inversion A2 as [|? ? He A2']; inversion A2' as [|? ? Hf _]; subst.
  simpl. by rewrite Ha, Hb, He, Hf.
Qed.

Lemma exec_re_schedule_sound (line : jsstring) (m : match_result) :
  exec re_schedule line = Some m →
  ∃ w1 t w2 proj w3 task,
    line = content_line w1 t w2 proj w3 task ∧
    is_gap w1 ∧ is_HHMM t = true ∧ is_gap w2 ∧ is_project_code proj ∧ is_gap w3 ∧
    task ≠ [] ∧ all_in (λ x, negb (isLineTerminator x)) task ∧
    group 1 m = t ∧ group 2 m = proj ∧ group 3 m = task.
Proof.
  unfold re_schedule. cbn [seqs]. rewrite exec_bol. unfold match_at. intros H.
  apply rmatch_sound in H as (j & s' & c' & Hrun & [= <-]).
  unfold ws, digit, dot, not_chr in Hrun. run_inv.
  took_subst.
  exists w, (d ++ js ":" ++ d0), w0, w1, w2, w3.
  split; [unfold content_line; by rewrite <- ?app_assoc, ?app_nil_r, ?app_nil_l|].
  split; [done|]. split; [by apply is_HHMM_parts|].
  repeat (split; [done|]).
  split; [solve_captured|]. split; solve_captured.
Qed.

Lemma exec_re_end_time_sound (line : jsstring) (m : match_result) :
  exec re_end_time line = Some m →
  ∃ w1 t w2,
    line = bare_line w1 t w2 ∧ is_gap w1 ∧ is_HHMM t = true ∧
    all_in isWhiteSpace w2 ∧ group 1 m = t.
Proof.
  unfold re_end_time. cbn [seqs]. rewrite exec_bol. unfold match_at. intros H.
  apply rmatch_sound in H as (j & s' & c' & Hrun & [= <-]).
  unfold ws, digit, star in Hrun. run_inv. took_subst.
  exists w, (d ++ js ":" ++ d0), w0.
  split; [unfold bare_line; by rewrite <- ?app_assoc, ?app_nil_r, ?app_nil_l|].
  split; [done|]. split; [by apply is_HHMM_parts|].
  split; [done|]. solve_captured.
Qed.

(** ** One line, one step *)

Lemma parse_line_step (year : N) (i : nat) (line : jsstring) (st st' : ParseState) :
  parse_line year i line st = Returns st' → line_step year i line st st'.
Proof.
  unfold parse_line.
  destruct (matches (re_section "PLAN") line) eqn:E1;
    [intros [= <-]; eapply step_section; [|exact E1]; unfold section_headings; set_solver|].
  destruct (matches (re_section "RESULT") line) eqn:E2;
    [intros [= <-]; eapply step_section; [|exact E2]; unfold section_headings; set_solver|].
  destruct (matches (re_section "TODO") line) eqn:E3;
    [intros [= <-]; eapply step_section; [|exact E3]; unfold section_headings; set_solver|].
  destruct (matches (re_section "NOTE") line) eqn:E4;
    [intros [= <-]; eapply step_section; [|exact E4]; unfold section_headings; set_solver|].
  destruct (is_todo_section (ps_section st) && matches re_project_header line) eqn:Eh.
  { apply andb_prop in Eh as [Eh _].
    assert (ps_section st = SecTodo) by (by destruct (ps_section st)).
    destruct (exec re_project_header line); intros [= <-]; by constructor. }
  unfold schedule_block.
  destruct (is_schedule_section (ps_section st) && startsWith (js "*") line) eqn:Es.
  - apply andb_prop in Es as [Es _].
    destruct (exec re_schedule line) as [m|] eqn:Em.
    { intros [= <-]. by eapply step_entry. }
    assert (is_todo_section (ps_section st) = false) as Hnt
      by (by destruct (ps_section st)).
    assert (is_note_section (ps_section st) = false) as Hnn
      by (by destruct (ps_section st)).
    destruct (exec re_end_time line) as [m|] eqn:Ee.
    + unfold todo_block, description_block, note_block.
      repeat (progress (rewrite ?ps_section_set_report, ?Hnt, ?Hnn; cbn [andb bind])).
      intros [= <-]. by eapply step_marker.
    + unfold todo_block, description_block, note_block.
      repeat (progress (rewrite ?Hnt, ?Hnn; cbn [andb bind])).
      intros [= <-]. constructor.
  - unfold todo_block.
    destruct (is_todo_section (ps_section st) && startsWith (js "-") line) eqn:Et.
    + apply andb_prop in Et as [Et _].
      assert (ps_section st = SecTodo) as Hsec by (by destruct (ps_section st)).
      destruct (exec re_todo line) as [m|] eqn:Em.
      { intros [= <-]. by eapply step_todo. }
      unfold description_block.
      destruct (is_todo_section (ps_section st) && matches re_indent line
                && bool_decide (0 < length (todos (ps_report st)))%nat).
      * destruct (todos (ps_report st) !! _) as [lastTodo|] eqn:El; [|done].
        simpl. intros [= <-]. by eapply step_description.
      * simpl. unfold note_block. rewrite Hsec. simpl. intros [= <-]. constructor.
    + unfold description_block.
      destruct (is_todo_section (ps_section st) && matches re_indent line
                && bool_decide (0 < length (todos (ps_report st)))%nat) eqn:Ed.
      * apply andb_prop in Ed as [Ed _]. apply andb_prop in Ed as [Ed _].
        assert (ps_section st = SecTodo) as Hsec by (by destruct (ps_section st)).
        destruct (todos (ps_report st) !! _) as [lastTodo|] eqn:El; [|done].
        simpl. intros [= <-]. by eapply step_description.
      * simpl. unfold note_block.
        destruct (is_note_section (ps_section st) && negb (startsWith (js "##") line))
          eqn:En; intros [= <-]; [|constructor].
        apply andb_prop in En as [En _].
        apply step_note. by destruct (ps_section st).
Qed.

(** An invariant of the loop holds at its end. *)
Lemma parse_lines_invariant_in (year : N) (P : nat → ParseState → Prop)
    (lines : list jsstring) :
  (∀ i line st st', line ∈ lines → P i st → line_step year i line st st' → P (S i) st') →
  ∀ i st st',
    P i st → parse_lines year i lines st = Returns st' →
    P (i + length lines)%nat st'.
Proof.
  induction lines as [|line lines IH]; intros Hstep i st st' HP; simpl.
  - intros [= <-]. by rewrite Nat.add_0_r.
  - destruct (parse_line year i line st) as [st1|] eqn:E; simpl; [|done].
    intros H. rewrite <- Nat.add_succ_comm. eapply IH; [| |exact H].
    + intros j l s s' Hin. apply Hstep. by apply list_elem_of_further.
    + eapply Hstep; [apply list_elem_of_here|exact HP|]. by apply parse_line_step.
Qed.

Lemma parse_lines_invariant (year : N) (P : nat → ParseState → Prop) :
  (∀ i line st st', P i st → line_step year i line st st' → P (S i) st') →
  ∀ lines i st st',
    P i st → parse_lines year i lines st = Returns st' →
    P (i + length lines)%nat st'.
Proof.
  intros Hstep lines. apply parse_lines_invariant_in. intros i line st st' _. apply Hstep.
Qed.

(** ** What every decoded report satisfies *)

(** The decoded report, from the state at the end of the loop. *)
Lemma parseReportFromMarkdown_state (year : N) (date content : jsstring) :
  ∃ st, parse_lines year 0 (split_lines content)
          (initial_state date (split_lines content)) = Returns st ∧
        parseReportFromMarkdown year date content
        = Returns (with_notes (ps_report st) (trim (join_lines (ps_noteLines st)))).
Proof.
  unfold parseReportFromMarkdown. cbv zeta.
  destruct (parse_lines_returns year (split_lines content) 0%nat
              (initial_state date (split_lines content))) as [st Hst].
  exists st. by rewrite Hst.
Qed.

Lemma initial_state_lists (date : jsstring) (lines : list jsstring) :
  plan (ps_report (initial_state date lines)) = [] ∧
  result (ps_report (initial_state date lines)) = [] ∧
  todos (ps_report (initial_state date lines)) = [] ∧
  Types.date (ps_report (initial_state date lines)) = date ∧
  ps_noteLines (initial_state date lines) = [] ∧
  ps_section (initial_state date lines) = NoSection.
Proof.
  unfold initial_state. destruct (head lines) as [l|]; [|done].
  by destruct (exec re_header l).
Qed.

(** *** Ids *)

Lemma ids_below_mono (c : jsstring) (i : nat) (l : list ScheduleItem) :
  ids_below c i l → ids_below c (S i) l.
Proof.
  intros [Hn Hl]. split; [done|].
  eapply Forall_impl; [exact Hl|]. intros x (n & Hlt & Hid). exists n. split; [lia|done].
Qed.

Lemma todo_ids_below_mono (i : nat) (l : list TodoItem) :
  todo_ids_below i l → todo_ids_below (S i) l.
Proof.
  intros [Hn Hl]. split; [done|].
  eapply Forall_impl; [exact Hl|]. intros x (n & Hlt & Hid). exists n. split; [lia|done].
Qed.

Lemma line_id_fresh (c : jsstring) (i n : nat) (id : jsstring) :
  c = js "p" ∨ c = js "r" →
  (n < i)%nat → line_id c n id → ¬ line_id c i id.
Proof.
  intros Hc Hlt [-> | ->] [E|E].
  - apply app_inv_head, String_of_nat_inj in E. lia.
  - destruct Hc as [-> | ->]; discriminate E.
  - destruct Hc as [-> | ->]; discriminate E.
  - do 2 apply app_inv_head in E. apply String_of_nat_inj in E. lia.
Qed.

Lemma ids_below_push (c : jsstring) (i : nat) (l : list ScheduleItem) (x : ScheduleItem) :
  c = js "p" ∨ c = js "r" →
  line_id c i (item_id x) → ids_below c i l → ids_below c (S i) (l ++ [x]).
Proof.
  intros Hc Hx [Hn Hl]. split.
  - rewrite fmap_app. apply NoDup_app. split; [done|]. split; [|apply NoDup_singleton].
    intros id Hin Hin'. apply list_elem_of_singleton in Hin'. subst id.
    apply list_elem_of_fmap in Hin as (y & Heq & Hy).
    rewrite Forall_forall in Hl. destruct (Hl y Hy) as (n & Hlt & Hid).
    rewrite <- Heq in Hid. by apply (line_id_fresh c i n (item_id x)).
  - apply Forall_app. split.
    + eapply Forall_impl; [exact Hl|]. intros y (n & Hlt & Hid). exists n. split; [lia|done].
    + repeat constructor. exists i. split; [lia|done].
Qed.

Lemma ids_below_push_schedule (s : SectionName) (i : nat) (r : DailyReport)
    (x : ScheduleItem) :
  is_schedule_section s = true →
  line_id (section_initial s) i (item_id x) →
  ids_below (js "p") i (plan r) → ids_below (js "r") i (result r) →
  ids_below (js "p") (S i) (plan (push_schedule s x r)) ∧
  ids_below (js "r") (S i) (result (push_schedule s x r)).
Proof.
  intros Hs Hx Hp Hr. destruct s; try done; simpl in *.
  - split; [apply ids_below_push; auto | by apply ids_below_mono].
  - split; [by apply ids_below_mono | apply ids_below_push; auto].
Qed.

Lemma todo_ids_insert (l : list TodoItem) (k : nat) (t : TodoItem) (d : option jsstring) :
  l !! k = Some t →
  todo_id <$> <[k := with_description t d]> l = todo_id <$> l.
Proof.
  intros Hk. rewrite list_fmap_insert. simpl. apply list_insert_id.
  by rewrite list_lookup_fmap, Hk.
Qed.

Lemma line_step_ids (year : N) (i : nat) (line : jsstring) (st st' : ParseState) :
  ids_invariant i st → line_step year i line st st' → ids_invariant (S i) st'.
Proof.
  intros (Hp & Hr & Ht) Hstep.
  assert (ids_invariant (S i) st) as Hsame.
  { split; [by apply ids_below_mono|]. split; [by apply ids_below_mono|].
    by apply todo_ids_below_mono. }
  destruct Hstep as [name s Hin Hname|p Hsec|m Hsec Hm|m Hsec Hm|m Hsec Hm|lastTodo Hsec Hlast|Hsec|];
    try exact Hsame.
  - destruct (ids_below_push_schedule (ps_section st) i (ps_report st)
                (mkScheduleItem (section_initial (ps_section st) ++ String_of_nat i)
                   (group 1 m) (group 2 m) (group 3 m)) Hsec (or_introl eq_refl) Hp Hr)
      as [Hp' Hr'].
    split; [exact Hp'|]. split; [exact Hr'|].
    destruct (ps_section st); try done; by apply todo_ids_below_mono.
  - destruct (ids_below_push_schedule (ps_section st) i (ps_report st)
                (mkScheduleItem
                   (js "break" ++ section_initial (ps_section st) ++ String_of_nat i)
                   (group 1 m) [] []) Hsec (or_intror eq_refl) Hp Hr)
      as [Hp' Hr'].
    split; [exact Hp'|]. split; [exact Hr'|].
    destruct (ps_section st); try done; by apply todo_ids_below_mono.
  - split; [by apply ids_below_mono|]. split; [by apply ids_below_mono|].
    cbn [ps_report set_report todos with_todos].
    destruct Ht as [Hn Hl]. split.
    + rewrite fmap_app. apply NoDup_app. split; [done|]. split; [|apply NoDup_singleton].
      intros id Hin Hin'. apply list_elem_of_singleton in Hin'. subst id.
      apply list_elem_of_fmap in Hin as (y & Heq & Hy).
      rewrite Forall_forall in Hl. destruct (Hl y Hy) as (n & Hlt & Hid).
      assert (todo_id (decode_todo year i (ps_todoProject st) m)
              = js "t" ++ String_of_nat i) as Hnew.
      { unfold decode_todo. by repeat case_match. }
      rewrite <- Heq, Hnew in Hid. apply app_inv_head, String_of_nat_inj in Hid. lia.
    + apply Forall_app. split.
      * eapply Forall_impl; [exact Hl|]. intros y (n & Hlt & Hid).
        exists n. split; [lia|done].
      * repeat constructor. exists i. split; [lia|].
        unfold decode_todo. by repeat case_match.
  - split; [by apply ids_below_mono|]. split; [by apply ids_below_mono|].
    cbn [ps_report set_report todos with_todos].
    destruct Ht as [Hn Hl]. split.
    + by rewrite todo_ids_insert.
    + apply Forall_insert.
      * eapply Forall_impl; [exact Hl|]. intros y (n & Hlt & Hid).
        exists n. split; [lia|done].
      * rewrite Forall_forall in Hl.
        destruct (Hl lastTodo) as (n & Hlt & Hid); [by eapply list_elem_of_lookup_2|].
        exists n. split; [lia|done].
Qed.

(** X9: [parseReportFromMarkdown] returns on every text, and in the report
    it returns the ids of the plan, of the result and of the todos are pairwise
    distinct within each list; each id names a line of the text by its index
    ([p], [r] or [t], or [breakp], [breakr] for a bare end time). *)
Theorem decoded_ids_are_distinct (year : N) (date content : jsstring) :
  ∃ r, parseReportFromMarkdown year date content = Returns r ∧
    NoDup (item_id <$> plan r) ∧ NoDup (item_id <$> result r) ∧
    NoDup (todo_id <$> todos r) ∧
    Forall (λ x, ∃ n, (n < length (split_lines content))%nat ∧
                      line_id (js "p") n (item_id x)) (plan r) ∧
    Forall (λ x, ∃ n, (n < length (split_lines content))%nat ∧
                      line_id (js "r") n (item_id x)) (result r) ∧
    Forall (λ t, ∃ n, (n < length (split_lines content))%nat ∧
                      todo_id t = js "t" ++ String_of_nat n) (todos r).
Proof.
  destruct (parseReportFromMarkdown_state year date content) as (st & Hst & ->).
  eexists. split; [reflexivity|].
  cbn [plan result todos with_notes].
  destruct (initial_state_lists date (split_lines content)) as (Ep & Er & Et & _).
  pose proof (parse_lines_invariant year ids_invariant (line_step_ids year)
                (split_lines content) 0%nat
                (initial_state date (split_lines content)) st) as Hinv.
  destruct Hinv as ([? ?] & [? ?] & [? ?]); [|exact Hst|done].
  unfold ids_invariant, ids_below, todo_ids_below. rewrite Ep, Er, Et.
  repeat split; constructor.
Qed.

(** *** Entries *)

Lemma Forall_push_schedule (P : ScheduleItem → Prop) (s : SectionName)
    (x : ScheduleItem) (r : DailyReport) :
  P x → Forall P (plan r) → Forall P (result r) →
  Forall P (plan (push_schedule s x r)) ∧ Forall P (result (push_schedule s x r)).
Proof.
  intros Hx Hp Hr.
  destruct s; simpl; split; try done; apply Forall_app; by repeat constructor.
Qed.

Lemma line_step_entries (P : ScheduleItem → Prop) (year : N) (i : nat)
    (line : jsstring) (st st' : ParseState) :
  (∀ id m, exec re_schedule line = Some m →
           P (mkScheduleItem id (group 1 m) (group 2 m) (group 3 m))) →
  (∀ id m, exec re_end_time line = Some m → P (mkScheduleItem id (group 1 m) [] [])) →
  Forall P (plan (ps_report st)) ∧ Forall P (result (ps_report st)) →
  line_step year i line st st' →
  Forall P (plan (ps_report st')) ∧ Forall P (result (ps_report st')).
Proof.
  intros Hentry Hmarker [Hp Hr] Hstep.
  destruct Hstep as [name s Hin Hname|p Hsec|m Hsec Hm|m Hsec Hm|m Hsec Hm|lastTodo Hsec Hlast|Hsec|];
    try done.
  - apply Forall_push_schedule; auto.
  - apply Forall_push_schedule; auto.
Qed.

Lemma content_entry_well_formed (id line : jsstring) (m : match_result) :
  exec re_schedule line = Some m →
  well_formed_entry (mkScheduleItem id (group 1 m) (group 2 m) (group 3 m)).
Proof.
  intros Hm. apply exec_re_schedule_sound in Hm
    as (w1 & t & w2 & proj & w3 & task & _ & _ & Ht & _ & Hproj & _ & Hne & Hline
        & -> & -> & ->).
  split; [exact Ht|]. left.
  split; [exact Hproj|]. split; [exact Hne|exact Hline].
Qed.

Lemma marker_entry_well_formed (id line : jsstring) (m : match_result) :
  exec re_end_time line = Some m →
  well_formed_entry (mkScheduleItem id (group 1 m) [] []).
Proof.
  intros Hm. apply exec_re_end_time_sound in Hm as (w1 & t & w2 & _ & _ & Ht & _ & ->).
  split; [exact Ht|]. by right.
Qed.

(** X10: every schedule entry of a decoded report has a time of the form
    [HH:MM] and is either a content entry, with a project code that is not
    empty and holds no closing bracket (any other code unit can occur in
    it) and a non-empty task of one line, or a bare-time marker with
    neither project nor task. *)
Theorem decoded_entries_are_well_formed (year : N) (date content : jsstring) :
  ∃ r, parseReportFromMarkdown year date content = Returns r ∧
    Forall well_formed_entry (plan r) ∧ Forall well_formed_entry (result r) ∧
    all_HHMM (plan r) ∧ all_HHMM (result r).
Proof.
  destruct (parseReportFromMarkdown_state year date content) as (st & Hst & ->).
  eexists. split; [reflexivity|].
  cbn [plan result with_notes].
  destruct (initial_state_lists date (split_lines content)) as (Ep & Er & _).
  assert (Forall well_formed_entry (plan (ps_report st)) ∧
          Forall well_formed_entry (result (ps_report st))) as [Hp Hr].
  { apply (parse_lines_invariant year
             (λ _ st, Forall well_formed_entry (plan (ps_report st)) ∧
                      Forall well_formed_entry (result (ps_report st)))
             (λ i line st st', line_step_entries well_formed_entry year i line st st'
                (λ id m, content_entry_well_formed id line m)
                (λ id m, marker_entry_well_formed id line m))
             (split_lines content) 0%nat
             (initial_state date (split_lines content)) st); [|exact Hst].
    rewrite Ep, Er. by split. }
  split; [exact Hp|]. split; [exact Hr|].
  split; (eapply Forall_impl; [eassumption|]); by intros x [Hx _].
Qed.

(** *** Statuses *)

Lemma parseStatusMark_known (mark : jsstring) : known_status (parseStatusMark mark).
Proof.
  unfold parseStatusMark, known_status. cbv zeta.
  repeat case_match; auto.
Qed.

Lemma known_status_recognized (s : StatusValue) :
  known_status s → ∃ k, s = StatusStr k ∧ recognized k.
Proof.
  intros [-> | [-> | [-> | ->]]]; eexists; (split; [reflexivity|]); unfold recognized; auto.
Qed.

Lemma line_step_statuses (year : N) (i : nat) (line : jsstring) (st st' : ParseState) :
  Forall (λ t, known_status (todo_status t)) (todos (ps_report st)) →
  line_step year i line st st' →
  Forall (λ t, known_status (todo_status t)) (todos (ps_report st')).
Proof.
  intros Ht Hstep.
  destruct Hstep as [name s Hin Hname|p Hsec|m Hsec Hm|m Hsec Hm|m Hsec Hm|lastTodo Hsec Hlast|Hsec|];
    try done.
  - by destruct (ps_section st).
  - by destruct (ps_section st).
  - cbn [ps_report set_report todos with_todos]. apply Forall_app. split; [done|].
    constructor; [|constructor]. unfold decode_todo. repeat case_match. simpl.
    apply parseStatusMark_known.
  - cbn [ps_report set_report todos with_todos]. apply Forall_insert; [done|].
    simpl. rewrite Forall_forall in Ht. apply Ht. by eapply list_elem_of_lookup_2.
Qed.

Lemma toggle_report_four_times (id : jsstring) (r : DailyReport) :
  Forall (λ t, known_status (todo_status t)) (todos r) →
  Nat.iter 4 (Report.toggleTodoStatus id) (Some r) = Some r.
Proof.
  intros Hk.
  assert (Nat.iter 4 (fmap (Report.toggle_todo id)) (todos r) = todos r) as E.
  { apply toggle_four_times. eapply Forall_impl; [exact Hk|].
    intros t Ht _. by apply known_status_recognized. }
  destruct r as [d a p rs ts n]. simpl in *.
  unfold Report.toggleTodoStatus, with_todos. simpl. by rewrite E.
Qed.

(** X11: every todo of a decoded report has one of the four statuses, so
    [toggleTodoStatus] is a cycle of length four on a decoded report, and one
    toggle of a todo that is there gives it another of the four statuses. *)
Theorem decoded_todos_have_one_of_four_statuses (year : N) (date content : jsstring) :
  ∃ r, parseReportFromMarkdown year date content = Returns r ∧
    Forall (λ t, known_status (todo_status t)) (todos r) ∧
    (∀ id, Nat.iter 4 (Report.toggleTodoStatus id) (Some r) = Some r) ∧
    (∀ id t, t ∈ todos r → todo_id t = id →
       ∃ r' t', Report.toggleTodoStatus id (Some r) = Some r' ∧
                t' ∈ todos r' ∧ todo_id t' = id ∧
                known_status (todo_status t') ∧ todo_status t' ≠ todo_status t).
Proof.
  destruct (parseReportFromMarkdown_state year date content) as (st & Hst & ->).
  eexists. split; [reflexivity|].
  cbn [todos with_notes].
  destruct (initial_state_lists date (split_lines content)) as (_ & _ & Et & _).
  assert (Forall (λ t, known_status (todo_status t)) (todos (ps_report st))) as Hk.
  { apply (parse_lines_invariant year
             (λ _ st, Forall (λ t, known_status (todo_status t)) (todos (ps_report st)))
             (λ i line st st', line_step_statuses year i line st st')
             (split_lines content) 0%nat
             (initial_state date (split_lines content)) st); [|exact Hst].
    by rewrite Et. }
  split; [exact Hk|]. split.
  - intros id. by apply toggle_report_four_times.
  - intros id t Hin Hid. eexists _, (Report.toggle_todo id t).
    split; [reflexivity|]. cbn [todos with_todos].
    split; [by apply list_elem_of_fmap_2|].
    rewrite (toggle_todo_same id t Hid). simpl. split; [done|].
    rewrite Forall_forall in Hk.
    destruct (Hk t Hin) as [-> | [-> | [-> | ->]]]; split; try discriminate;
      unfold known_status; vm_compute; auto.
Qed.

Lemma decoded_todos_have_one_of_four_statuses_witness :
  ∃ r, parseReportFromMarkdown 2025 (js "2025-01-15") Examples.todo_document = Returns r ∧
    ∃ r' t', Report.toggleTodoStatus (js "t1") (Some r) = Some r' ∧
             t' ∈ todos r' ∧ todo_id t' = js "t1" ∧ todo_status t' ≠ pending.
Proof.
  destruct (decoded_todos_have_one_of_four_statuses 2025 (js "2025-01-15")
              Examples.todo_document) as (r & E & _ & _ & H).
  exists r. split; [exact E|].
  vm_compute in E. injection E as <-.
  edestruct H as (r' & t' & Hr' & Hin & Hid & _ & Hne).
  - apply list_elem_of_here.
  - reflexivity.
  - exists r', t'. split; [exact Hr'|]. split; [exact Hin|]. split; [exact Hid|exact Hne].
Defined.

(** ** The header line *)

Lemma rmatch_lazy_unfold {R} p i s c (k : nat → jsstring → captures → option R) :
  rmatch (Rstar false (Rchar p)) i s c k = lazy_loop p k (length s) i s c.
Proof. reflexivity. Qed.

(** A lazy star over a class goes on while what follows it fails. *)
Lemma lazy_loop_reach {R} p (k : nat → jsstring → captures → option R) c
    (w rest : jsstring) (x : R) :
  all_in p w →
  (∀ j y s', y ∈ w → k j (y :: s') c = None) →
  ∀ fuel i, (length w ≤ fuel)%nat →
    k (i + length w)%nat rest c = Some x →
    lazy_loop p k fuel i (w ++ rest) c = Some x.
Proof.
  intros Hw. induction Hw as [|y w Hy Hw IH]; intros Hk fuel i Hfuel Hend.
  - simpl in *. rewrite Nat.add_0_r in Hend. destruct fuel; simpl; by rewrite Hend.
  - destruct fuel as [|fuel]; [simpl in Hfuel; lia|].
    cbn [lazy_loop app]. rewrite (Hk i y (w ++ rest)) by apply list_elem_of_here.
    rewrite Hy, decide_True by (simpl; lia).
    fold (@lazy_loop R p k). apply IH.
    + intros j z s' Hz. apply Hk. by apply list_elem_of_further.
    + simpl in Hfuel. lia.
    + simpl in Hend. by rewrite <- Nat.add_succ_comm in Hend.
Qed.

Lemma rmatch_plus_lazy_reach {R} p i (w rest : jsstring) c
    (k : nat → jsstring → captures → option R) (x : R) :
  w ≠ [] → all_in p w →
  (∀ j y s', y ∈ w → k j (y :: s') c = None) →
  k (i + length w)%nat rest c = Some x →
  rmatch (plus_lazy (Rchar p)) i (w ++ rest) c k = Some x.
Proof.
  intros Hne Hw Hk Hend. destruct w as [|y w]; [done|].
  inversion Hw as [|? ? Hy Hw']; subst.
  unfold plus_lazy. rewrite rmatch_seq. cbn [app]. rewrite rmatch_char_hit by done.
  cbv beta. rewrite rmatch_lazy_unfold.
  apply lazy_loop_reach; [done| |rewrite length_app; lia|].
  - intros j z s' Hz. apply Hk. by apply list_elem_of_further.
  - simpl in Hend. by rewrite <- Nat.add_succ_comm in Hend.
Qed.

Lemma not_ws_not_terminator (x : N) :
  isWhiteSpace x = false → negb (isLineTerminator x) = true.
Proof.
  intros H. apply negb_true_iff. destruct (isLineTerminator x) eqn:E; [|done].
  unfold isLineTerminator in E. rewrite !orb_true_iff, !N.eqb_eq in E.
  destruct E as [[[-> | ->] | ->] | ->]; discriminate H.
Qed.

(** A name without white space. *)
Lemma exec_re_header (a d rest : jsstring) :
  a ≠ [] → all_in (λ x, negb (isWhiteSpace x)) a → is_date10 d = true →
  ∃ m, exec re_header (js "# [" ++ nippou ++ js "] " ++ a ++ js " " ++ d ++ rest) = Some m ∧
       group 1 m = a ∧ group 2 m = d.
Proof.
  intros Hne Ha Hd.
  apply is_date10_inv in Hd
    as (a1 & a2 & a3 & a4 & a5 & a6 & a7 & a8 & -> & H1 & H2 & H3 & H4 & H5 & H6 & H7 & H8).
  unfold re_header. cbn [seqs]. rewrite exec_bol. unfold match_at.
  change (lit "#") with (Rseq (chr 35) Reps).
  change (lit "[") with (Rseq (chr 91) Reps).
  change (lit "]") with (Rseq (chr 93) Reps).
  change (lit "-") with (Rseq (chr 45) Reps).
  cbn [times]. unfold ws, digit, dot.
  change (js "# [" ++ nippou ++ js "] " ++ a ++ js " " ++
          [a1; a2; a3; a4; 45%N; a5; a6; 45%N; a7; a8] ++ rest)
    with (35%N :: [32%N] ++ 91%N :: 26085%N :: 22577%N :: 93%N :: [32%N] ++ a ++
          [32%N] ++ a1 :: a2 :: a3 :: a4 :: 45%N :: a5 :: a6 :: 45%N :: a7 :: a8 :: rest).
  repeat rx_step.
  eexists. split.
  { apply rmatch_plus_class_commit; [done|by repeat constructor|done|].
    repeat rx_step.
    apply rmatch_plus_class_commit; [done|by repeat constructor| |].
    { destruct a as [|y a]; [done|]. inversion Ha; subst. by apply negb_true_iff. }
    repeat rx_step.
    apply rmatch_plus_lazy_reach; [done| | |].
    { eapply Forall_impl; [exact Ha|]. intros y Hy. apply not_ws_not_terminator.
      by apply negb_true_iff. }
    { intros j y s' Hy. unfold plus. rewrite rmatch_seq. apply rmatch_char_miss.
      unfold all_in in Ha. rewrite Forall_forall in Ha. apply negb_true_iff. by apply Ha. }
    repeat rx_step.
    apply rmatch_plus_class_commit; [done|by repeat constructor|by apply digit_not_ws|].
    repeat rx_step. reflexivity. }
  split.
  - unfold group. cbn [m_groups]. rewrite lookup_insert_ne by done.
    rewrite lookup_insert_eq. unfold default, from_option, id.
    apply take_prefix; [by eexists|]. cbn [length]. lia.
  - unfold group. cbn [m_groups]. rewrite lookup_insert_eq.
    unfold default, from_option, id.
    apply (take_prefix [a1; a2; a3; a4; 45%N; a5; a6; 45%N; a7; a8]); [by eexists|].
    cbn [length]. rewrite ?length_app. cbn [length]. lia.
Qed.

(** ** Lines *)

Lemma split_lines_line (l s : jsstring) :
  Forall (λ x, x ≠ 10%N) l → split_lines (l ++ 10%N :: s) = l :: split_lines s.
Proof.
  induction 1 as [|c l Hc Hl IH]; [done|].
  cbn [app split_lines]. rewrite IH.
  destruct (c =? 10)%N eqn:E; [|done]. by apply N.eqb_eq in E.
Qed.

Lemma split_lines_last (l : jsstring) :
  Forall (λ x, x ≠ 10%N) l → split_lines l = [l].
Proof.
  induction 1 as [|c l Hc Hl IH]; [done|].
  cbn [split_lines]. rewrite IH.
  destruct (c =? 10)%N eqn:E; [|done]. by apply N.eqb_eq in E.
Qed.

Lemma join_lines_cons (l l' : jsstring) (ls : list jsstring) :
  join_lines (l :: l' :: ls) = l ++ 10%N :: join_lines (l' :: ls).
Proof. reflexivity. Qed.

(** Joining lines and splitting the text again gives the lines back. *)
Lemma split_join_lines (ls : list jsstring) :
  ls ≠ [] → Forall (Forall (λ x, x ≠ 10%N)) ls → split_lines (join_lines ls) = ls.
Proof.
  intros Hne Hls. induction Hls as [|l ls Hl Hls IH]; [done|].
  destruct ls as [|l' ls].
  - by apply split_lines_last.
  - rewrite join_lines_cons, split_lines_line by done. f_equal. by apply IH.
Qed.

(** *** The date and the author are not touched by the loop *)

Lemma line_step_date_author (year : N) (i : nat) (line : jsstring) (st st' : ParseState) :
  line_step year i line st st' →
  Types.date (ps_report st') = Types.date (ps_report st) ∧
  author (ps_report st') = author (ps_report st).
Proof.
  intros Hstep.
  destruct Hstep as [name s Hin Hname|p Hsec|m Hsec Hm|m Hsec Hm|m Hsec Hm|lastTodo Hsec Hlast|Hsec|];
    try done; by destruct (ps_section st).
Qed.

Lemma parse_lines_date_author (year : N) (lines : list jsstring) (i : nat)
    (st st' : ParseState) :
  parse_lines year i lines st = Returns st' →
  Types.date (ps_report st') = Types.date (ps_report st) ∧
  author (ps_report st') = author (ps_report st).
Proof.
  intros H.
  apply (parse_lines_invariant year
           (λ _ s, Types.date (ps_report s) = Types.date (ps_report st) ∧
                   author (ps_report s) = author (ps_report st))) in H; [done| |done].
  intros j line s s' [Hd Ha] Hstep.
  apply line_step_date_author in Hstep as [Hd' Ha']. by rewrite Hd', Ha'.
Qed.

Lemma not_ws_not_newline (a : jsstring) :
  all_in (λ x, negb (isWhiteSpace x)) a → Forall (λ x, x ≠ 10%N) a.
Proof.
  intros Ha. eapply Forall_impl; [exact Ha|]. by intros x Hx ->.
Qed.

Lemma date10_no_newline (d : jsstring) :
  is_date10 d = true → Forall (λ x, x ≠ 10%N) d.
Proof.
  intros Hd. apply Forall_forall. intros x Hx ->.
  assert (is_date d = true) as Hd' by (unfold is_date; by rewrite Hd).
  by destruct (is_date_chars d 10%N Hd' Hx).
Qed.

Section GeneratedHeader.
Variable generateScheduleLines : list ScheduleItem → list jsstring.
Variable generateTodoLines : list TodoItem → list jsstring.

(** X13: for a report whose date is of the form [YYYY-MM-DD] and whose
    author holds no white space, decoding the text that
    [generateMarkdownFromReport] writes gives the author back (the default
    name, when the author is empty), whatever the lines of the schedule and
    of the todos are; the date of the decoded report is the one passed to the
    decoder. *)
Theorem generated_header_gives_the_author_back (year : N) (date : jsstring)
    (report : DailyReport) :
  is_date10 (Types.date report) = true →
  all_in (λ x, negb (isWhiteSpace x)) (author report) →
  ∃ r, parseReportFromMarkdown year date
         (generateMarkdownFromReport generateScheduleLines generateTodoLines report)
       = Returns r ∧
       author r = or_else (author report) namae ∧ Types.date r = date.
Proof.
  intros Hd Ha.
  set (content := generateMarkdownFromReport _ _ report).
  destruct (parseReportFromMarkdown_state year date content) as (st & Hst & ->).
  eexists. split; [reflexivity|]. cbn [author Types.date with_notes].
  apply parse_lines_date_author in Hst as [-> ->].
  destruct (initial_state_lists date (split_lines content)) as (_ & _ & _ & E & _).
  split; [|exact E].
  set (a := or_else (author report) namae).
  assert (a ≠ [] ∧ all_in (λ x, negb (isWhiteSpace x)) a) as [Hne Ha'].
  { subst a. destruct (author report) as [|x s]; simpl; [|done].
    split; [done|by repeat constructor]. }
  set (hdr := js "# [" ++ nippou ++ js "] " ++ a ++ js " " ++ Types.date report).
  assert (∃ rest, split_lines content = hdr :: rest) as [rest Hsplit].
  { subst content. unfold generateMarkdownFromReport, generated_lines.
    cbn [app]. fold a. fold hdr. rewrite join_lines_cons.
    eexists. apply split_lines_line.
    subst hdr. repeat (apply Forall_app; split); try by repeat constructor.
    - by apply not_ws_not_newline.
    - by apply date10_no_newline. }
  unfold initial_state. rewrite Hsplit. cbn [head].
  destruct (exec_re_header a (Types.date report) [] Hne Ha' Hd) as (m & Hm & Hg & _).
  subst hdr. rewrite app_nil_r in Hm. rewrite Hm. simpl. exact Hg.
Qed.

End GeneratedHeader.

Lemma generated_header_gives_the_author_back_witness :
  ∃ r, parseReportFromMarkdown 2025 (js "2025-01-15")
         (generateMarkdownFromReport (λ _, []) (λ _, []) Examples.report1)
       = Returns r ∧
       author r = js "bob" ∧ Types.date r = js "2025-01-15".
Proof.
  apply (generated_header_gives_the_author_back (λ _, []) (λ _, []) 2025
           (js "2025-01-15") Examples.report1).
  - reflexivity.
  - repeat constructor.
Defined.

(** ** The notes *)

(** A section heading starts with [##]. *)
Lemma matches_section_hashes (name : string) (line : jsstring) :
  startsWith (js "##") line = false → matches (re_section name) line = false.
Proof.
  intros Hs. destruct line as [|x s]; [apply matches_section_nil|].
  destruct (decide (x = 35%N)) as [->|Hx]; [|by apply matches_section_false].
  unfold matches, re_section. cbn [seqs]. rewrite exec_bol.
  unfold match_at. change (lit_i "##") with (Rseq (chr_i 35) (Rseq (chr_i 35) Reps)).
  repeat rx_step. unfold chr_i. rewrite rmatch_char_hit by done. cbv beta.
  repeat rx_step.
  destruct s as [|y s]; [by rewrite rmatch_char_nil|].
  rewrite rmatch_char_miss; [done|].
  apply not_true_iff_false. intros H. apply toUpper_hash in H. subst y. done.
Qed.

Lemma parse_line_note (year : N) (i : nat) (st : ParseState) (line : jsstring) :
  ps_section st = SecNote → startsWith (js "##") line = false →
  parse_line year i line st = Returns (push_noteLine st line).
Proof.
  intros Hsec Hs. unfold parse_line.
  rewrite !matches_section_hashes by done. rewrite Hsec. cbn [is_todo_section andb].
  unfold schedule_block. rewrite Hsec. cbn [is_schedule_section andb].
  unfold todo_block. rewrite Hsec. cbn [is_todo_section andb].
  unfold description_block. rewrite Hsec. cbn [is_todo_section andb bind].
  unfold note_block. by rewrite Hsec, Hs.
Qed.

Lemma parse_lines_notes (year : N) (body : list jsstring) :
  Forall (λ l, startsWith (js "##") l = false) body →
  ∀ i st, ps_section st = SecNote →
    parse_lines year i body st
    = Returns (mkParseState (ps_report st) SecNote (ps_todoProject st)
                 (ps_noteLines st ++ body)).
Proof.
  induction 1 as [|l body Hl Hbody IH]; intros i st Hsec; simpl.
  - rewrite app_nil_r. destruct st; simpl in *. by subst.
  - rewrite parse_line_note by done. simpl. rewrite IH by done.
    unfold push_noteLine. simpl. by rewrite <- app_assoc.
Qed.

(** Before the NOTE heading no line is kept for the notes. *)
Lemma line_step_no_notes (year : N) (i : nat) (line : jsstring) (st st' : ParseState) :
  matches (re_section "NOTE") line = false →
  ps_section st ≠ SecNote ∧ ps_noteLines st = [] →
  line_step year i line st st' →
  ps_section st' ≠ SecNote ∧ ps_noteLines st' = [].
Proof.
  intros Hline [Hsec Hn] Hstep.
  destruct Hstep as [name s Hin Hname|p Hsec'|m Hsec' Hm|m Hsec' Hm|m Hsec' Hm
                    |lastTodo Hsec' Hlast|Hsec'|]; try done.
  simpl. split; [|done]. intros ->.
  unfold section_headings in Hin.
  rewrite !elem_of_cons, elem_of_nil in Hin.
  destruct Hin as [Hin|[Hin|[Hin|[Hin|[]]]]]; inversion Hin; subst; congruence.
Qed.

(** X14: when the heading [## [NOTE]] is the first note heading of a text
    and no line after it starts with [##], the notes of the decoded report are
    the lines after the heading, joined and trimmed. *)
Theorem notes_are_the_trimmed_text_after_the_note_heading (year : N)
    (date : jsstring) (pre body : list jsstring) :
  Forall (Forall (λ x, x ≠ 10%N)) pre → Forall (Forall (λ x, x ≠ 10%N)) body →
  Forall (λ l, matches (re_section "NOTE") l = false) pre →
  Forall (λ l, startsWith (js "##") l = false) body →
  ∃ r, parseReportFromMarkdown year date (join_lines (pre ++ js "## [NOTE]" :: body))
       = Returns r ∧
       notes r = trim (join_lines body).
Proof.
  intros Hpre Hbody Hnone Hplain.
  unfold parseReportFromMarkdown. cbv zeta.
  rewrite split_join_lines; [|by destruct pre|].
  2:{ apply Forall_app. split; [done|]. constructor; [by repeat constructor|done]. }
  set (st0 := initial_state date _).
  destruct (parse_lines_returns year pre 0%nat st0) as [st1 Hst1].
  rewrite parse_lines_app, Hst1. cbn [bind parse_lines].
  assert (ps_section st1 ≠ SecNote ∧ ps_noteLines st1 = []) as [_ Hn].
  { apply (parse_lines_invariant_in year
             (λ _ st, ps_section st ≠ SecNote ∧ ps_noteLines st = []) pre) in Hst1;
      [done| |].
    - intros i line st st' Hin. apply line_step_no_notes.
      rewrite Forall_forall in Hnone. by apply Hnone.
    - subst st0.
      destruct (initial_state_lists date (pre ++ js "## [NOTE]" :: body))
        as (_ & _ & _ & _ & -> & ->). done. }
  assert (parse_line year (0 + length pre) (js "## [NOTE]") st1
          = Returns (set_section st1 SecNote)) as ->.
  { unfold parse_line.
    assert (matches (re_section "PLAN") (js "## [NOTE]") = false) as -> by (by vm_compute).
    assert (matches (re_section "RESULT") (js "## [NOTE]") = false) as -> by (by vm_compute).
    assert (matches (re_section "TODO") (js "## [NOTE]") = false) as -> by (by vm_compute).
    assert (matches (re_section "NOTE") (js "## [NOTE]") = true) as -> by (by vm_compute).
    done. }
  cbn [bind]. rewrite parse_lines_notes by done.
  cbn [bind ps_report ps_noteLines set_section]. rewrite Hn.
  eexists. split; [reflexivity|]. done.
Qed.

Lemma notes_are_the_trimmed_text_after_the_note_heading_witness :
  ∃ r, parseReportFromMarkdown 2025 (js "2025-01-15")
         (join_lines ([js "## [TODO]"; js "- [ ] a"] ++
                      js "## [NOTE]" :: [[]; js "memo "; js " more "]))
       = Returns r ∧
       notes r = trim (join_lines [[]; js "memo "; js " more "]).
Proof.
  apply (notes_are_the_trimmed_text_after_the_note_heading 2025 (js "2025-01-15")
           [js "## [TODO]"; js "- [ ] a"] [[]; js "memo "; js " more "]).
  - repeat constructor; by vm_compute.
  - repeat constructor; by vm_compute.
  - repeat constructor; by vm_compute.
  - repeat constructor; by vm_compute.
Defined.

(** ** Before the first heading *)

Lemma line_step_no_section (year : N) (i : nat) (line : jsstring) (st st' : ParseState) :
  startsWith (js "##") line = false →
  ps_section st = NoSection → line_step year i line st st' → st' = st.
Proof.
  intros Hline Hsec Hstep.
  destruct Hstep as [name s Hin Hname|p Hsec'|m Hsec' Hm|m Hsec' Hm|m Hsec' Hm
                    |lastTodo Hsec' Hlast|Hsec'|]; try congruence.
  - by rewrite matches_section_hashes in Hname.
  - by rewrite Hsec in Hsec'.
  - by rewrite Hsec in Hsec'.
Qed.

(** X15: a text none of whose lines starts with [##] (the empty text
    among them) decodes to a report of the given date without plan, result,
    todos or notes. *)
Theorem text_without_headings_decodes_to_an_empty_report (year : N)
    (date content : jsstring) :
  Forall (λ l, startsWith (js "##") l = false) (split_lines content) →
  ∃ r, parseReportFromMarkdown year date content = Returns r ∧
    plan r = [] ∧ result r = [] ∧ todos r = [] ∧ notes r = [] ∧ Types.date r = date.
Proof.
  intros Hlines.
  destruct (parseReportFromMarkdown_state year date content) as (st & Hst & ->).
  eexists. split; [reflexivity|]. cbn [plan result todos notes Types.date with_notes].
  destruct (initial_state_lists date (split_lines content))
    as (Ep & Er & Et & Ed & En & Es).
  assert (st = initial_state date (split_lines content)) as ->.
  { apply (parse_lines_invariant_in year
             (λ _ st, st = initial_state date (split_lines content))
             (split_lines content)) in Hst; [done| |done].
    intros i line s s' Hin -> Hstep.
    apply (line_step_no_section year i line _ _); [|done|done].
    rewrite Forall_forall in Hlines. by apply Hlines. }
  rewrite Ep, Er, Et, Ed, En. by repeat split.
Qed.

Lemma text_without_headings_decodes_to_an_empty_report_witness :
  ∃ r, parseReportFromMarkdown 2025 (js "2025-01-15")
         (join_lines [js "* 09:00 [P1] design"; js "- [ ] mail"; js "# [PLAN]"])
       = Returns r ∧
    plan r = [] ∧ result r = [] ∧ todos r = [] ∧ notes r = [] ∧
    Types.date r = js "2025-01-15".
Proof.
  apply (text_without_headings_decodes_to_an_empty_report 2025 (js "2025-01-15")).
  repeat constructor; by vm_compute.
Defined.

(** ** Changing the project of an entry *)

Section ChangeProject.
Variable localeCompare : jsstring → jsstring → comparison.
Hypothesis localeCompare_times : collates_times localeCompare.

(** X16: for a collation that orders times as their code units do, on a
    list in time order whose times are [HH:MM],
    [handleChangeProject] of the timeline changes the project of the entries
    with the given id and nothing else: every entry keeps its place, its id,
    its time and its task, the list stays in time order, and the notice names
    the new project. *)
Theorem changing_the_project_keeps_every_entry_in_place (id projectCode : jsstring)
    (ty : ListType) (r : DailyReport) :
  all_HHMM (get_list ty r) → time_sorted (get_list ty r) →
  ∃ r', TimelineView.handleChangeProject localeCompare id projectCode ty (Some r)
        = (Some r', TimelineView.ProjectChanged projectCode) ∧
    get_list ty r'
    = (λ item, if str_eqb (item_id item) id
               then mkScheduleItem (item_id item) (item_time item) projectCode
                      (item_task item)
               else item) <$> get_list ty r ∧
    item_time <$> get_list ty r' = item_time <$> get_list ty r ∧
    item_id <$> get_list ty r' = item_id <$> get_list ty r ∧
    time_sorted (get_list ty r') ∧
    (∀ ty', ty' ≠ ty → get_list ty' r' = get_list ty' r) ∧
    todos r' = todos r ∧ notes r' = notes r.
Proof.
  intros Hl Hs. eexists. split; [reflexivity|].
  assert (∀ l, get_list ty (with_list ty r l) = l) as Hget by (by destruct ty).
  rewrite Hget.
  set (f := λ item, if str_eqb (item_id item) id
                    then Report.apply_updates item
                           (mkScheduleUpdates None None (Some projectCode) None)
                    else item).
  assert (∀ x, item_time (f x) = item_time x) as Htime.
  { intros x. unfold f. by destruct (str_eqb (item_id x) id). }
  assert (∀ x, item_id (f x) = item_id x) as Hid.
  { intros x. unfold f. by destruct (str_eqb (item_id x) id). }
  assert (all_HHMM (f <$> get_list ty r)) as Hl'.
  { unfold all_HHMM. apply Forall_fmap. eapply Forall_impl; [exact Hl|].
    intros x Hx. simpl. by rewrite Htime. }
  assert (time_sorted (f <$> get_list ty r)) as Hs'.
  { unfold time_sorted in *. clear Hl Hl' Hget.
    induction Hs as [|x l Hs IH Hx]; [constructor|].
    rewrite fmap_cons. constructor; [done|].
    apply Forall_fmap. eapply Forall_impl; [exact Hx|].
    intros y Hy. unfold time_le in *. simpl. by rewrite !Htime. }
  rewrite (sort_by_time_in_order localeCompare _ localeCompare_times Hl' Hs').
  split; [done|].
  split. { rewrite <- list_fmap_compose. apply list_fmap_ext. intros i x _. apply Htime. }
  split. { rewrite <- list_fmap_compose. apply list_fmap_ext. intros i x _. apply Hid. }
  split; [exact Hs'|].
  split; [intros ty' Hne; by destruct ty, ty'|]. by destruct ty.
Qed.

End ChangeProject.

Lemma changing_the_project_keeps_every_entry_in_place_witness :
  ∃ r', TimelineView.handleChangeProject lex_compare (js "p3") (js "P9") PlanList
          (Some Examples.report1)
        = (Some r', TimelineView.ProjectChanged (js "P9")) ∧
        item_id <$> get_list PlanList r' = item_id <$> get_list PlanList Examples.report1.
Proof.
  assert (collates_times lex_compare) as Hc by (intros a b _ _; reflexivity).
  destruct (changing_the_project_keeps_every_entry_in_place lex_compare Hc
              (js "p3") (js "P9") PlanList Examples.report1)
    as (r' & H & _ & _ & Hid & _).
  - repeat constructor.
  - repeat constructor; by vm_compute.
  - exists r'. split; [exact H|exact Hid].
Defined.

(** ** Grouping the todos by project *)

Lemma groupedTodos_snoc (l : list TodoItem) (t : TodoItem) :
  TodoView.groupedTodos (l ++ [t])
  = bind (TodoView.groupedTodos l) (λ a, TodoView.group_todo a t).
Proof. unfold TodoView.groupedTodos. by rewrite foldl_snoc. Qed.

Lemma groupedTodos_throws (l l' : list TodoItem) :
  TodoView.groupedTodos l = Throws → TodoView.groupedTodos (l ++ l') = Throws.
Proof.
  intros H. induction l' as [|t l' IH] using rev_ind.
  - by rewrite app_nil_r.
  - by rewrite app_assoc, groupedTodos_snoc, IH.
Qed.

Lemma groupedTodos_groups (filtered : list TodoItem) :
  Forall (λ t, todo_project t ∉ Report.Object_prototype_names) filtered →
  ∃ groups, TodoView.groupedTodos filtered = Returns groups ∧
    ∀ key, groups !! key
           = match filter (λ t, todo_project t = key) filtered with
             | [] => None
             | g => Some g
             end.
Proof.
  induction filtered as [|t l IH] using rev_ind; intros Hl.
  - exists ∅. split; [done|]. intros key. by rewrite lookup_empty.
  - apply Forall_app in Hl as [Hl Ht]. inversion Ht as [|? ? Ht' _]; subst.
    destruct (IH Hl) as (groups & Hg & Hspec).
    rewrite groupedTodos_snoc, Hg. cbn [bind]. unfold TodoView.group_todo. cbv zeta.
    rewrite (Hspec (todo_project t)).
    destruct (filter (λ t0, todo_project t0 = todo_project t) l) as [|x g] eqn:Eg.
    + rewrite bool_decide_eq_false_2 by done.
      eexists. split; [reflexivity|]. intros key.
      rewrite filter_app, filter_cons, filter_nil.
      destruct (decide (todo_project t = key)) as [<-|Hne].
      * by rewrite lookup_insert_eq, Eg.
      * rewrite lookup_insert_ne, app_nil_r by done. apply Hspec.
    + eexists. split; [reflexivity|]. intros key.
      rewrite filter_app, filter_cons, filter_nil.
      destruct (decide (todo_project t = key)) as [<-|Hne].
      * by rewrite lookup_insert_eq, Eg.
      * rewrite lookup_insert_ne, app_nil_r by done. apply Hspec.
Qed.

Lemma groupedTodos_fails (filtered : list TodoItem) :
  Exists (λ t, todo_project t ∈ Report.Object_prototype_names) filtered →
  TodoView.groupedTodos filtered = Throws.
Proof.
  induction filtered as [|t l IH] using rev_ind; intros Hex.
  - by apply Exists_nil in Hex.
  - rewrite groupedTodos_snoc.
    destruct (decide (Exists (λ t, todo_project t ∈ Report.Object_prototype_names) l))
      as [Hl|Hl].
    + by rewrite IH.
    + apply Exists_app in Hex as [Hex|Hex]; [done|].
      apply Exists_cons in Hex as [Ht|Hex]; [|by apply Exists_nil in Hex].
      apply (not_Exists_Forall _) in Hl.
      assert (filter (λ t0, todo_project t0 = todo_project t) l = []) as Hnil.
      { clear IH. induction Hl as [|x l Hx Hl IHl]; [done|].
        rewrite filter_cons_False; [exact IHl|].
        simpl in Hx. intros E. apply Hx. by rewrite E. }
      destruct (groupedTodos_groups l Hl) as (groups & -> & Hspec). cbn [bind].
      unfold TodoView.group_todo. cbv zeta. rewrite (Hspec (todo_project t)), Hnil.
      by rewrite bool_decide_eq_true_2.
Qed.

(** X17: the grouping of the shown todos by project gives, for every
    project code, the shown todos of that project in their order, as long as
    no project code is a name that an empty object inherits (as
    [constructor] or [toString]); with such a code among them the grouping
    throws. *)
Theorem grouping_by_project_fails_on_inherited_names (filtered : list TodoItem) :
  (Forall (λ t, todo_project t ∉ Report.Object_prototype_names) filtered →
   ∃ groups, TodoView.groupedTodos filtered = Returns groups ∧
     ∀ key, groups !! key
            = match filter (λ t, todo_project t = key) filtered with
              | [] => None
              | g => Some g
              end) ∧
  (Exists (λ t, todo_project t ∈ Report.Object_prototype_names) filtered →
   TodoView.groupedTodos filtered = Throws).
Proof. split; [apply groupedTodos_groups|apply groupedTodos_fails]. Qed.

Lemma grouping_by_project_fails_on_inherited_names_witness :
  TodoView.groupedTodos
    [Examples.todo1;
     mkTodoItem (js "t7") pending (js "constructor") (js "build") None None None]
  = Throws.
Proof.
  apply (grouping_by_project_fails_on_inherited_names
           [Examples.todo1;
            mkTodoItem (js "t7") pending (js "constructor") (js "build") None None None]).
  apply Exists_cons_tl, Exists_cons_hd. apply (bool_decide_unpack _). by vm_compute.
Defined.

(** ** The inline editor of a todo *)

Lemma split_lines_not_nil (s : jsstring) : split_lines s ≠ [].
Proof.
  destruct s as [|c s]; [done|]. simpl.
  destruct (c =? 10)%N; [done|]. by destruct (split_lines s).
Qed.

Lemma join_lines_push (c : N) (l : jsstring) (ls : list jsstring) :
  join_lines ((c :: l) :: ls) = c :: join_lines (l :: ls).
Proof. by destruct ls. Qed.

(** Splitting a text into lines and joining them gives the text back. *)
Lemma join_split_lines (s : jsstring) : join_lines (split_lines s) = s.
Proof.
  induction s as [|c s IH]; [done|]. cbn [split_lines].
  destruct (c =? 10)%N eqn:E.
  - apply N.eqb_eq in E as ->.
    pose proof (split_lines_not_nil s) as Hne.
    destruct (split_lines s) as [|l ls]; [done|].
    change (join_lines ([] :: l :: ls)) with (10%N :: join_lines (l :: ls)).
    by rewrite IH.
  - pose proof (split_lines_not_nil s) as Hne.
    destruct (split_lines s) as [|l ls]; [done|].
    by rewrite join_lines_push, IH.
Qed.

Lemma updateTodo_same (id : jsstring) (u : TodoUpdates) (r : DailyReport) :
  Forall (λ t, todo_id t = id → apply_todo_updates t u = t) (todos r) →
  updateTodo id u (Some r) = Some r.
Proof.
  intros H. unfold updateTodo, Report.setReport. f_equal.
  transitivity (with_todos r (todos r)); [f_equal|apply with_todos_same].
  revert H. generalize (todos r). intros l H.
  induction H as [|t l Ht Hl IH]; [done|].
  rewrite fmap_cons, IH. f_equal.
  unfold str_eqb. case_bool_decide; [by apply Ht|done].
Qed.

(** X18: starting the inline edit of a todo and saving at once leaves the
    report as it is and ends the edit, when the id of the todo is not empty,
    the task is one trimmed line, the
    description (if any) is trimmed and not empty, and the todos with the id
    of the todo are equal to it. *)
Theorem saving_an_untouched_edit_changes_nothing (t : TodoItem) (r : DailyReport) :
  todo_id t ≠ [] →
  Forall (λ x, x ≠ 10%N) (todo_task t) → trim (todo_task t) = todo_task t →
  (∀ d, todo_description t = Some d → d ≠ [] ∧ trim d = d) →
  Forall (λ t', todo_id t' = todo_id t → t' = t) (todos r) →
  TodoView.handleSaveEdit (TodoView.handleStartEdit t) (Some r)
  = (TodoView.no_edit, Some r).
Proof.
  intros Hid Htask Htrim Hdesc Hsame.
  unfold TodoView.handleSaveEdit, TodoView.handleStartEdit.
  cbn [TodoView.editingTodo TodoView.editText TodoView.editDeadline TodoView.editPriority].
  destruct (todo_id t) as [|c cs] eqn:Eid; [done|]. cbv zeta. f_equal.
  apply updateTodo_same.
  eapply Forall_impl; [exact Hsame|]. intros t' Ht' E.
  rewrite (Ht' E). clear Ht' E Hsame.
  destruct t as [tid st pr ta de dl prio].
  cbn [todo_id todo_task todo_description todo_deadline todo_priority] in *.
  unfold apply_todo_updates.
  cbn [todo_id todo_status todo_project todo_task todo_description todo_deadline
       todo_priority tupd_id tupd_status tupd_project tupd_task tupd_description
       tupd_deadline tupd_priority default from_option id].
  destruct de as [[|x d]|].
  - by destruct (Hdesc [] eq_refl).
  - destruct (Hdesc (x :: d) eq_refl) as [_ Hd].
    rewrite split_lines_line by done. cbn [head tail].
    unfold TodoView.description_of. cbn [tail from_option].
    unfold id. rewrite join_split_lines, Hd, Htrim. done.
  - rewrite split_lines_last by done. cbn [head].
    unfold TodoView.description_of. cbn [tail join_lines from_option].
    unfold id. change (trim []) with (@nil N). by rewrite Htrim.
Qed.

Lemma saving_an_untouched_edit_changes_nothing_witness :
  TodoView.handleSaveEdit (TodoView.handleStartEdit Examples.todo2)
    (Some Examples.report1)
  = (TodoView.no_edit, Some Examples.report1).
Proof.
  apply (saving_an_untouched_edit_changes_nothing Examples.todo2 Examples.report1).
  - done.
  - repeat constructor; by vm_compute.
  - by vm_compute.
  - intros d [= <-]. split; [done|by vm_compute].
  - repeat constructor; by vm_compute.
Defined.

(** ** The tabs of the todo panel *)

Lemma filteredTodos_status (s : jsstring) (l : list TodoItem) :
  s ≠ js "all" →
  TodoView.filteredTodos s l = filter (λ t, TodoView.status_is s t = true) l.
Proof.
  intros Hs. unfold TodoView.filteredTodos. apply list_filter_iff. intros t.
  unfold str_eqb at 1. rewrite (bool_decide_eq_false_2 _ Hs). simpl.
  by rewrite negb_involutive.
Qed.

Lemma status_is_known (t : TodoItem) :
  known_status (todo_status t) →
  ((if TodoView.status_is (js "pending") t then 1 else 0)
   + (if TodoView.status_is (js "in_progress") t then 1 else 0)
   + (if TodoView.status_is (js "completed") t then 1 else 0)
   + (if TodoView.status_is (js "on_hold") t then 1 else 0) = 1)%nat.
Proof.
  unfold TodoView.status_is. intros [-> | [-> | [-> | ->]]]; by vm_compute.
Qed.

Lemma length_filter_cons {A} (P : A → Prop) `{!∀ x, Decision (P x)} (x : A) (l : list A) :
  length (filter P (x :: l))
  = ((if bool_decide (P x) then 1 else 0) + length (filter P l))%nat.
Proof. rewrite filter_cons. by case_bool_decide; case_decide. Qed.

Lemma bool_decide_is_true (b : bool) : bool_decide (b = true) = b.
Proof. by destruct b. Qed.

(** X19: the count on each tab of the todo panel is the length of the
    list that the tab shows; the todos shown are todos of the report, of a
    selected project when a project is selected; and when every todo has one
    of the four statuses the count of [all] is the sum of the other four. *)
Theorem tab_counts_match_the_lists (selectedProjects : list jsstring)
    (allTodos : list TodoItem) :
  let shown := TodoView.projectFilteredTodos selectedProjects allTodos in
  let c := TodoView.counts shown in
  length (TodoView.filteredTodos (js "all") shown) = TodoView.count_all c ∧
  length (TodoView.filteredTodos (js "pending") shown) = TodoView.count_pending c ∧
  length (TodoView.filteredTodos (js "in_progress") shown) = TodoView.count_in_progress c ∧
  length (TodoView.filteredTodos (js "completed") shown) = TodoView.count_completed c ∧
  length (TodoView.filteredTodos (js "on_hold") shown) = TodoView.count_on_hold c ∧
  shown `sublist_of` allTodos ∧
  (selectedProjects ≠ [] → Forall (λ t, todo_project t ∈ selectedProjects) shown) ∧
  (Forall (λ t, known_status (todo_status t)) allTodos →
   TodoView.count_all c
   = (TodoView.count_pending c + TodoView.count_in_progress c
      + TodoView.count_completed c + TodoView.count_on_hold c)%nat).
Proof.
  intros shown c.
  split.
  { unfold TodoView.filteredTodos. simpl. f_equal. apply filter_all.
    apply Forall_forall. intros t _. by vm_compute. }
  do 4 (split; [by rewrite filteredTodos_status by (by vm_compute)|]).
  assert (shown `sublist_of` allTodos) as Hsub.
  { subst shown. unfold TodoView.projectFilteredTodos. case_bool_decide; [|done].
    apply sublist_filter. }
  split; [exact Hsub|]. split.
  - intros Hne. subst shown. unfold TodoView.projectFilteredTodos.
    rewrite bool_decide_eq_true_2 by (destruct selectedProjects; [done|simpl; lia]).
    apply Forall_forall. intros t Ht. by apply list_elem_of_filter in Ht as [Ht _].
  - intros Hk.
    assert (Forall (λ t, known_status (todo_status t)) shown) as Hk'.
    { apply Forall_forall. intros t Ht. rewrite Forall_forall in Hk. apply Hk.
      by eapply elem_of_sublist. }
    subst c. unfold TodoView.counts. simpl. clear Hsub.
    induction Hk' as [|t l Ht Hl IH]; [done|].
    rewrite !length_filter_cons. cbn [length]. rewrite IH.
    pose proof (status_is_known t Ht) as E.
    rewrite !bool_decide_is_true.
    destruct (TodoView.status_is (js "pending") t),
             (TodoView.status_is (js "in_progress") t),
             (TodoView.status_is (js "completed") t),
             (TodoView.status_is (js "on_hold") t); simpl in E |- *; lia.
Qed.

Lemma tab_counts_match_the_lists_witness :
  TodoView.count_all
    (TodoView.counts (TodoView.projectFilteredTodos [js "P34"] (todos Examples.report1)))
  = (TodoView.count_pending
       (TodoView.counts (TodoView.projectFilteredTodos [js "P34"] (todos Examples.report1)))
     + TodoView.count_in_progress
         (TodoView.counts (TodoView.projectFilteredTodos [js "P34"] (todos Examples.report1)))
     + TodoView.count_completed
         (TodoView.counts (TodoView.projectFilteredTodos [js "P34"] (todos Examples.report1)))
     + TodoView.count_on_hold
         (TodoView.counts (TodoView.projectFilteredTodos [js "P34"] (todos Examples.report1))))%nat.
Proof.
  destruct (tab_counts_match_the_lists [js "P34"] (todos Examples.report1))
    as (_ & _ & _ & _ & _ & _ & _ & H).
  apply H. constructor; [by right; right; left|].
  constructor; [by left|constructor].
Defined.

(** ** The project filter *)

(** X20: [handleToggleProject] flips the membership of the project code
    in the selection and of no other code, and keeps a selection free of
    repetitions free of them; toggling twice gives the selection back, in its
    order when the code was not selected and up to order otherwise. *)
Theorem toggling_a_project_flips_its_membership (projectCode : jsstring)
    (prev : list jsstring) :
  let next := Dashboard.handleToggleProject projectCode prev in
  (projectCode ∈ next ↔ projectCode ∉ prev) ∧
  (∀ c, c ≠ projectCode → (c ∈ next ↔ c ∈ prev)) ∧
  (NoDup prev → NoDup next) ∧
  (projectCode ∉ prev → Dashboard.handleToggleProject projectCode next = prev) ∧
  (NoDup prev → Dashboard.handleToggleProject projectCode next ≡ₚ prev).
Proof.
  intros next. subst next. unfold Dashboard.handleToggleProject.
  assert (projectCode ∉ prev →
          filter (λ c, c ≠ projectCode) (prev ++ [projectCode]) = prev) as Hback.
  { intros Hnot. rewrite filter_app, filter_cons_False, filter_nil, app_nil_r by tauto.
    apply filter_all. apply Forall_forall. by intros c Hc ->. }
  case_bool_decide as Hin.
  - split. { rewrite list_elem_of_filter. tauto. }
    split. { intros c Hc. rewrite list_elem_of_filter. tauto. }
    split. { intros Hnd. by apply NoDup_filter. }
    split; [done|].
    intros Hnd. rewrite bool_decide_eq_false_2 by (rewrite list_elem_of_filter; tauto).
    apply list_elem_of_split in Hin as (l1 & l2 & ->).
    apply NoDup_app in Hnd as (Hnd1 & Hnot & Hnd2).
    apply NoDup_cons in Hnd2 as [Hnot2 Hnd2].
    rewrite filter_app, filter_cons_False by tauto.
    rewrite !filter_all.
    + rewrite <- app_assoc. apply Permutation_app_head.
      by rewrite <- Permutation_cons_append.
    + apply Forall_forall. by intros c Hc ->.
    + apply Forall_forall. intros c Hc ->. apply (Hnot projectCode Hc).
      apply list_elem_of_here.
  - split. { rewrite elem_of_app, list_elem_of_singleton. tauto. }
    split. { intros c Hc. rewrite elem_of_app, list_elem_of_singleton. tauto. }
    split.
    { intros Hnd. apply NoDup_app. split; [done|]. split; [|apply NoDup_singleton].
      intros c Hc Hc'. apply list_elem_of_singleton in Hc'. by subst. }
    assert (Dashboard.handleToggleProject projectCode (prev ++ [projectCode]) = prev)
      as Htwice.
    { unfold Dashboard.handleToggleProject.
      rewrite bool_decide_eq_true_2
        by (rewrite elem_of_app, list_elem_of_singleton; tauto).
      by apply Hback. }
    unfold Dashboard.handleToggleProject in Htwice.
    split; [intros _; exact Htwice|]. intros _. by rewrite Htwice.
Qed.

Lemma toggling_a_project_flips_its_membership_witness :
  Dashboard.handleToggleProject (js "P2")
    (Dashboard.handleToggleProject (js "P2") [js "P1"; js "P3"])
  = [js "P1"; js "P3"].
Proof.
  destruct (toggling_a_project_flips_its_membership (js "P2") [js "P1"; js "P3"])
    as (_ & _ & _ & H & _).
  apply H. intros Hin.
  repeat (apply elem_of_cons in Hin as [Hin|Hin]; [discriminate Hin|]).
  by apply elem_of_nil in Hin.
Defined.

(** ** The routine items *)

Section RoutineFacts.
Context {RoutineItem : Type}.
Variable routine_category : RoutineItem → option jsstring.
Variable routine_time : RoutineItem → option jsstring.


(** X21: [handleApplyRoutine] sorts no routine item into both the plan
    items and the todo items; an item without category goes to one of them,
    and an item whose category is neither [plan] nor [todo] goes to neither,
    so it is not imported. *)
Theorem routine_items_are_imported_at_most_once (items : list RoutineItem) :
  let planItems := Dashboard.planItems routine_category routine_time items in
  let todoItems := Dashboard.todoItems routine_category routine_time items in
  (∀ r, r ∈ planItems → r ∉ todoItems) ∧
  (∀ r, r ∈ items → Dashboard.truthy_string (routine_category r) = false →
        r ∈ planItems ∨ r ∈ todoItems) ∧
  (∀ r c, r ∈ items → routine_category r = Some c →
          c ≠ [] → c ≠ js "plan" → c ≠ js "todo" →
          (r ∉ planItems) ∧ (r ∉ todoItems)) ∧
  (length planItems + length todoItems ≤ length items)%nat.
Proof.
  cbv zeta.
  assert (∀ r, Dashboard.for_plan routine_category routine_time r = true →
               Dashboard.for_todo routine_category routine_time r = true → False) as Hex.
  { intros r. unfold Dashboard.for_plan, Dashboard.for_todo.
    destruct (routine_category r) as [[|x c]|]; destruct (routine_time r) as [[|y t]|];
      simpl; repeat case_bool_decide; try done;
      match goal with H1 : ?s = Some (js "plan"), H2 : ?s = Some (js "todo") |- _ =>
        rewrite H1 in H2; discriminate H2 end. }
  split; [|split; [|split]].
  - intros r Hp Ht. apply list_elem_of_filter in Hp as [Hp _].
    apply list_elem_of_filter in Ht as [Ht _]. by apply (Hex r).
  - intros r Hin Hc. unfold Dashboard.planItems, Dashboard.todoItems.
    rewrite !list_elem_of_filter.
    unfold Dashboard.for_plan, Dashboard.for_todo.
    rewrite Hc. simpl.
    assert (bool_decide (routine_category r = Some (js "plan")) = false) as ->.
    { apply bool_decide_eq_false_2. intros E. rewrite E in Hc. discriminate Hc. }
    assert (bool_decide (routine_category r = Some (js "todo")) = false) as ->.
    { apply bool_decide_eq_false_2. intros E. rewrite E in Hc. discriminate Hc. }
    simpl. destruct (routine_time r) as [[|y t]|]; simpl; auto.
  - intros r c Hin Hc Hne Hp Ht. unfold Dashboard.planItems, Dashboard.todoItems.
    rewrite !list_elem_of_filter.
    unfold Dashboard.for_plan, Dashboard.for_todo.
    rewrite Hc. destruct c as [|x c]; [done|]. simpl.
    rewrite !bool_decide_eq_false_2 by congruence. simpl. split; intros [? _]; done.
  - unfold Dashboard.planItems, Dashboard.todoItems.
    induction items as [|r items IH]; [done|].
    rewrite !filter_cons. cbn [length].
    destruct (decide (Dashboard.for_plan routine_category routine_time r = true)) as [Hp|Hp];
      destruct (decide (Dashboard.for_todo routine_category routine_time r = true)) as [Ht|Ht];
      cbn [length]; try lia.
    by destruct (Hex r).
Qed.

End RoutineFacts.

(** A routine item as the pair of its category and its time. *)
Lemma routine_items_are_imported_at_most_once_witness :
  let r := (Some (js "memo"), Some (js "09:00")) in
  (r ∉ Dashboard.planItems fst snd [r]) ∧ (r ∉ Dashboard.todoItems fst snd [r]).
Proof.
  intros r.
  destruct (routine_items_are_imported_at_most_once fst snd [r]) as (_ & _ & H & _).
  apply (H r (js "memo")).
  - apply list_elem_of_here.
  - reflexivity.
  - discriminate.
  - discriminate.
  - discriminate.
Defined.

(** ** The registry of unsaved reports *)

Lemma map_get_set_eq (key : jsstring) (v : UnsavedReport) (m : ReportMap) :
  map_get key (map_set key v m) = Some v.
Proof.
  induction m as [|[k w] m IH]; simpl.
  - unfold str_eqb. by rewrite bool_decide_eq_true_2.
  - destruct (str_eqb k key) eqn:E; simpl.
    + unfold str_eqb. by rewrite bool_decide_eq_true_2.
    + by rewrite E.
Qed.

Lemma map_get_set_ne (key key' : jsstring) (v : UnsavedReport) (m : ReportMap) :
  key' ≠ key → map_get key' (map_set key v m) = map_get key' m.
Proof.
  intros Hne. induction m as [|[k w] m IH]; simpl.
  - unfold str_eqb. by rewrite bool_decide_eq_false_2.
  - destruct (str_eqb k key) eqn:E; simpl.
    + apply bool_decide_eq_true in E as ->.
      unfold str_eqb. by rewrite !bool_decide_eq_false_2.
    + by rewrite IH.
Qed.

Lemma map_get_delete_eq (key : jsstring) (m : ReportMap) :
  map_get key (map_delete key m) = None.
Proof.
  unfold map_delete. induction m as [|[k w] m IH]; [done|].
  rewrite filter_cons. simpl. case_decide as E; [|done].
  simpl. unfold str_eqb. by rewrite bool_decide_eq_false_2.
Qed.

Lemma map_get_delete_ne (key key' : jsstring) (m : ReportMap) :
  key' ≠ key → map_get key' (map_delete key m) = map_get key' m.
Proof.
  intros Hne. unfold map_delete. induction m as [|[k w] m IH]; [done|].
  rewrite filter_cons. simpl. case_decide as E; simpl.
  - by rewrite IH.
  - simpl in E. subst k. unfold str_eqb.
    by rewrite bool_decide_eq_false_2.
Qed.

Lemma map_get_Some (key : jsstring) (m : ReportMap) :
  is_Some (map_get key m) ↔ key ∈ m.*1.
Proof.
  induction m as [|[k w] m IH]; simpl.
  - rewrite elem_of_nil. split; [by intros [? ?]|done].
  - rewrite elem_of_cons. unfold str_eqb. case_bool_decide as E; simpl.
    + split; [by left|by eexists].
    + rewrite IH. split; [by right|]. intros [->|H]; done.
Qed.

Lemma map_set_keys (key : jsstring) (v : UnsavedReport) (m : ReportMap) :
  (map_set key v m).*1 = if bool_decide (key ∈ m.*1) then m.*1 else m.*1 ++ [key].
Proof.
  induction m as [|[k w] m IH]; [done|].
  cbn [map_set]. unfold str_eqb. destruct (decide (k = key)) as [->|E].
  - rewrite bool_decide_eq_true_2 by done. cbn [fmap list_fmap fst].
    by rewrite bool_decide_eq_true_2 by apply list_elem_of_here.
  - rewrite bool_decide_eq_false_2 by done. rewrite !fmap_cons, IH. cbn [fst].
    destruct (decide (key ∈ m.*1)) as [Hin|Hin].
    + rewrite !bool_decide_eq_true_2; [done|by apply list_elem_of_further|done].
    + rewrite !bool_decide_eq_false_2; [done| |done].
      intros [->|H]%elem_of_cons; done.
Qed.

Lemma map_delete_keys (key : jsstring) (m : ReportMap) :
  (map_delete key m).*1 = filter (λ k, k ≠ key) m.*1.
Proof.
  unfold map_delete. induction m as [|[k w] m IH]; [done|].
  rewrite fmap_cons, !filter_cons. simpl. case_decide; by rewrite ?fmap_cons, IH.
Qed.

(** X22: in every registry that [setUnsavedReport] and
    [clearUnsavedReport] can build from the empty one, each date is listed at
    most once, every record is stored under its own date and holds two
    different texts, and the three queries agree: a date has unsaved changes
    exactly when it is listed, exactly when its record can be got. *)
Theorem unsaved_registry_lists_each_changed_date_once (m : ReportMap) :
  reachable m →
  NoDup (unsavedDates m) ∧
  Forall (λ kv, unsaved_date kv.2 = kv.1 ∧ originalMarkdown kv.2 ≠ currentMarkdown kv.2) m ∧
  (∀ date, hasUnsavedChangesForDate date m = true ↔ date ∈ unsavedDates m) ∧
  (∀ date, hasUnsavedChangesForDate date m = true ↔
           ∃ u, getUnsavedReport date m = Some u ∧ unsaved_date u = date ∧
                originalMarkdown u ≠ currentMarkdown u) ∧
  (hasUnsavedChanges m = true ↔ unsavedDates m ≠ []).
Proof.
  intros Hm.
  assert (NoDup m.*1 ∧
          Forall (λ kv, unsaved_date kv.2 = kv.1 ∧
                        originalMarkdown kv.2 ≠ currentMarkdown kv.2) m) as [Hnd Hall].
  { induction Hm as [|date report original current m Hm [IH1 IH2]|date m Hm [IH1 IH2]].
    - split; constructor.
    - unfold setUnsavedReport, str_eqb. case_bool_decide as E.
      + split; [rewrite map_delete_keys; by apply NoDup_filter|].
        unfold map_delete. apply Forall_forall. intros kv Hkv.
        apply list_elem_of_filter in Hkv as [_ Hkv].
        rewrite Forall_forall in IH2. by apply IH2.
      + split.
        * rewrite map_set_keys. case_bool_decide as Hin; [done|].
          apply NoDup_app. split; [done|]. split; [|apply NoDup_singleton].
          intros k Hk Hk'. apply list_elem_of_singleton in Hk'. by subst.
        * clear IH1 Hm. induction IH2 as [|[k w] m Hkw Hm IH]; simpl.
          -- by repeat constructor.
          -- destruct (str_eqb k date); constructor; done.
    - unfold clearUnsavedReport.
      split; [rewrite map_delete_keys; by apply NoDup_filter|].
      unfold map_delete. apply Forall_forall. intros kv Hkv.
      apply list_elem_of_filter in Hkv as [_ Hkv].
      rewrite Forall_forall in IH2. by apply IH2. }
  split; [exact Hnd|]. split; [exact Hall|].
  assert (∀ date, hasUnsavedChangesForDate date m = true ↔ date ∈ unsavedDates m) as Hhas.
  { intros date. unfold hasUnsavedChangesForDate, unsavedDates.
    rewrite bool_decide_eq_true. apply map_get_Some. }
  split; [exact Hhas|]. split.
  - intros date. unfold hasUnsavedChangesForDate, getUnsavedReport.
    rewrite bool_decide_eq_true. split.
    + intros [u Hu]. exists u. split; [done|].
      clear Hnd Hhas Hm. induction Hall as [|[k w] m Hkw Hall IH]; [done|].
      simpl in Hu. unfold str_eqb in Hu. case_bool_decide as E.
      * injection Hu as <-. subst k. simpl in Hkw. tauto.
      * by apply IH.
    + intros (u & Hu & _). by eexists.
  - unfold hasUnsavedChanges, unsavedDates. rewrite bool_decide_eq_true.
    destruct m; simpl; split; try done; try lia.
Qed.

Lemma unsaved_registry_lists_each_changed_date_once_witness :
  NoDup (unsavedDates
           (setUnsavedReport (js "2025-01-16") Examples.report2 [] (js "x")
              (setUnsavedReport (js "2025-01-15") Examples.report1 [] (js "y") []))).
Proof.
  destruct (unsaved_registry_lists_each_changed_date_once
              (setUnsavedReport (js "2025-01-16") Examples.report2 [] (js "x")
                 (setUnsavedReport (js "2025-01-15") Examples.report1 [] (js "y") [])))
    as (H & _).
  - do 2 apply reach_set. apply reach_empty.
  - exact H.
Defined.

Section Registration.
Variable generateScheduleLines : list ScheduleItem → list jsstring.
Variable generateTodoLines : list TodoItem → list jsstring.

Lemma generateMarkdownFromReport_not_empty (r : DailyReport) :
  generateMarkdownFromReport generateScheduleLines generateTodoLines r ≠ [].
Proof.
  unfold generateMarkdownFromReport, generated_lines. cbn [app].
  rewrite join_lines_cons. done.
Qed.

(** X23: the text of a report is never empty, so the effect of the
    dashboard always registers a dirty report under the current date, leaving
    the records of the other dates alone; clearing the date removes it again;
    and right after a change of date the effect registers nothing. *)
Theorem a_dirty_report_is_registered_until_it_is_saved (date : jsstring)
    (r : DailyReport) (m : ReportMap) :
  let text := generateMarkdownFromReport generateScheduleLines generateTodoLines r in
  let m' := register_dirty generateScheduleLines generateTodoLines false true date
              (Some r) m in
  text ≠ [] ∧
  getUnsavedReport date m' = Some (mkUnsavedReport date r [] text) ∧
  hasUnsavedChangesForDate date m' = true ∧
  hasUnsavedChanges m' = true ∧
  (∀ date', date' ≠ date → getUnsavedReport date' m' = getUnsavedReport date' m) ∧
  getUnsavedReport date (clearUnsavedReport date m') = None ∧
  (∀ date', date' ≠ date →
     getUnsavedReport date' (clearUnsavedReport date m') = getUnsavedReport date' m) ∧
  register_dirty generateScheduleLines generateTodoLines true true date (Some r) m = m.
Proof.
  intros text m'.
  pose proof (generateMarkdownFromReport_not_empty r) as Hne. fold text in Hne.
  assert (m' = map_set date (mkUnsavedReport date r [] text) m) as ->.
  { subst m'. unfold register_dirty, setUnsavedReport, str_eqb. fold text.
    rewrite bool_decide_eq_false_2; [done|]. by intros E. }
  split; [exact Hne|].
  assert (getUnsavedReport date (map_set date (mkUnsavedReport date r [] text) m)
          = Some (mkUnsavedReport date r [] text)) as Hget by apply map_get_set_eq.
  split; [exact Hget|].
  split. { unfold hasUnsavedChangesForDate. unfold getUnsavedReport in Hget.
           rewrite Hget. by apply bool_decide_eq_true_2. }
  split. { unfold hasUnsavedChanges. apply bool_decide_eq_true_2.
           destruct m as [|[k w] m]; simpl; [lia|]. destruct (str_eqb k date); simpl; lia. }
  split. { intros date' Hd. by apply map_get_set_ne. }
  split. { apply map_get_delete_eq. }
  split; [|done].
  intros date' Hd. unfold getUnsavedReport, clearUnsavedReport.
  rewrite map_get_delete_ne by done. by apply map_get_set_ne.
Qed.

End Registration.

Lemma a_dirty_report_is_registered_until_it_is_saved_witness :
  getUnsavedReport (js "2025-01-16")
    (register_dirty (λ _, []) (λ _, []) false true (js "2025-01-15")
       (Some Examples.report1) [])
  = getUnsavedReport (js "2025-01-16") [].
Proof.
  destruct (a_dirty_report_is_registered_until_it_is_saved (λ _, []) (λ _, [])
              (js "2025-01-15") Examples.report1 []) as (_ & _ & _ & _ & H & _).
  apply H. discriminate.
Defined.

(** ** The deadlines *)

Lemma search_from_sound (r : regex) (s : jsstring) (m : match_result) :
  ∀ i, search_from r i s = Some m →
       ∃ pre suf, s = pre ++ suf ∧ match_at r (i + length pre) suf = Some m.
Proof.
  induction s as [|x s IH]; intros i; simpl.
  - destruct (match_at r i []) eqn:E; [|done].
    intros [= <-]. exists [], []. by rewrite Nat.add_0_r.
  - destruct (match_at r i (x :: s)) eqn:E.
    + intros [= <-]. exists [], (x :: s). by rewrite Nat.add_0_r.
    + intros H. apply IH in H as (pre & suf & -> & H).
      exists (x :: pre), suf. split; [done|]. simpl. by rewrite <- Nat.add_succ_comm.
Qed.

Lemma is_date10_parts (a b c : jsstring) :
  length a = 4%nat → all_in isDigit a → length b = 2%nat → all_in isDigit b →
  length c = 2%nat → all_in isDigit c →
  is_date10 (a ++ js "-" ++ b ++ js "-" ++ c) = true.
Proof.
  intros La Ha Lb Hb Lc Hc.
  destruct a as [|a1 [|a2 [|a3 [|a4 [|]]]]]; try done.
  destruct b as [|b1 [|b2 [|]]]; try done. destruct c as [|c1 [|c2 [|]]]; try done.
  unfold all_in in *.
  repeat match goal with H : Forall _ (_ :: _) |- _ => inversion H; clear H; subst end.
  unfold is_date10. simpl. unfold isDash.
  repeat match goal with H : isDigit _ = true |- _ => rewrite H; clear H end. done.
Qed.

Lemma is_date5_parts (b c : jsstring) :
  length b = 2%nat → all_in isDigit b → length c = 2%nat → all_in isDigit c →
  is_date5 (b ++ js "-" ++ c) = true.
Proof.
  intros Lb Hb Lc Hc.
  destruct b as [|b1 [|b2 [|]]]; try done. destruct c as [|c1 [|c2 [|]]]; try done.
  unfold all_in in *.
  repeat match goal with H : Forall _ (_ :: _) |- _ => inversion H; clear H; subst end.
  unfold is_date5. simpl. unfold isDash.
  repeat match goal with H : isDigit _ = true |- _ => rewrite H; clear H end. done.
Qed.

(** What the date pattern takes is a date token, which it stores as the
    first group. *)
Lemma rx_run_re_date i s c j s' c' :
  rx_run re_date i s c j s' c' →
  ∃ d, is_date d = true ∧ s = d ++ s' ∧ c' = <[1%nat := d]> c.
Proof.
  unfold re_date. intros H. apply rx_run_group in H as (c0 & H & ->).
  apply rx_run_alt in H as [H|H]; cbn [seqs] in H; unfold digit in H; run_inv;
    took_subst.
  - exists (d ++ js "-" ++ d0 ++ js "-" ++ d1).
    split; [unfold is_date; by rewrite is_date10_parts|].
    split; [by rewrite <- ?app_assoc|]. f_equal.
    apply take_prefix; [eexists; rewrite <- ?app_assoc; reflexivity|].
    rewrite ?length_app. simpl. lia.
  - exists (d ++ js "-" ++ d0).
    split; [unfold is_date; rewrite is_date5_parts by done; apply orb_true_r|].
    split; [by rewrite <- ?app_assoc|]. f_equal.
    apply take_prefix; [eexists; rewrite <- ?app_assoc; reflexivity|].
    rewrite ?length_app. simpl. lia.
Qed.

Lemma extract_deadline_sound (text d rest : jsstring) :
  extract_deadline text = (Some d, rest) → is_date d = true.
Proof.
  unfold extract_deadline.
  destruct (exec re_deadline_end text) as [m|] eqn:Eend.
  - intros [= <- _]. unfold exec in Eend.
    apply search_from_sound in Eend as (pre & suf & _ & H).
    unfold match_at in H. apply rmatch_sound in H as (j & s' & c' & Hrun & [= <-]).
    unfold re_deadline_end in Hrun. cbn [seqs] in Hrun. unfold star, ws in Hrun.
    apply rx_run_seq in Hrun as (? & ? & ? & H1 & Hrun).
    apply rx_run_seq in Hrun as (? & ? & ? & H2 & Hrun).
    apply rx_run_seq in Hrun as (? & ? & ? & H3 & Hrun).
    apply rx_run_re_date in H3 as (d & Hd & _ & ->).
    apply rx_run_eol in Hrun as [_ (_ & _ & ->)].
    unfold group. cbn [m_groups]. by rewrite lookup_insert_eq.
  - destruct (exec re_deadline_start text) as [m|] eqn:Estart; [|done].
    intros [= <- _]. unfold exec in Estart.
    apply search_from_sound in Estart as (pre & suf & _ & H).
    unfold match_at in H. apply rmatch_sound in H as (j & s' & c' & Hrun & [= <-]).
    unfold re_deadline_start in Hrun. cbn [seqs] in Hrun. unfold star, ws in Hrun.
    apply rx_run_seq in Hrun as (? & ? & ? & H1 & Hrun).
    apply rx_run_seq in Hrun as (? & ? & ? & H2 & Hrun).
    apply rx_run_seq in Hrun as (? & ? & ? & H3 & Hrun).
    apply rx_run_re_date in H3 as (d & Hd & _ & ->).
    apply rx_run_star_class in Hrun as (w & _ & (_ & _ & ->)).
    unfold group. cbn [m_groups]. by rewrite lookup_insert_eq.
Qed.

Lemma decode_todo_deadline (year : N) (i : nat) (cur : jsstring) (m : match_result) :
  decoded_deadline year (todo_deadline (decode_todo year i cur m)).
Proof.
  unfold decode_todo.
  destruct (extract_project cur (group 2 m)) as [todoProject t1].
  destruct (extract_priority t1) as [priority t2].
  destruct (extract_deadline t2) as [[d|] t3] eqn:E; [|done].
  apply extract_deadline_sound in E. cbn [todo_deadline].
  apply orb_prop in E as [E|E].
  - rewrite complete_year_long.
    + by left.
    + apply andb_prop in E as [E _]. apply bool_decide_eq_true in E. lia.
  - rewrite complete_year_short.
    + right. by exists d.
    + apply andb_prop in E as [E _]. by apply bool_decide_eq_true in E.
Qed.

Lemma line_step_deadlines (year : N) (i : nat) (line : jsstring) (st st' : ParseState) :
  Forall (λ t, decoded_deadline year (todo_deadline t)) (todos (ps_report st)) →
  line_step year i line st st' →
  Forall (λ t, decoded_deadline year (todo_deadline t)) (todos (ps_report st')).
Proof.
  intros Ht Hstep.
  destruct Hstep as [name s Hin Hname|p Hsec|m Hsec Hm|m Hsec Hm|m Hsec Hm
                    |lastTodo Hsec Hlast|Hsec|]; try done.
  - by destruct (ps_section st).
  - by destruct (ps_section st).
  - cbn [ps_report set_report todos with_todos]. apply Forall_app. split; [done|].
    constructor; [|constructor]. apply decode_todo_deadline.
  - cbn [ps_report set_report todos with_todos]. apply Forall_insert; [done|].
    simpl. rewrite Forall_forall in Ht. apply Ht. by eapply list_elem_of_lookup_2.
Qed.

Lemma four_digits_table : forallb four_digits_ok (seq 1000 (9 * 1000)) = true.
Proof. by vm_compute. Qed.

Lemma year_numeral (year : N) :
  (1000 ≤ year ≤ 9999)%N →
  length (String_of_Z (Z.of_N year)) = 4%nat ∧ all_in isDigit (String_of_Z (Z.of_N year)).
Proof.
  intros Hy. split; [|apply String_of_N_digits].
  pose proof four_digits_table as T. rewrite forallb_forall in T.
  specialize (T (N.to_nat year)).
  assert (In (N.to_nat year) (seq 1000 (9 * 1000))) as Hin by (apply in_seq; lia).
  apply T in Hin. unfold four_digits_ok in Hin. apply bool_decide_eq_true in Hin.
  by rewrite N_nat_Z in Hin.
Qed.

(** X12: the deadline of a decoded todo, when there is one, is a date
    [YYYY-MM-DD] as written, or a written [MM-DD] behind the given year and a
    hyphen; for a year of four digits every deadline is of the form
    [YYYY-MM-DD]. *)
Theorem decoded_deadlines_are_dates (year : N) (date content : jsstring) :
  ∃ r, parseReportFromMarkdown year date content = Returns r ∧
    Forall (λ t, decoded_deadline year (todo_deadline t)) (todos r) ∧
    ((1000 ≤ year ≤ 9999)%N →
     Forall (λ t, ∀ d, todo_deadline t = Some d → is_date10 d = true) (todos r)).
Proof.
  destruct (parseReportFromMarkdown_state year date content) as (st & Hst & ->).
  eexists. split; [reflexivity|]. cbn [todos with_notes].
  destruct (initial_state_lists date (split_lines content)) as (_ & _ & Et & _).
  assert (Forall (λ t, decoded_deadline year (todo_deadline t)) (todos (ps_report st)))
    as Hd.
  { apply (parse_lines_invariant year
             (λ _ st, Forall (λ t, decoded_deadline year (todo_deadline t))
                        (todos (ps_report st)))
             (λ i line st st', line_step_deadlines year i line st st')
             (split_lines content) 0%nat
             (initial_state date (split_lines content)) st); [|exact Hst].
    by rewrite Et. }
  split; [exact Hd|]. intros Hy.
  destruct (year_numeral year Hy) as [Hlen Hdig].
  eapply Forall_impl; [exact Hd|]. intros t Ht d E.
  unfold decoded_deadline in Ht. rewrite E in Ht.
  destruct Ht as [H10|(d5 & H5 & ->)]; [done|].
  apply is_date5_inv in H5 as (a1 & a2 & a3 & a4 & -> & ? & ? & ? & ?).
  apply (is_date10_parts _ [a1; a2] [a3; a4]); try done; by repeat constructor.
Qed.

Lemma decoded_deadlines_are_dates_witness :
  ∃ r, parseReportFromMarkdown 2025 (js "2025-01-15")
         (join_lines [js "## [TODO]"; js "- [ ] mail @01-31"]) = Returns r ∧
       Forall (λ t, ∀ d, todo_deadline t = Some d → is_date10 d = true) (todos r).
Proof.
  destruct (decoded_deadlines_are_dates 2025 (js "2025-01-15")
              (join_lines [js "## [TODO]"; js "- [ ] mail @01-31"]))
    as (r & Hr & _ & H).
  exists r. split; [exact Hr|]. apply H. lia.
Defined.

(** ** Adding an entry and deleting it again *)

Section AddDelete.
Variable localeCompare : jsstring → jsstring → comparison.

Lemma filter_insert_by_time (P : ScheduleItem → Prop) `{!∀ x, Decision (P x)}
    (x : ScheduleItem) (l : list ScheduleItem) :
  P x →
  Forall (λ y, P y → localeCompare (item_time x) (item_time y) ≠ Gt) l →
  filter P (insert_by_time localeCompare x l) = x :: filter P l.
Proof.
  intros Hx Hl. induction Hl as [|y l Hy Hl IH]; simpl.
  - by rewrite filter_cons_True.
  - destruct (localeCompare (item_time x) (item_time y)) eqn:E;
      try by rewrite filter_cons_True.
    rewrite !(filter_cons_False _ y) by tauto. exact IH.
Qed.

Hypothesis localeCompare_times : collates_times localeCompare.

Lemma filter_sort_with_new (new : ScheduleItem) (l : list ScheduleItem) :
  all_HHMM l → time_sorted l →
  Forall (λ x, item_id x ≠ item_id new) l →
  filter (λ x, item_id x ≠ item_id new) (sort_by_time localeCompare (l ++ [new])) = l.
Proof.
  intros Hl Hs Hfresh.
  unfold sort_by_time. rewrite foldr_app. cbn [foldr insert_by_time].
  induction Hs as [|x l Hs IH Hx]; simpl.
  - rewrite filter_cons_False, filter_nil; [done|]. tauto.
  - inversion Hl as [|? ? Hxt Hl']; subst.
    inversion Hfresh as [|? ? Hxid Hfresh']; subst.
    specialize (IH Hl' Hfresh').
    rewrite filter_insert_by_time; [by rewrite IH|done|].
    apply Forall_forall. intros y Hy Hyid.
    assert (y ∈ l) as Hyl.
    { rewrite <- IH. apply list_elem_of_filter. by split. }
    rewrite Forall_forall in Hx. specialize (Hx y Hyl).
    unfold all_HHMM in Hl'. rewrite Forall_forall in Hl'.
    rewrite (localeCompare_times _ _ Hxt (Hl' y Hyl)).
    exact Hx.
Qed.

(** X5: for a collation that orders times as their code units do, on a
    list in time order whose times are [HH:MM], adding an entry
    and then deleting the id it was given, when no entry had that id before,
    gives the report back, whatever the time of the new entry. *)
Theorem adding_then_deleting_an_entry_gives_the_list_back (now : N) (ty : ListType)
    (item : NewScheduleItem) (r : DailyReport) :
  let id := type_initial ty ++ String_of_Z (Z.of_N now) in
  all_HHMM (get_list ty r) → time_sorted (get_list ty r) →
  Forall (λ x, item_id x ≠ id) (get_list ty r) →
  Report.deleteScheduleItem ty id
    (Report.addScheduleItem localeCompare now ty item (Some r)) = Some r.
Proof.
  intros id Hl Hs Hfresh.
  unfold Report.deleteScheduleItem, Report.addScheduleItem, Report.setReport.
  f_equal. cbv zeta.
  assert (∀ l, get_list ty (with_list ty r l) = l) as Hget by (by destruct ty).
  rewrite Hget.
  assert (∀ l l', with_list ty (with_list ty r l) l' = with_list ty r l') as ->
    by (by destruct ty).
  fold id.
  rewrite (filter_sort_with_new
             (mkScheduleItem id (new_time item) (new_project item) (new_task item)))
    by done.
  by destruct ty, r.
Qed.

End AddDelete.

Lemma adding_then_deleting_an_entry_gives_the_list_back_witness :
  Report.deleteScheduleItem PlanList (js "p1736900000000")
    (Report.addScheduleItem lex_compare 1736900000000 PlanList
       (mkNewScheduleItem (js "10:00") (js "P1") (js "review")) (Some Examples.report1))
  = Some Examples.report1.
Proof.
  assert (collates_times lex_compare) as Hc by (intros a b _ _; reflexivity).
  apply (adding_then_deleting_an_entry_gives_the_list_back lex_compare Hc
           1736900000000 PlanList).
  - repeat constructor.
  - repeat constructor; by vm_compute.
  - repeat constructor; by vm_compute.
Defined.

(** ** The id of a copy made by a drag *)

Lemma String_of_N_inj (n m : N) :
  String_of_Z (Z.of_N n) = String_of_Z (Z.of_N m) → n = m.
Proof.
  unfold String_of_Z. intros H. apply js_inj in H.
  apply (inj pretty) in H. lia.
Qed.

Lemma random_id_inj (now now' : N) (rnd rnd' : jsstring) :
  random_id now rnd = random_id now' rnd' → now = now' ∧ rnd = rnd'.
Proof.
  unfold random_id. intros E. apply app_inv_head in E.
  change (js "-") with [45%N] in E. cbn [app] in E.
  apply numeral_dash_inv in E as [E ->]; [|apply String_of_N_digits..].
  split; [by apply String_of_N_inj|done].
Qed.

Lemma random_id_hyphen (now : N) (rnd : jsstring) : 45%N ∈ random_id now rnd.
Proof.
  unfold random_id. rewrite !elem_of_app. right. right. left.
  change (js "-") with [45%N]. apply list_elem_of_here.
Qed.

Section CopyClaim.

Variable localeCompare : jsstring → jsstring → comparison.

(** C4: a plan entry that is not a break, released over the result area.
    The result list gains exactly one entry, with the project and the
    task of the plan entry; the plan (like the todos and the notes) is
    unchanged, and [updatePlan] is not called.  The id of the new entry
    is generated at the release: it is [r], the numeral of the clock, a
    hyphen and the random suffix, so it is not the id of the plan entry
    nor of any entry whose id holds no hyphen (as the ids that the
    decoder and [addScheduleItem] give), and two copies have the same id
    only for the same reading of the clock and the same suffix. *)
Theorem release_plan_item_over_result_copies (p : Props) (now : N) (rnd : jsstring)
    (h : HookState) (ds : DragState) (report : DailyReport) (planItem : ScheduleItem) :
  dragState h = Some ds → currentReport p = Some report →
  type ds = PlanList → isDraggingToResult h = true →
  truthy (isBreak ds) = false →
  find (λ item, str_eqb (item_id item) (itemId ds)) (plan report) = Some planItem →
  let effects := snd (handleMouseUp localeCompare p now rnd h) in
  ∃ newItem r',
    run_effects effects (Some report) = Some r' ∧
    result r' ≡ₚ result report ++ [newItem] ∧
    length (result r') = S (length (result report)) ∧
    item_id newItem = js "r" ++ String_of_Z (Z.of_N now) ++ js "-" ++ rnd ∧
    (45%N ∉ item_id planItem → item_id newItem ≠ item_id planItem) ∧
    (∀ x, x ∈ plan report ++ result report → 45%N ∉ item_id x →
          item_id x ≠ item_id newItem) ∧
    (∀ now' rnd', item_id newItem = random_id now' rnd' → now' = now ∧ rnd' = rnd) ∧
    item_project newItem = item_project planItem ∧
    item_task newItem = item_task planItem ∧
    plan r' = plan report ∧ todos r' = todos report ∧ notes r' = notes report ∧
    date r' = date report ∧ author r' = author report ∧
    (∀ items, UpdatePlan items ∉ effects).
Proof.
  intros Hds Hr Hty Hover Hbrk Hfind effects. subst effects.
  rewrite (handleMouseUp_copy_item localeCompare p now rnd h ds report planItem) by done.
  eexists _, _. split; [reflexivity|]. simpl.
  split; [apply sort_by_time_perm|].
  split; [rewrite sort_by_time_length, length_app; simpl; lia|].
  split; [reflexivity|].
  split. { intros Hno E. apply Hno. rewrite <- E. apply random_id_hyphen. }
  split. { intros x _ Hno E. apply Hno. rewrite E. apply random_id_hyphen. }
  split. { intros now' rnd' E. apply random_id_inj in E as [-> ->]. done. }
  repeat (split; [reflexivity|]).
  intros items Hin.
  apply elem_of_cons in Hin as [E|Hin]; [discriminate E|].
  apply elem_of_cons in Hin as [E|Hin]; [discriminate E|].
  by apply elem_of_nil in Hin.
Qed.

End CopyClaim.

Lemma release_plan_item_over_result_copies_witness :
  ∃ newItem r',
    run_effects (snd (handleMouseUp lex_compare (Examples.props_of Examples.report1)
                        Examples.clock Examples.suffix Examples.item_held))
      (Some Examples.report1) = Some r' ∧
    result r' ≡ₚ result Examples.report1 ++ [newItem] ∧
    item_id newItem = js "r1736900000000-k3x9q2a" ∧
    item_id newItem ≠ js "p1" ∧
    plan r' = plan Examples.report1.
Proof.
  destruct (release_plan_item_over_result_copies lex_compare
              (Examples.props_of Examples.report1) Examples.clock Examples.suffix
              Examples.item_held
              (mkDragState (js "p1") PlanList 300 1170 None None)
              Examples.report1
              (mkScheduleItem (js "p1") (js "09:00") (js "P1") (js "design"))
              eq_refl eq_refl eq_refl eq_refl eq_refl)
    as (newItem & r' & H1 & H2 & _ & H3 & H4 & _ & _ & _ & _ & H5 & _).
  - by vm_compute.
  - exists newItem, r'. split; [exact H1|]. split; [exact H2|].
    split; [rewrite H3; by vm_compute|]. split; [|exact H5].
    apply H4. simpl. intros Hin.
    repeat (apply elem_of_cons in Hin as [Hin|Hin]; [discriminate Hin|]).
    by apply elem_of_nil in Hin.
Defined.

(** ** The sections of a text *)

Lemma is_section_heading_false (line : jsstring) :
  is_section_heading line = false →
  matches (re_section "PLAN") line = false ∧ matches (re_section "RESULT") line = false ∧
  matches (re_section "TODO") line = false ∧ matches (re_section "NOTE") line = false.
Proof.
  unfold is_section_heading. intros H.
  repeat (apply orb_false_iff in H as [H ?]). done.
Qed.

Lemma is_section_heading_hashes (line : jsstring) :
  startsWith (js "##") line = false → is_section_heading line = false.
Proof.
  intros H. unfold is_section_heading. by rewrite !matches_section_hashes.
Qed.

(** Before the first heading the loop changes nothing. *)
Lemma parse_lines_no_heading (year : N) (pre : list jsstring) (i : nat) (st : ParseState) :
  Forall (λ l, startsWith (js "##") l = false) pre →
  ps_section st = NoSection →
  parse_lines year i pre st = Returns st.
Proof.
  intros Hpre Hsec.
  destruct (parse_lines_returns year pre i st) as [st' Hst']. rewrite Hst'. f_equal.
  apply (parse_lines_invariant_in year (λ _ s, s = st) pre) in Hst'; [done| |done].
  intros j line s s' Hin -> Hstep.
  apply (line_step_no_section year j line _ _); [|done|done].
  rewrite Forall_forall in Hpre. by apply Hpre.
Qed.

Lemma parse_line_schedule_heading (year : N) (i : nat) (ty : ListType) (st : ParseState) :
  ∃ s, parse_line year i (schedule_heading ty) st = Returns (set_section st s) ∧
       is_schedule_section s = true ∧ section_initial s = type_initial ty ∧
       (∀ r, section_list s r = get_list ty r) ∧
       (∀ r, get_list ty r = [] → section_list s r = []).
Proof.
  destruct ty.
  - exists SecPlan. unfold parse_line, schedule_heading.
    assert (matches (re_section "PLAN") (js "## [PLAN]") = true) as -> by (by vm_compute).
    done.
  - exists SecResult. unfold parse_line, schedule_heading.
    assert (matches (re_section "PLAN") (js "## [RESULT]") = false) as -> by (by vm_compute).
    assert (matches (re_section "RESULT") (js "## [RESULT]") = true) as -> by (by vm_compute).
    done.
Qed.

(** In a schedule section, a line that matches neither pattern and is no
    heading leaves every variable of the loop as it is. *)
Lemma parse_line_other (year : N) (i : nat) (st : ParseState) (line : jsstring) :
  is_schedule_section (ps_section st) = true →
  exec re_schedule line = None → exec re_end_time line = None →
  is_section_heading line = false →
  parse_line year i line st = Returns st.
Proof.
  intros Hsec H1 H2 Hh.
  apply is_section_heading_false in Hh as (E1 & E2 & E3 & E4).
  assert (is_todo_section (ps_section st) = false) as Htodo
    by (by destruct (ps_section st)).
  assert (is_note_section (ps_section st) = false) as Hnote
    by (by destruct (ps_section st)).
  unfold parse_line. rewrite E1, E2, E3, E4, Htodo. cbn [andb].
  unfold schedule_block. rewrite Hsec, H1, H2. cbn [andb].
  destruct (startsWith (js "*") line);
    unfold todo_block, description_block, note_block;
    repeat (progress (rewrite ?Htodo, ?Hnote; cbn [andb bind])); done.
Qed.

Lemma section_list_push_schedule (s : SectionName) (item : ScheduleItem) (r : DailyReport) :
  is_schedule_section s = true →
  section_list s (push_schedule s item r) = section_list s r ++ [item].
Proof. by destruct s. Qed.

(** The lines of a schedule section give their entries, in order. *)
Lemma parse_lines_schedule (year : N) (c : jsstring) (i : nat) (body : list jsstring)
    (items : list ScheduleItem) :
  schedule_lines c i body items →
  ∀ st, is_schedule_section (ps_section st) = true →
        section_initial (ps_section st) = c →
        ∃ st', parse_lines year i body st = Returns st' ∧
               ps_section st' = ps_section st ∧
               section_list (ps_section st) (ps_report st')
               = section_list (ps_section st) (ps_report st) ++ items.
Proof.
  induction 1 as [i|i w1 t w2 proj w3 task rest items Hw1 Ht Hw2 Hp Hw3 Hk _ IH
                 |i w1 t w2 rest items Hw1 Ht Hw2 _ IH
                 |i line rest items H1 H2 Hh _ IH]; intros st Hsec Hc.
  - exists st. by rewrite app_nil_r.
  - cbn [parse_lines]. rewrite parse_line_content by done. cbn [bind].
    edestruct IH as (st' & -> & Es & El); [exact Hsec|exact Hc|].
    exists st'. split; [done|]. split; [exact Es|].
    cbn [set_report ps_section ps_report] in El. rewrite El.
    rewrite section_list_push_schedule by done. rewrite Hc.
    by rewrite <- app_assoc.
  - cbn [parse_lines]. rewrite parse_line_bare by done. cbn [bind].
    edestruct IH as (st' & -> & Es & El); [exact Hsec|exact Hc|].
    exists st'. split; [done|]. split; [exact Es|].
    cbn [set_report ps_section ps_report] in El. rewrite El.
    rewrite section_list_push_schedule by done. rewrite Hc.
    by rewrite <- app_assoc.
  - cbn [parse_lines]. rewrite parse_line_other by done. cbn [bind]. by apply IH.
Qed.

(** C5: the decoding never throws, whatever the text.  In a text, the
    lines after a heading [## [PLAN]] or [## [RESULT]] are decoded to
    their entries, in order, in the list of the section: a line
    [* HH:MM [PROJECT] task text] to a content entry with that time,
    project and task, a line [* HH:MM] to a bare-time marker with an
    empty project and an empty task, and a line that matches neither
    pattern to no entry.  What was decoded before the heading comes
    before these entries (nothing, when no line before starts with
    [##]), and what is decoded after the lines comes after them
    (nothing, when the text ends with them). *)
Theorem schedule_decoding_total_and_tolerant :
  (∀ year date content, ∃ r, parseReportFromMarkdown year date content = Returns r) ∧
  (∀ year date ty pre body post items,
     Forall one_line (pre ++ body ++ post) →
     schedule_lines (type_initial ty) (S (length pre)) body items →
     ∃ r before after,
       parseReportFromMarkdown year date
         (join_lines (pre ++ schedule_heading ty :: body ++ post)) = Returns r ∧
       get_list ty r = before ++ items ++ after ∧
       (Forall (λ l, startsWith (js "##") l = false) pre → before = []) ∧
       (post = [] → after = [])).
Proof.
  split; [exact parseReportFromMarkdown_returns|].
  intros year date ty pre body post items Hone Hbody.
  unfold parseReportFromMarkdown. cbv zeta.
  rewrite split_join_lines; [|by destruct pre|].
  2:{ apply Forall_app in Hone as [Hpre Hrest]. apply Forall_app. split; [exact Hpre|].
      constructor; [|exact Hrest]. destruct ty; by repeat constructor. }
  set (st0 := initial_state date _).
  destruct (parse_lines_returns year pre 0%nat st0) as [st1 Hst1].
  rewrite parse_lines_app, Hst1. cbn [bind parse_lines].
  destruct (parse_line_schedule_heading year (0 + length pre) ty st1)
    as (s & -> & Hs & Hc & Hl & _).
  cbn [bind]. rewrite parse_lines_app.
  destruct (parse_lines_schedule year (type_initial ty) (S (length pre)) body items Hbody
              (set_section st1 s)) as (st2 & Hst2 & Es & El); [exact Hs|exact Hc|].
  change (S (0 + length pre)) with (S (length pre)). rewrite Hst2. cbn [bind].
  cbn [set_section ps_section ps_report] in Es, El.
  destruct (parse_lines_returns year post (S (length pre) + length body) st2)
    as [st3 Hst3].
  rewrite Hst3. cbn [bind].
  assert (∃ after, section_list s (ps_report st3) = section_list s (ps_report st2) ++ after
                   ∧ (post = [] → after = [])) as (after & Ea & Hafter).
  { destruct post as [|l post].
    - exists []. simpl in Hst3. injection Hst3 as <-. by rewrite app_nil_r.
    - apply parse_lines_grows in Hst3 as [[e1 H1] [e2 H2]].
      destruct s; try done; simpl; [exists e1|exists e2]; by split. }
  eexists _, (section_list s (ps_report st1)), after.
  split; [reflexivity|].
  split.
  { assert (∀ r n, get_list ty (with_notes r n) = get_list ty r) as -> by (by destruct ty).
    by rewrite <- Hl, Ea, El, <- app_assoc. }
  split; [|exact Hafter].
  intros Hpre.
  assert (st1 = st0) as ->.
  { rewrite parse_lines_no_heading in Hst1; [by injection Hst1|done|].
    subst st0. by destruct (initial_state_lists date
      (pre ++ schedule_heading ty :: body ++ post)) as (_ & _ & _ & _ & _ & ->). }
  subst st0.
  destruct (initial_state_lists date (pre ++ schedule_heading ty :: body ++ post))
    as (Ep & Er & _).
  destruct s; try done; simpl; done.
Qed.

Lemma schedule_decoding_total_and_tolerant_witness :
  ∃ r, parseReportFromMarkdown 2025 (js "2025-01-15")
         (join_lines [js "# title"; js "## [PLAN]";
                      js "* 09:00 [P1] design"; js "* 10:00"; js "junk"])
       = Returns r ∧
       plan r = [mkScheduleItem (js "p2") (js "09:00") (js "P1") (js "design");
                 mkScheduleItem (js "breakp3") (js "10:00") [] []].
Proof.
  destruct schedule_decoding_total_and_tolerant as [_ H].
  destruct (H 2025%N (js "2025-01-15") PlanList [js "# title"]
              [js "* 09:00 [P1] design"; js "* 10:00"; js "junk"] []
              [mkScheduleItem (js "p2") (js "09:00") (js "P1") (js "design");
               mkScheduleItem (js "breakp3") (js "10:00") [] []])
    as (r & before & after & Hr & Hl & Hb & Ha).
  - repeat constructor; by vm_compute.
  - apply (lines_content (js "p") 2 (js " ") (js "09:00") (js " ") (js "P1") (js " ")
             (js "design")).
    + split; [discriminate|repeat constructor].
    + reflexivity.
    + split; [discriminate|repeat constructor].
    + split; [discriminate|repeat constructor].
    + split; [discriminate|repeat constructor].
    + split; [discriminate|]. split; [repeat constructor|reflexivity].
    + apply (lines_bare (js "p") 3 (js " ") (js "10:00") []).
      * split; [discriminate|repeat constructor].
      * reflexivity.
      * constructor.
      * apply lines_other; [reflexivity|reflexivity|reflexivity|apply lines_done].
  - exists r. split; [exact Hr|].
    rewrite Hb, Ha in Hl; [|done|repeat constructor; by vm_compute].
    simpl in Hl. exact Hl.
Defined.

(** ** The description lines of a todo *)



Lemma dash_not_indented (line : jsstring) :
  startsWith (js "-") line = true → matches re_indent line = false.
Proof.
  intros H. destruct line as [|x s]; [done|].
  destruct (decide (x = 45%N)) as [->|Hx].
  - by apply matches_re_indent_false1.
  - by rewrite startsWith_dash in H.
Qed.






(** ** What ends the lines of a todo *)






(** ** The description that the lines build *)







